(** * Engagement analysis service: a shallow embedding and its properties

    This development embeds [backend/services/engagementService.js] in
    Rocq and proves properties of the embedded functions.

    Modelling conventions.
    - A JavaScript string is the list of its UTF-16 code units ([jsstring]);
      [text.length] is the length of that list.
    - Counts and scores are integers ([Z]).  The two places where the source
      leaves the integers (the densities and the words-per-sentence average)
      are carried as exact rationals; binary rounding of the quotient is not
      modelled.  A division is modelled with its JavaScript outcomes for a
      zero divisor ([NaN], [Infinity]).
    - [String.prototype.toLowerCase] is a library function of the host; the
      definitions that call it take it as a section variable.
    - [console.log] calls are not modelled. *)

From Stdlib Require Import List ZArith NArith QArith Qround Lia Bool.
From Stdlib Require Import Strings.String Strings.Ascii.
Import ListNotations.

Local Open Scope Z_scope.

(* ================================================================== *)
(** ** JavaScript strings *)

Module JS.

Definition jsstring := list N.

(** ASCII literal to code units (one unit per character). *)
Fixpoint lit (s : string) : jsstring :=
  match s with
  | EmptyString => []
  | String c s' => N_of_ascii c :: lit s'
  end.

Definition inRange (lo hi c : N) : bool := (N.leb lo c && N.leb c hi)%bool.

(** [\s] of a regular expression and the characters [trim] strips:
    WhiteSpace and LineTerminator of ECMA-262. *)
Definition isWhiteSpace (c : N) : bool :=
  (inRange 9 13 c || N.eqb c 32 || N.eqb c 160 || N.eqb c 5760
   || inRange 8192 8202 c || N.eqb c 8232 || N.eqb c 8233 || N.eqb c 8239
   || N.eqb c 8287 || N.eqb c 12288 || N.eqb c 65279)%bool.

(** [\w] without the [u] and [i] flags: [A-Za-z0-9_]. *)
Definition isWordChar (c : N) : bool :=
  (inRange 48 57 c || inRange 65 90 c || N.eqb c 95 || inRange 97 122 c)%bool.

Fixpoint takeWhile (p : N -> bool) (s : jsstring) : jsstring :=
  match s with
  | [] => []
  | c :: r => if p c then c :: takeWhile p r else []
  end.

Fixpoint dropWhile (p : N -> bool) (s : jsstring) : jsstring :=
  match s with
  | [] => []
  | c :: r => if p c then dropWhile p r else s
  end.

Definition trimStart (s : jsstring) : jsstring := dropWhile isWhiteSpace s.
Definition trimEnd (s : jsstring) : jsstring := rev (dropWhile isWhiteSpace (rev s)).
Definition trim (s : jsstring) : jsstring := trimEnd (trimStart s).

Fixpoint str_eqb (a b : jsstring) : bool :=
  match a, b with
  | [], [] => true
  | x :: a', y :: b' => (N.eqb x y && str_eqb a' b')%bool
  | _, _ => false
  end.

Fixpoint startsWith (sub s : jsstring) : bool :=
  match sub, s with
  | [], _ => true
  | _ :: _, [] => false
  | x :: sub', y :: s' => (N.eqb x y && startsWith sub' s')%bool
  end.

(** [s.includes(sub)]: [sub] occurs in [s] as a substring. *)
Fixpoint includes (s sub : jsstring) : bool :=
  (startsWith sub s ||
   match s with
   | [] => false
   | _ :: s' => includes s' sub
   end)%bool.

(** *** Regular expressions

    A pattern is given by its matcher at the start of the remaining input:
    [Some n] when the pattern matches the next [n] code units.  All the
    patterns of the service are a character class or a literal followed by a
    greedy run, so the leftmost match at a position is the longest one. *)
Definition matcher := jsstring -> option nat.

(** [cls+] *)
Definition m_plus (cls : N -> bool) : matcher := fun s =>
  match List.length (takeWhile cls s) with
  | O => None
  | n => Some n
  end.

(** [c cls+], as in [/#[\w]+/]. *)
Definition m_tag (tag : N) (cls : N -> bool) : matcher := fun s =>
  match s with
  | c :: r =>
      if N.eqb c tag then
        match List.length (takeWhile cls r) with
        | O => None
        | n => Some (S n)
        end
      else None
  | [] => None
  end.

Definition isHighSurrogate (c : N) : bool := inRange 55296 56319 c.
Definition isLowSurrogate (c : N) : bool := inRange 56320 57343 c.

(** Code point at the start of [s] and its width in code units, as the [u]
    flag reads the input. *)
Definition codePointAt (s : jsstring) : option (N * nat) :=
  match s with
  | [] => None
  | h :: l :: _ =>
      if (isHighSurrogate h && isLowSurrogate l)%bool
      then Some (((h - 55296) * 1024 + (l - 56320) + 65536)%N, 2%nat)
      else Some (h, 1%nat)
  | h :: _ => Some (h, 1%nat)
  end.

(** A single character class under the [u] flag. *)
Definition m_class_u (cls : N -> bool) : matcher := fun s =>
  match codePointAt s with
  | Some (cp, w) => if cls cp then Some w else None
  | None => None
  end.

(** How far the scan moves after a failed attempt (AdvanceStringIndex). *)
Definition advance (unicode : bool) (s : jsstring) : nat :=
  if unicode then
    match codePointAt s with
    | Some (_, w) => w
    | None => 1%nat
    end
  else 1%nat.

(** [s.match(re) || []] for a global [re]: all matches, left to right, each
    attempt starting where the previous match ended.  [skip] is the number
    of code units between the current position and the position of the next
    attempt ([lastIndex]). *)
Fixpoint matchAll_from (unicode : bool) (m : matcher) (skip : nat) (s : jsstring)
  : list jsstring :=
  match s with
  | [] => []
  | _ :: r =>
      match skip with
      | S k => matchAll_from unicode m k r
      | O =>
          match m s with
          | Some n => firstn n s :: matchAll_from unicode m (Nat.pred n) r
          | None => matchAll_from unicode m (Nat.pred (advance unicode s)) r
          end
      end
  end.

Definition matchAll (unicode : bool) (m : matcher) (s : jsstring) : list jsstring :=
  matchAll_from unicode m 0 s.

(** [s.split(re)] for a pattern that cannot match the empty string.
    [piece] is the current piece, reversed. *)
Fixpoint split_from (m : matcher) (skip : nat) (piece : jsstring) (s : jsstring)
  : list jsstring :=
  match s with
  | [] => [rev piece]
  | c :: r =>
      match skip with
      | S k => split_from m k piece r
      | O =>
          match m s with
          | Some (S n) => rev piece :: split_from m n [] r
          | _ => split_from m 0 (c :: piece) r
          end
      end
  end.

Definition split (m : matcher) (s : jsstring) : list jsstring :=
  match s with
  | [] => [[]]
  | _ => split_from m 0 [] s
  end.

(** [[...new Set(xs)]]: first occurrences, in order. *)
Fixpoint dedupe_from (seen : list jsstring) (xs : list jsstring) : list jsstring :=
  match xs with
  | [] => []
  | x :: r =>
      if existsb (str_eqb x) seen then dedupe_from seen r
      else x :: dedupe_from (x :: seen) r
  end.

Definition dedupe (xs : list jsstring) : list jsstring := dedupe_from [] xs.

(** *** Numbers *)

(** The value of a JavaScript division of two counts. *)
Inductive jsnum :=
| Finite (q : Q)
| NaN
| Infinity.

Definition js_div (a b : Z) : jsnum :=
  if Z.eqb b 0 then (if Z.eqb a 0 then NaN else Infinity)
  else Finite (inject_Z a / inject_Z b).

Definition js_mul (x : jsnum) (k : Q) : jsnum :=
  match x with
  | Finite q => Finite (q * k)
  | other => other
  end.

(** [Math.round]: nearest integer, halves towards positive infinity. *)
Definition Math_round (x : Q) : Z := Qfloor (x + (1 # 2)).

Definition Math_max (a b : Z) : Z := if Z.ltb a b then b else a.
Definition Math_min (a b : Z) : Z := if Z.ltb b a then b else a.

Definition len (s : jsstring) : Z := Z.of_nat (List.length s).
Definition count {A : Type} (l : list A) : Z := Z.of_nat (List.length l).

End JS.

Import JS.

(* ================================================================== *)
(** ** Data model *)

Inductive Strength := CtaNone | CtaWeak | CtaMedium | CtaStrong.
Inductive Platform := General | Twitter | Linkedin.
Inductive Status := Good | TooShort | TooLong.
(** ['poor'] only occurs in the object returned for empty input. *)
Inductive Level := Excellent | Moderate | Difficult | LevelTooShort | Poor.
Inductive Complexity := CxLow | CxMedium | CxHigh.
Inductive Tone := Positive | Negative | Neutral.
Inductive EngagementLevel := EngLow | EngMedium | EngHigh.
Inductive Priority := High | Medium | Low.
Inductive Grade := GradeAplus | GradeA | GradeB | GradeC | GradeD | GradeF.

Definition grade_text (g : Grade) : jsstring :=
  match g with
  | GradeAplus => lit "A+"
  | GradeA => lit "A"
  | GradeB => lit "B"
  | GradeC => lit "C"
  | GradeD => lit "D"
  | GradeF => lit "F"
  end.

Module Hashtags.
Record t := { found : Z; recommended : Z; list : list jsstring; density : jsnum }.
End Hashtags.

Module Mentions.
Record t := { found : Z; recommended : Z; list : list jsstring }.
End Mentions.

Module CallToAction.
Record t := { found : bool; strength : Strength; words : list jsstring; count : Z }.
End CallToAction.

Module Length.
Record t := { characters : Z; words : Z; platform : Platform; optimal : jsstring;
              status : Status }.
End Length.

Module Readability.
Record t := { score : Z; level : Level; avgWordsPerSentence : Q; sentences : Z;
              complexity : Complexity }.
End Readability.

Module Sentiment.
Record t := { tone : Tone; engagement : EngagementLevel; positiveWords : Z;
              negativeWords : Z; engagementWords : Z }.
End Sentiment.

Module Emojis.
Record t := { found : Z; list : list jsstring; density : jsnum }.
End Emojis.

(** The [analysis] object built from the seven extractors. *)
Module Analysis.
Record t := {
  hashtags : Hashtags.t;
  mentions : Mentions.t;
  callToAction : CallToAction.t;
  length : Length.t;
  readability : Readability.t;
  sentiment : Sentiment.t;
  emojis : Emojis.t
}.
End Analysis.

(** The [analysis] object literal of the empty-input branch: six records,
    each with two fields. *)
Module Canned.
Record counts := { found : Z; recommended : Z }.
Record cta := { cta_found : bool; strength : Strength }.
Record length_t := { current : Z; optimal : jsstring }.
Record readability_t := { score : Z; level : Level }.
Record sentiment_t := { tone : Tone; engagement : EngagementLevel }.
Record t := {
  hashtags : counts;
  mentions : counts;
  callToAction : cta;
  length : length_t;
  readability : readability_t;
  sentiment : sentiment_t
}.
End Canned.

Inductive AnalysisObject :=
| Extracted (a : Analysis.t)
| Default (d : Canned.t).

Record Suggestion := {
  type : jsstring;
  priority : Priority;
  icon : jsstring;
  title : jsstring;
  description : jsstring;
  example : jsstring
}.

(** An element of [suggestions]: a plain string in the empty-input branch,
    a suggestion object otherwise. *)
Inductive SuggestionEntry :=
| Message (s : jsstring)
| Advice (s : Suggestion).

Record AnalysisResult := {
  score : Z;
  grade : Grade;
  suggestions : list SuggestionEntry;
  analysis : AnalysisObject;
  optimizedContent : option jsstring   (* [None]: the field is absent *)
}.

(* ================================================================== *)
(** ** Feature extractors *)

Definition isSentenceEnd (c : N) : bool :=
  (N.eqb c 46 || N.eqb c 33 || N.eqb c 63)%bool.      (* . ! ? *)

Definition isEmoji (cp : N) : bool :=
  (inRange 127744 128767 cp      (* U+1F300 - U+1F6FF *)
   || inRange 129280 129535 cp   (* U+1F900 - U+1F9FF *)
   || inRange 9728 9983 cp       (* U+2600 - U+26FF *)
   || inRange 9984 10175 cp)%bool. (* U+2700 - U+27BF *)

Definition whitespaceRun : matcher := m_plus isWhiteSpace.
Definition nonEmpty (s : jsstring) : bool := len s >? 0.

(** [text.split(/\s+/).filter(word => word.length > 0).length] *)
Definition wordCount (text : jsstring) : Z :=
  count (filter nonEmpty (split whitespaceRun text)).

Definition analyzeHashtags (text : jsstring) : Hashtags.t :=
  let hashtagRegex := m_tag 35 isWordChar in
  let hashtags := matchAll false hashtagRegex text in
  {| Hashtags.found := count hashtags;
     Hashtags.recommended := if count hashtags <? 3 then 3 else count hashtags;
     Hashtags.list := hashtags;
     Hashtags.density :=
       js_mul (js_div (count hashtags) (count (split whitespaceRun text))) 100 |}.

Definition analyzeMentions (text : jsstring) : Mentions.t :=
  let mentionRegex := m_tag 64 isWordChar in
  let mentions := matchAll false mentionRegex text in
  {| Mentions.found := count mentions;
     Mentions.recommended := if count mentions <? 2 then 2 else count mentions;
     Mentions.list := mentions |}.

Definition ctaWords : list jsstring :=
  map lit
    ["click"; "buy"; "shop"; "download"; "subscribe"; "follow"; "share";
     "like"; "comment"; "join"; "sign up"; "get started"; "learn more";
     "discover"; "explore"; "try"; "watch"; "read"; "visit"; "check out"]%string.

Definition analyzeLength (text : jsstring) : Length.t :=
  let charCount := len text in
  let wordCount := count (filter nonEmpty (split whitespaceRun text)) in
  let platform := General in
  let optimal := lit "140-280" in
  let status := Good in
  let '(platform, optimal, status) :=
    if charCount >? 280 then
      (Linkedin, lit "100-300", if charCount >? 500 then TooLong else Good)
    else if charCount <=? 280 then
      (Twitter, lit "140-280", if charCount <? 100 then TooShort else Good)
    else (platform, optimal, status) in
  {| Length.characters := charCount;
     Length.words := wordCount;
     Length.platform := platform;
     Length.optimal := optimal;
     Length.status := status |}.

Definition Qgtb (a b : Q) : bool := negb (Qle_bool a b).

Definition analyzeReadability (text : jsstring) : Readability.t :=
  let sentences :=
    count (filter (fun s => len (trim s) >? 0) (split (m_plus isSentenceEnd) text)) in
  let words := count (filter nonEmpty (split whitespaceRun text)) in
  let avgWordsPerSentence :=
    if sentences >? 0 then (inject_Z words / inject_Z sentences)%Q else 0%Q in
  let score := 100 in
  let level := Excellent in
  (* Penalty for long sentences *)
  let '(score, level) :=
    if Qgtb avgWordsPerSentence 20 then (score - 30, Difficult)
    else if Qgtb avgWordsPerSentence 15 then (score - 15, Moderate)
    else (score, level) in
  (* Penalty for very short content *)
  let '(score, level) :=
    if words <? 10 then (score - 20, LevelTooShort) else (score, level) in
  let score := Math_max 0 (Math_min 100 score) in
  {| Readability.score := Math_round (inject_Z score);
     Readability.level := level;
     Readability.avgWordsPerSentence :=
       (inject_Z (Math_round (avgWordsPerSentence * 10)) / 10)%Q;
     Readability.sentences := sentences;
     Readability.complexity :=
       if Qgtb avgWordsPerSentence 15 then CxHigh
       else if Qgtb avgWordsPerSentence 10 then CxMedium
       else CxLow |}.

Definition positiveWords : list jsstring :=
  map lit
    ["great"; "awesome"; "amazing"; "excellent"; "fantastic"; "love"; "best";
     "perfect"; "wonderful"; "incredible"; "outstanding"; "brilliant"]%string.

Definition negativeWords : list jsstring :=
  map lit
    ["bad"; "terrible"; "awful"; "hate"; "worst"; "horrible"; "disappointing";
     "failed"; "broken"; "useless"]%string.

Definition engagementWords : list jsstring :=
  map lit
    ["new"; "exciting"; "innovative"; "revolutionary"; "breakthrough";
     "exclusive"; "limited"; "special"; "unique"; "trending"]%string.

Definition analyzeEmojis (text : jsstring) : Emojis.t :=
  let emojiRegex := m_class_u isEmoji in
  let emojis := matchAll true emojiRegex text in
  {| Emojis.found := count emojis;
     Emojis.list := dedupe emojis;
     Emojis.density :=
       js_mul (js_div (count emojis) (count (split whitespaceRun text))) 100 |}.

Section WithToLowerCase.

(** [String.prototype.toLowerCase] of the host. *)
Variable toLowerCase : jsstring -> jsstring.

Definition analyzeCallToAction (text : jsstring) : CallToAction.t :=
  let lowerText := toLowerCase text in
  let foundCTAs := filter (fun cta => includes lowerText cta) ctaWords in
  let strength := CtaNone in
  let strength :=
    if count foundCTAs >=? 3 then CtaStrong
    else if count foundCTAs >=? 2 then CtaMedium
    else if count foundCTAs >=? 1 then CtaWeak
    else strength in
  {| CallToAction.found := count foundCTAs >? 0;
     CallToAction.strength := strength;
     CallToAction.words := foundCTAs;
     CallToAction.count := count foundCTAs |}.

Definition analyzeSentiment (text : jsstring) : Sentiment.t :=
  let lowerText := toLowerCase text in
  let positiveCount := count (filter (fun word => includes lowerText word) positiveWords) in
  let negativeCount := count (filter (fun word => includes lowerText word) negativeWords) in
  let engagementCount := count (filter (fun word => includes lowerText word) engagementWords) in
  let tone := Neutral in
  let engagement := EngMedium in
  let tone :=
    if positiveCount >? negativeCount then Positive
    else if negativeCount >? positiveCount then Negative
    else tone in
  let engagement :=
    if engagementCount >=? 3 then EngHigh
    else if engagementCount >=? 1 then EngMedium
    else EngLow in
  {| Sentiment.tone := tone;
     Sentiment.engagement := engagement;
     Sentiment.positiveWords := positiveCount;
     Sentiment.negativeWords := negativeCount;
     Sentiment.engagementWords := engagementCount |}.

End WithToLowerCase.

(* ================================================================== *)
(** ** Suggestions *)

Definition dquote : jsstring := [34%N].
Definition VS16 : N := 65039%N.   (* U+FE0F, variation selector *)

Definition addHashtags : Suggestion :=
  {| type := lit "hashtags";
     priority := High;
     icon := [55356; 57335; VS16]%N;
     title := lit "Add Hashtags for Discoverability";
     description := lit "Include 2-3 relevant hashtags to increase reach and engagement";
     example := lit "#innovation #tech #socialmedia" |}.

Definition reduceHashtags : Suggestion :=
  {| type := lit "hashtags";
     priority := Medium;
     icon := [9888; VS16]%N;
     title := lit "Reduce Hashtag Count";
     description := lit "Too many hashtags can appear spammy. Keep it to 3-5 relevant ones";
     example := lit "Focus on your top 3 most relevant hashtags" |}.

Definition addCallToAction : Suggestion :=
  {| type := lit "cta";
     priority := High;
     icon := [55357; 56390]%N;
     title := lit "Include a Clear Call-to-Action";
     description := lit "Add a specific action you want your audience to take";
     example :=
       dquote ++ lit "What do you think? Share your thoughts in comments!" ++ dquote |}.

Definition strengthenCallToAction : Suggestion :=
  {| type := lit "cta";
     priority := Medium;
     icon := [55357; 56490]%N;
     title := lit "Strengthen Your Call-to-Action";
     description := lit "Make your call-to-action more compelling and specific";
     example :=
       lit "Use stronger verbs like " ++ dquote ++ lit "discover" ++ dquote ++ lit ", "
       ++ dquote ++ lit "explore" ++ dquote ++ lit ", or " ++ dquote ++ lit "join" ++ dquote |}.

Definition shortenContent : Suggestion :=
  {| type := lit "length";
     priority := Medium;
     icon := [9986; VS16]%N;
     title := lit "Shorten Your Content";
     description := lit "Consider breaking long content into multiple posts or key points";
     example := lit "Aim for 140-280 characters for better engagement" |}.

Definition addContext : Suggestion :=
  {| type := lit "length";
     priority := Low;
     icon := [55357; 56541]%N;
     title := lit "Add More Context";
     description := lit "Provide more details or context to engage your audience better";
     example := lit "Add background information or personal insights" |}.

Definition tagPeople : Suggestion :=
  {| type := lit "mentions";
     priority := Medium;
     icon := [55357; 56421]%N;
     title := lit "Tag Relevant People or Brands";
     description := lit "Mention relevant accounts to increase visibility and engagement";
     example := lit "@company @influencer or industry leaders" |}.

Definition addEmojis : Suggestion :=
  {| type := lit "emojis";
     priority := Low;
     icon := [55357; 56842]%N;
     title := lit "Add Emojis for Visual Appeal";
     description := lit "Emojis can increase engagement and make content more approachable";
     example := [55357; 56960; 32; 10024; 32; 55357; 56481]%N ++ lit " for tech content" |}.

Definition improveReadability : Suggestion :=
  {| type := lit "readability";
     priority := High;
     icon := [55357; 56538]%N;
     title := lit "Improve Readability";
     description := lit "Break long sentences into shorter, more digestible chunks";
     example := lit "Keep sentences under 15-20 words for better engagement" |}.

Definition moreEngaging : Suggestion :=
  {| type := lit "engagement";
     priority := Medium;
     icon := [55357; 56613]%N;
     title := lit "Use More Engaging Language";
     description := lit "Add excitement and energy to capture attention";
     example :=
       lit "Use words like " ++ dquote ++ lit "amazing" ++ dquote ++ lit ", "
       ++ dquote ++ lit "breakthrough" ++ dquote ++ lit ", " ++ dquote ++ lit "exclusive"
       ++ dquote |}.

Definition strength_eqb (a b : Strength) : bool :=
  match a, b with
  | CtaNone, CtaNone | CtaWeak, CtaWeak | CtaMedium, CtaMedium | CtaStrong, CtaStrong => true
  | _, _ => false
  end.

Definition status_eqb (a b : Status) : bool :=
  match a, b with
  | Good, Good | TooShort, TooShort | TooLong, TooLong => true
  | _, _ => false
  end.

Definition level_eqb (a b : Level) : bool :=
  match a, b with
  | Excellent, Excellent | Moderate, Moderate | Difficult, Difficult
  | LevelTooShort, LevelTooShort | Poor, Poor => true
  | _, _ => false
  end.

Definition engagement_eqb (a b : EngagementLevel) : bool :=
  match a, b with
  | EngLow, EngLow | EngMedium, EngMedium | EngHigh, EngHigh => true
  | _, _ => false
  end.

(** [array.push(x)] on the local array. *)
Definition push (suggestions : list Suggestion) (s : Suggestion) : list Suggestion :=
  suggestions ++ [s].

Definition generateSuggestions (analysis : Analysis.t) (text : jsstring) : list Suggestion :=
  let suggestions := [] in
  (* Hashtag suggestions *)
  let suggestions :=
    if Hashtags.found (Analysis.hashtags analysis) =? 0 then push suggestions addHashtags
    else if Hashtags.found (Analysis.hashtags analysis) >? 5 then push suggestions reduceHashtags
    else suggestions in
  (* Call-to-action suggestions *)
  let suggestions :=
    if negb (CallToAction.found (Analysis.callToAction analysis))
    then push suggestions addCallToAction
    else if strength_eqb (CallToAction.strength (Analysis.callToAction analysis)) CtaWeak
    then push suggestions strengthenCallToAction
    else suggestions in
  (* Length suggestions *)
  let suggestions :=
    if status_eqb (Length.status (Analysis.length analysis)) TooLong
    then push suggestions shortenContent
    else if status_eqb (Length.status (Analysis.length analysis)) TooShort
    then push suggestions addContext
    else suggestions in
  (* Mention suggestions *)
  let suggestions :=
    if Mentions.found (Analysis.mentions analysis) =? 0 then push suggestions tagPeople
    else suggestions in
  (* Emoji suggestions *)
  let suggestions :=
    if Emojis.found (Analysis.emojis analysis) =? 0 then push suggestions addEmojis
    else suggestions in
  (* Readability suggestions *)
  let suggestions :=
    if level_eqb (Readability.level (Analysis.readability analysis)) Difficult
    then push suggestions improveReadability
    else suggestions in
  (* Sentiment suggestions *)
  let suggestions :=
    if engagement_eqb (Sentiment.engagement (Analysis.sentiment analysis)) EngLow
    then push suggestions moreEngaging
    else suggestions in
  suggestions.

(* ================================================================== *)
(** ** Score, grade, optimized text *)

Definition calculateEngagementScore (analysis : Analysis.t) : Z :=
  let score := 50 in (* Base score *)
  (* Hashtag scoring *)
  let score :=
    if ((Hashtags.found (Analysis.hashtags analysis) >=? 2)
        && (Hashtags.found (Analysis.hashtags analysis) <=? 5))%bool then score + 15
    else if Hashtags.found (Analysis.hashtags analysis) >=? 1 then score + 10
    else score - 10 in
  (* Call-to-action scoring *)
  let score :=
    if strength_eqb (CallToAction.strength (Analysis.callToAction analysis)) CtaStrong
    then score + 20
    else if strength_eqb (CallToAction.strength (Analysis.callToAction analysis)) CtaMedium
    then score + 15
    else if strength_eqb (CallToAction.strength (Analysis.callToAction analysis)) CtaWeak
    then score + 10
    else score - 15 in
  (* Length scoring *)
  let score :=
    if status_eqb (Length.status (Analysis.length analysis)) Good then score + 15
    else if status_eqb (Length.status (Analysis.length analysis)) TooLong then score - 5
    else if status_eqb (Length.status (Analysis.length analysis)) TooShort then score - 10
    else score in
  (* Readability scoring *)
  let score :=
    score + Math_round (inject_Z (Readability.score (Analysis.readability analysis)) * (2 # 10)) in
  (* Sentiment scoring *)
  let score :=
    if engagement_eqb (Sentiment.engagement (Analysis.sentiment analysis)) EngHigh
    then score + 15
    else if engagement_eqb (Sentiment.engagement (Analysis.sentiment analysis)) EngMedium
    then score + 10
    else score - 5 in
  (* Mentions scoring *)
  let score :=
    if ((Mentions.found (Analysis.mentions analysis) >=? 1)
        && (Mentions.found (Analysis.mentions analysis) <=? 3))%bool then score + 10
    else if Mentions.found (Analysis.mentions analysis) >? 3 then score - 5
    else score in
  (* Emoji scoring *)
  let score :=
    if ((Emojis.found (Analysis.emojis analysis) >=? 1)
        && (Emojis.found (Analysis.emojis analysis) <=? 3))%bool then score + 5
    else score in
  Math_max 0 (Math_min 100 (Math_round (inject_Z score))).

Definition getEngagementGrade (score : Z) : Grade :=
  if score >=? 90 then GradeAplus
  else if score >=? 80 then GradeA
  else if score >=? 70 then GradeB
  else if score >=? 60 then GradeC
  else if score >=? 50 then GradeD
  else GradeF.

Definition newline : N := 10%N.

(** [arr.join(sep)] *)
Fixpoint join (sep : jsstring) (xs : list jsstring) : jsstring :=
  match xs with
  | [] => []
  | [x] => x
  | x :: r => x ++ sep ++ join sep r
  end.

Definition generateOptimizedVersion (text : jsstring) (analysis : Analysis.t) : jsstring :=
  let optimized := trim text in
  (* Add hashtags if missing *)
  let optimized :=
    if Hashtags.found (Analysis.hashtags analysis) =? 0 then
      let suggestedHashtags := [lit "#content"; lit "#engagement"; lit "#socialmedia"] in
      optimized ++ ([newline; newline] ++ join (lit " ") suggestedHashtags)
    else optimized in
  (* Add call-to-action if missing *)
  let optimized :=
    if negb (CallToAction.found (Analysis.callToAction analysis)) then
      optimized ++ ([newline; newline]
                    ++ lit "What are your thoughts? Share in the comments! "
                    ++ [55357; 56391]%N)
    else optimized in
  optimized.

(* ================================================================== *)
(** ** Facade *)

Definition cannedAnalysis : Canned.t :=
  {| Canned.hashtags := {| Canned.found := 0; Canned.recommended := 3 |};
     Canned.mentions := {| Canned.found := 0; Canned.recommended := 2 |};
     Canned.callToAction := {| Canned.cta_found := false; Canned.strength := CtaNone |};
     Canned.length := {| Canned.current := 0; Canned.optimal := lit "140-280" |};
     Canned.readability := {| Canned.score := 0; Canned.level := Poor |};
     Canned.sentiment := {| Canned.tone := Neutral; Canned.engagement := EngLow |} |}.

(** [!text] on a string: true exactly for the empty string. *)
Definition falsy (text : jsstring) : bool :=
  match text with
  | [] => true
  | _ => false
  end.

Section Facade.

Variable toLowerCase : jsstring -> jsstring.

(** [type] is only used in the log line. *)
Definition analyzeEngagement (text : jsstring) (type : jsstring) : AnalysisResult :=
  if (falsy text || (len (trim text) =? 0))%bool then
    {| score := 0;
       grade := GradeF;
       suggestions := [Message (lit "No text content found to analyze")];
       analysis := Default cannedAnalysis;
       optimizedContent := None |}
  else
    let analysis :=
      {| Analysis.hashtags := analyzeHashtags text;
         Analysis.mentions := analyzeMentions text;
         Analysis.callToAction := analyzeCallToAction toLowerCase text;
         Analysis.length := analyzeLength text;
         Analysis.readability := analyzeReadability text;
         Analysis.sentiment := analyzeSentiment toLowerCase text;
         Analysis.emojis := analyzeEmojis text |} in
    let suggestions := generateSuggestions analysis text in
    let score := calculateEngagementScore analysis in
    let grade := getEngagementGrade score in
    {| score := score;
       grade := grade;
       suggestions := map Advice suggestions;
       analysis := Extracted analysis;
       optimizedContent := Some (generateOptimizedVersion text analysis) |}.

End Facade.

(** Lower-casing of the ASCII letters; agrees with the host's [toLowerCase]
    on text made of ASCII characters.  Used to run the service on examples. *)
Definition asciiLower (s : jsstring) : jsstring :=
  map (fun c => if inRange 65 90 c then (c + 32)%N else c) s.

(* ================================================================== *)
(** ** Statements of the specification *)

(** Empty, or made of whitespace only. *)
Definition isBlank (text : jsstring) : bool := forallb isWhiteSpace text.

Definition clamp (x lo hi : Z) : Z := Z.max lo (Z.min x hi).

(** The documented grade thresholds, as a relation between score and letter. *)
Definition gradeByThresholds (s : Z) (g : Grade) : Prop :=
  (90 <= s /\ g = GradeAplus)
  \/ (80 <= s < 90 /\ g = GradeA)
  \/ (70 <= s < 80 /\ g = GradeB)
  \/ (60 <= s < 70 /\ g = GradeC)
  \/ (50 <= s < 60 /\ g = GradeD)
  \/ (s < 50 /\ g = GradeF).

(** The documented terms of the weighted sum. *)
Definition hashtagTerm (found : Z) : Z :=
  if (2 <=? found) && (found <=? 5) then 15 else if 1 <=? found then 10 else -10.

Definition ctaTerm (s : Strength) : Z :=
  match s with
  | CtaStrong => 20
  | CtaMedium => 15
  | CtaWeak => 10
  | CtaNone => -15
  end.

Definition lengthTerm (s : Status) : Z :=
  match s with
  | Good => 15
  | TooLong => -5
  | TooShort => -10
  end.

Definition sentimentTerm (e : EngagementLevel) : Z :=
  match e with
  | EngHigh => 15
  | EngMedium => 10
  | EngLow => -5
  end.

Definition mentionTerm (found : Z) : Z :=
  if (1 <=? found) && (found <=? 3) then 10 else if 3 <? found then -5 else 0.

Definition emojiTerm (found : Z) : Z :=
  if (1 <=? found) && (found <=? 3) then 5 else 0.

Definition documentedScore (a : Analysis.t) : Z :=
  clamp
    (Math_round
       (inject_Z
          (50
           + hashtagTerm (Hashtags.found (Analysis.hashtags a))
           + ctaTerm (CallToAction.strength (Analysis.callToAction a))
           + lengthTerm (Length.status (Analysis.length a))
           + Math_round (inject_Z (Readability.score (Analysis.readability a)) * (2 # 10))
           + sentimentTerm (Sentiment.engagement (Analysis.sentiment a))
           + mentionTerm (Mentions.found (Analysis.mentions a))
           + emojiTerm (Emojis.found (Analysis.emojis a)))))
    0 100.

(** The analysis with its call-to-action record replaced. *)
Definition withCallToAction (a : Analysis.t) (c : CallToAction.t) : Analysis.t :=
  {| Analysis.hashtags := Analysis.hashtags a;
     Analysis.mentions := Analysis.mentions a;
     Analysis.callToAction := c;
     Analysis.length := Analysis.length a;
     Analysis.readability := Analysis.readability a;
     Analysis.sentiment := Analysis.sentiment a;
     Analysis.emojis := Analysis.emojis a |}.

(** Occurrences of [tag] directly followed by a word character: the number
    of [#word] (or [@word]) tokens of a text. *)
Fixpoint countTagged (tag : N) (s : jsstring) : Z :=
  match s with
  | [] => 0
  | c :: r =>
      (match r with
       | d :: _ => if (N.eqb c tag && isWordChar d)%bool then 1 else 0
       | [] => 0
       end) + countTagged tag r
  end.


(* ================================================================== *)
(** ** Reading the result object *)

(** [analysis.hashtags.found] and its siblings, for either shape of the
    [analysis] object; [None] stands for a field that is absent. *)
Definition hashtagsFound (o : AnalysisObject) : Z :=
  match o with
  | Extracted a => Hashtags.found (Analysis.hashtags a)
  | Default d => Canned.found (Canned.hashtags d)
  end.

Definition hashtagsRecommended (o : AnalysisObject) : Z :=
  match o with
  | Extracted a => Hashtags.recommended (Analysis.hashtags a)
  | Default d => Canned.recommended (Canned.hashtags d)
  end.

Definition mentionsFound (o : AnalysisObject) : Z :=
  match o with
  | Extracted a => Mentions.found (Analysis.mentions a)
  | Default d => Canned.found (Canned.mentions d)
  end.

Definition mentionsRecommended (o : AnalysisObject) : Z :=
  match o with
  | Extracted a => Mentions.recommended (Analysis.mentions a)
  | Default d => Canned.recommended (Canned.mentions d)
  end.

Definition callToActionFound (o : AnalysisObject) : bool :=
  match o with
  | Extracted a => CallToAction.found (Analysis.callToAction a)
  | Default d => Canned.cta_found (Canned.callToAction d)
  end.

Definition readabilityLevel (o : AnalysisObject) : Level :=
  match o with
  | Extracted a => Readability.level (Analysis.readability a)
  | Default d => Canned.level (Canned.readability d)
  end.

Definition emojisRecord (o : AnalysisObject) : option Emojis.t :=
  match o with
  | Extracted a => Some (Analysis.emojis a)
  | Default _ => None
  end.

Definition lengthPlatform (o : AnalysisObject) : option Platform :=
  match o with
  | Extracted a => Some (Length.platform (Analysis.length a))
  | Default _ => None
  end.



Definition isFinite (x : jsnum) : Prop :=
  match x with
  | Finite _ => True
  | _ => False
  end.

Definition isZero (x : jsnum) : Prop :=
  match x with
  | Finite q => (q == 0)%Q
  | _ => False
  end.

(** The seven feature records of a text. *)
Definition features (toLowerCase : jsstring -> jsstring) (text : jsstring) : Analysis.t :=
  {| Analysis.hashtags := analyzeHashtags text;
     Analysis.mentions := analyzeMentions text;
     Analysis.callToAction := analyzeCallToAction toLowerCase text;
     Analysis.length := analyzeLength text;
     Analysis.readability := analyzeReadability text;
     Analysis.sentiment := analyzeSentiment toLowerCase text;
     Analysis.emojis := analyzeEmojis text |}.

(** The documented fields and enum values of the seven records, beyond what
    the record types already fix: the readability level is one of the four
    documented ones, the readability score lies in [0,100], the counts are
    not negative and the platform is a classified one. *)
Definition documentedShape (a : Analysis.t) : Prop :=
  Readability.level (Analysis.readability a) <> Poor
  /\ 0 <= Readability.score (Analysis.readability a) <= 100
  /\ 0 <= Hashtags.found (Analysis.hashtags a)
  /\ 0 <= Hashtags.recommended (Analysis.hashtags a)
  /\ 0 <= Mentions.found (Analysis.mentions a)
  /\ 0 <= Mentions.recommended (Analysis.mentions a)
  /\ 0 <= Emojis.found (Analysis.emojis a)
  /\ CallToAction.found (Analysis.callToAction a)
     = negb (strength_eqb (CallToAction.strength (Analysis.callToAction a)) CtaNone).

(** The rule table of the suggestion generator: trigger, documented
    priority, suggestion. *)
Record Rule := {
  trigger : Analysis.t -> bool;
  documentedPriority : Priority;
  advice : Suggestion
}.

Definition rules : list Rule :=
  [ {| trigger := fun a => Hashtags.found (Analysis.hashtags a) =? 0;
       documentedPriority := High; advice := addHashtags |};
    {| trigger := fun a => 5 <? Hashtags.found (Analysis.hashtags a);
       documentedPriority := Medium; advice := reduceHashtags |};
    {| trigger := fun a => negb (CallToAction.found (Analysis.callToAction a));
       documentedPriority := High; advice := addCallToAction |};
    {| trigger := fun a =>
         strength_eqb (CallToAction.strength (Analysis.callToAction a)) CtaWeak;
       documentedPriority := Medium; advice := strengthenCallToAction |};
    {| trigger := fun a => status_eqb (Length.status (Analysis.length a)) TooLong;
       documentedPriority := Medium; advice := shortenContent |};
    {| trigger := fun a => status_eqb (Length.status (Analysis.length a)) TooShort;
       documentedPriority := Low; advice := addContext |};
    {| trigger := fun a => Mentions.found (Analysis.mentions a) =? 0;
       documentedPriority := Medium; advice := tagPeople |};
    {| trigger := fun a => Emojis.found (Analysis.emojis a) =? 0;
       documentedPriority := Low; advice := addEmojis |};
    {| trigger := fun a =>
         level_eqb (Readability.level (Analysis.readability a)) Difficult;
       documentedPriority := High; advice := improveReadability |};
    {| trigger := fun a =>
         engagement_eqb (Sentiment.engagement (Analysis.sentiment a)) EngLow;
       documentedPriority := Medium; advice := moreEngaging |} ].

(** Every rule, taken in order, contributes its suggestion when its trigger
    holds and nothing otherwise. *)
Definition documentedSuggestions (a : Analysis.t) : list Suggestion :=
  flat_map (fun r => if trigger r a then [advice r] else []) rules.

(** The order of the rule groups. *)
Definition ruleOrder : list jsstring :=
  [lit "hashtags"; lit "hashtags"; lit "cta"; lit "cta"; lit "length"; lit "length";
   lit "mentions"; lit "emojis"; lit "readability"; lit "engagement"].

Definition hashtagSuffix : jsstring :=
  [newline; newline] ++ lit "#content #engagement #socialmedia".

Definition callToActionSuffix : jsstring :=
  [newline; newline] ++ lit "What are your thoughts? Share in the comments! "
  ++ [55357; 56391]%N.

(* ================================================================== *)
(** ** Sample inputs *)

Definition samplePost : jsstring :=
  lit "Check out our new product! #launch #tech @company great amazing".

Definition whitespaceOnly : jsstring := [32; 9; 10]%N.

Definition noCallToAction : CallToAction.t :=
  {| CallToAction.found := false; CallToAction.strength := CtaNone;
     CallToAction.words := []; CallToAction.count := 0 |}.

Definition strongCallToAction : CallToAction.t :=
  {| CallToAction.found := true; CallToAction.strength := CtaStrong;
     CallToAction.words := [lit "share"; lit "comment"; lit "join"];
     CallToAction.count := 3 |}.

(* ================================================================== *)
(** ** Further statements *)

(** A tagged token: the tag followed by one or more word characters. *)
Definition isTaggedToken (tag : N) (x : jsstring) : Prop :=
  exists w : jsstring, x = tag :: w /\ w <> [] /\ forallb isWordChar w = true.

(** [x] occurs in [s] and is not followed there by a word character. *)
Definition occursMaximal (x s : jsstring) : Prop :=
  exists pre post : jsstring,
    s = pre ++ x ++ post
    /\ match post with
       | [] => True
       | c :: _ => isWordChar c = false
       end.

(** [w] occurs somewhere in [s]. *)
Definition occursIn (s w : jsstring) : Prop := exists pre post, s = pre ++ w ++ post.

(** [n] is the number of entries of [l] that satisfy [P]. *)
Inductive Counts {A : Type} (P : A -> Prop) : list A -> Z -> Prop :=
| Counts_nil : Counts P [] 0
| Counts_hit (x : A) (l : list A) (n : Z) :
    P x -> Counts P l n -> Counts P (x :: l) (n + 1)
| Counts_miss (x : A) (l : list A) (n : Z) :
    ~ P x -> Counts P l n -> Counts P (x :: l) n.

(** One code point of the emoji ranges, as one or two code units. *)
Definition isEmojiToken (e : jsstring) : Prop :=
  exists (cp : N) (w : nat),
    codePointAt e = Some (cp, w) /\ isEmoji cp = true /\ List.length e = w.

(** The order of the grades, F lowest. *)
Definition gradeRank (g : Grade) : Z :=
  match g with
  | GradeF => 0
  | GradeD => 1
  | GradeC => 2
  | GradeB => 3
  | GradeA => 4
  | GradeAplus => 5
  end.

(** [l1] is [l2] with some entries left out, the order kept. *)
Inductive Subseq {A : Type} : list A -> list A -> Prop :=
| Subseq_nil : Subseq [] []
| Subseq_skip (x : A) (l1 l2 : list A) : Subseq l1 l2 -> Subseq l1 (x :: l2)
| Subseq_take (x : A) (l1 l2 : list A) : Subseq l1 l2 -> Subseq (x :: l1) (x :: l2).

Fixpoint subseqb (l1 l2 : list jsstring) : bool :=
  match l2 with
  | [] => match l1 with [] => true | _ => false end
  | y :: l2' =>
      match l1 with
      | [] => true
      | x :: l1' => if str_eqb x y then subseqb l1' l2' else subseqb l1 l2'
      end
  end.

(** The seven suggestion categories, in the order the generator visits them. *)
Definition categoryOrder : list jsstring :=
  [lit "hashtags"; lit "cta"; lit "length"; lit "mentions"; lit "emojis";
   lit "readability"; lit "engagement"].

(** A post that draws no suggestion. *)
Definition polishedPost : jsstring :=
  lit "Discover our new product today and join the launch party with @company! "
  ++ [9728%N]
  ++ lit " Share your thoughts below #launch #tech".

(** A post with the lowest score a text can get. *)
Definition weakestPost : jsstring :=
  lit "@a @a @a @a b b b b b b b b b b b b b b b b b".

(* ================================================================== *)
(** ** The text sources: regular expressions with backtracking

    The analysed text comes from [backend/services/pdfService.js] or
    [backend/services/ocrService.js], called by the route of
    [backend/server.js].  The two services clean their text with patterns
    that need backtracking ([/\n\s*\n\s*\n/]).  A pattern is a term of [regex]; its
    matcher tries the alternatives in the order of ECMA-262: a greedy
    repetition first takes one more iteration and falls back to the rest of
    the pattern when that fails. *)

Inductive regex :=
| Chr (p : N -> bool)      (* a character class *)
| Cat (a b : regex)        (* a b *)
| Star (a : regex)         (* a*, greedy *)
| Plus (a : regex).        (* a+, greedy *)

(** [k] is the rest of the pattern; an iteration that consumes nothing ends
    the repetition.  [fuel] bounds the iterations by the input length. *)
Fixpoint repeatGreedy (step : jsstring -> (jsstring -> option jsstring) -> option jsstring)
  (fuel : nat) (s : jsstring) (k : jsstring -> option jsstring) : option jsstring :=
  match fuel with
  | O => k s
  | S f =>
      match step s (fun s' => if (List.length s' <? List.length s)%nat
                              then repeatGreedy step f s' k else None) with
      | Some rest => Some rest
      | None => k s
      end
  end.

(** The input left after the first successful way to match [r] and then [k]. *)
Fixpoint rmatch (r : regex) (s : jsstring) (k : jsstring -> option jsstring)
  : option jsstring :=
  match r with
  | Chr p =>
      match s with
      | c :: s' => if p c then k s' else None
      | [] => None
      end
  | Cat a b => rmatch a s (fun s' => rmatch b s' k)
  | Star a => repeatGreedy (rmatch a) (List.length s) s k
  | Plus a => rmatch a s (fun s' => repeatGreedy (rmatch a) (List.length s') s' k)
  end.

Definition m_regex (r : regex) : matcher := fun s =>
  match rmatch r s (fun rest => Some rest) with
  | Some rest => Some (List.length s - List.length rest)%nat
  | None => None
  end.

(** A literal string as a pattern, as in [split('\n')]. *)
Definition m_literal (sep : jsstring) : matcher := fun s =>
  if startsWith sep s then Some (List.length sep) else None.

(** [s.replace(re, ...)] for a global [re] that cannot match the empty
    string; [replacement] maps the matched text to what replaces it. *)
Fixpoint replaceAll_from (m : matcher) (replacement : jsstring -> jsstring)
  (skip : nat) (s : jsstring) : jsstring :=
  match s with
  | [] => []
  | c :: r =>
      match skip with
      | S k => replaceAll_from m replacement k r
      | O =>
          match m s with
          | Some (S n) => replacement (firstn (S n) s) ++ replaceAll_from m replacement n r
          | _ => c :: replaceAll_from m replacement 0 r
          end
      end
  end.

Definition replaceAll (m : matcher) (replacement : jsstring -> jsstring) (s : jsstring)
  : jsstring :=
  replaceAll_from m replacement 0 s.

Definition isNewline (c : N) : bool := N.eqb c 10.
Definition isSpace (c : N) : bool := N.eqb c 32.
Definition isSpaceOrTab (c : N) : bool := (N.eqb c 32 || N.eqb c 9)%bool.
Definition isLower (c : N) : bool := inRange 97 122 c.
Definition isUpper (c : N) : bool := inRange 65 90 c.

(** [[^\x20-\x7E\n\r\t]] *)
Definition isNonPrintable (c : N) : bool :=
  negb (inRange 32 126 c || N.eqb c 10 || N.eqb c 13 || N.eqb c 9)%bool.

(** [/\n\s*\n\s*\n/] *)
Definition tripleBreak : regex :=
  Cat (Chr isNewline)
    (Cat (Star (Chr isWhiteSpace))
       (Cat (Chr isNewline) (Cat (Star (Chr isWhiteSpace)) (Chr isNewline)))).

(** [/\n\s*\n/] *)
Definition paragraphBreak : regex :=
  Cat (Chr isNewline) (Cat (Star (Chr isWhiteSpace)) (Chr isNewline)).

(** [/([a-z])\s+([A-Z])/] *)
Definition wordGap : regex :=
  Cat (Chr isLower) (Cat (Plus (Chr isWhiteSpace)) (Chr isUpper)).

(** ['$1 $2'] for [wordGap]: its two groups are the first and the last code
    unit of the match. *)
Definition gapReplacement (matched : jsstring) : jsstring :=
  match matched with
  | [] => []
  | c :: _ => [c] ++ lit " " ++ [last matched c]
  end.

Module Stats.
Record t := { characters : Z; charactersNoSpaces : Z; words : Z; lines : Z;
              paragraphs : Z }.
End Stats.

(** The [stats] object; both services compute it with the same five
    expressions. *)
Definition calculateStatistics (processedText : jsstring) : Stats.t :=
  {| Stats.characters := len processedText;
     Stats.charactersNoSpaces :=
       len (replaceAll (m_regex (Chr isWhiteSpace)) (fun _ => []) processedText);
     Stats.words :=
       count (filter (fun word => len word >? 0)
                (split (m_regex (Plus (Chr isWhiteSpace))) processedText));
     Stats.lines := count (split (m_literal [newline]) processedText);
     Stats.paragraphs :=
       count (filter (fun p => len (trim p) >? 0)
                (split (m_regex paragraphBreak) processedText)) |}.

(** [x || fallback] on a string that may be missing. *)
Definition orElse (x : option jsstring) (fallback : jsstring) : jsstring :=
  match x with
  | Some (c :: r) => c :: r
  | _ => fallback
  end.

(** [backend/services/pdfService.js] *)
Module PdfService.

(** What [pdf-parse] returns. *)
Record PdfData := {
  data_text : jsstring;
  numpages : Z;
  data_info : option (list (jsstring * jsstring));
  data_version : option jsstring
}.

Record Metadata := {
  pages : Z;
  info : list (jsstring * jsstring);
  version : jsstring
}.

Record Result := {
  success : bool;
  text : jsstring;
  metadata : Metadata;
  stats : Stats.t;
  extractedAt : jsstring
}.

(** The cleaning of [data.text]. *)
Definition processText (dataText : jsstring) : jsstring :=
  let processedText := dataText in
  let processedText :=
    replaceAll (m_regex tripleBreak) (fun _ => [newline; newline]) processedText in
  let processedText :=
    replaceAll (m_regex (Plus (Chr isSpaceOrTab))) (fun _ => lit " ") processedText in
  let processedText :=
    replaceAll (m_regex (Cat (Chr isNewline) (Chr isSpace))) (fun _ => [newline])
      processedText in
  trim processedText.

(** [parsed] is what reading and parsing the file gave: the message of the
    error thrown, or the parsed data.  [now] is the time stamp. *)
Definition extractTextFromPDF (parsed : jsstring + PdfData) (now : jsstring)
  : jsstring + Result :=
  match parsed with
  | inr data =>
      let processedText := processText (data_text data) in
      let stats := calculateStatistics processedText in
      inr {| success := true;
             text := processedText;
             metadata :=
               {| pages := numpages data;
                  info := match data_info data with Some i => i | None => [] end;
                  version := orElse (data_version data) (lit "Unknown") |};
             stats := stats;
             extractedAt := now |}
  | inl message =>
      if includes message (lit "Invalid PDF") then
        inl (lit "Invalid PDF file. The file may be corrupted or password-protected.")
      else if includes message (lit "not found") then
        inl (lit "PDF file not found. Please try uploading again.")
      else
        inl (lit "PDF processing failed: " ++ message)
  end.

End PdfService.

(** [backend/services/ocrService.js] *)
Module OcrService.

(** A recognised word: [None] when its confidence is not a number. *)
Record Word := { word_confidence : option Q }.

(** What [Tesseract.recognize] returns in [data]. *)
Record OcrData := {
  data_text : option jsstring;
  data_words : option (list (option Word));
  data_confidence : option Q
}.

Record Metadata := {
  confidence : Z;
  meanConfidence : Z;
  wordCount : Z;
  recognizedWords : Z;
  lowConfidenceWords : Z
}.

Record Result := {
  success : bool;
  text : jsstring;
  stats : Stats.t;
  ocr : Metadata;
  extractedAt : jsstring
}.

(** The cleaning of [data.text]. *)
Definition processText (dataText : option jsstring) : jsstring :=
  let processedText := trim (orElse dataText []) in
  let processedText :=
    replaceAll (m_regex tripleBreak) (fun _ => [newline; newline]) processedText in
  let processedText := replaceAll (m_regex wordGap) gapReplacement processedText in
  let processedText :=
    replaceAll (m_regex (Plus (Chr isWhiteSpace))) (fun _ => lit " ") processedText in
  let processedText :=
    replaceAll (m_regex (Chr isNonPrintable)) (fun _ => []) processedText in
  trim processedText.

(** [word && typeof word.confidence === 'number'], with the number. *)
Definition validConfidence (word : option Word) : option Q :=
  match word with
  | Some w => word_confidence w
  | None => None
  end.

Fixpoint validWords (words : list (option Word)) : list Q :=
  match words with
  | [] => []
  | w :: r =>
      match validConfidence w with
      | Some c => c :: validWords r
      | None => validWords r
      end
  end.

Definition Qltb (a b : Q) : bool := negb (Qle_bool b a).

Definition ocrMetadata (data : OcrData) : Metadata :=
  let words := match data_words data with Some ws => ws | None => [] end in
  let validWords := validWords words in
  {| confidence :=
       Math_round (match data_confidence data with Some c => c | None => 0%Q end);
     meanConfidence :=
       if count validWords >? 0
       then Math_round (fold_left Qplus validWords 0%Q / inject_Z (count validWords))
       else 0;
     wordCount := count validWords;
     recognizedWords := count (filter (fun c => Qltb 60 c) validWords);
     lowConfidenceWords := count (filter (fun c => Qltb c 60) validWords) |}.

Definition extractTextFromImage (recognized : jsstring + OcrData) (now : jsstring)
  : jsstring + Result :=
  match recognized with
  | inr data =>
      let processedText := processText (data_text data) in
      let stats := calculateStatistics processedText in
      inr {| success := true;
             text := processedText;
             stats := stats;
             ocr := ocrMetadata data;
             extractedAt := now |}
  | inl message =>
      if includes message (lit "Invalid image") then
        inl (lit "Invalid image file. Please ensure the image is not corrupted and is in JPG or PNG format.")
      else if includes message (lit "not found") then
        inl (lit "Image file not found. Please try uploading again.")
      else if includes message (lit "Cannot read properties") then
        inl (lit "OCR processing failed. The image may be too complex or corrupted. Please try a clearer image.")
      else
        inl (lit "OCR processing failed: " ++ message)
  end.

End OcrService.

(** [backend/server.js]: the upload filter and the route [/api/extract]. *)
Module Server.

Import PdfService OcrService.

(** [req.file] as multer leaves it. *)
Record UploadedFile := {
  mimetype : jsstring;
  path : jsstring;
  originalname : jsstring;
  size : Z
}.

(** What [upload.single('file')] hands to the route: an error of multer
    (with its code), another error, no file, or the stored file. *)
Inductive UploadOutcome :=
| MulterError (code message : jsstring)
| OtherError (message : jsstring)
| NoFile
| Uploaded (file : UploadedFile).

Definition allowedMimes : list jsstring :=
  map lit ["application/pdf"; "image/jpeg"; "image/jpg"; "image/png"]%string.

(** [cb(null, true)] is [inr true]; [cb(new Error(...), false)] is [inl] of
    the message. *)
Definition fileFilter (file_mimetype : jsstring) : jsstring + bool :=
  if existsb (str_eqb file_mimetype) allowedMimes then inr true
  else inl (lit "Unsupported file type: " ++ file_mimetype).

(** [extractionResult]: the empty object it starts as, or the result of one
    of the two services. *)
Inductive Extraction :=
| Unprocessed
| FromPdf (r : PdfService.Result)
| FromImage (r : OcrService.Result).

Definition extractionSuccess (e : Extraction) : bool :=
  match e with
  | Unprocessed => false
  | FromPdf r => PdfService.success r
  | FromImage r => OcrService.success r
  end.

Definition extractionText (e : Extraction) : option jsstring :=
  match e with
  | Unprocessed => None
  | FromPdf r => Some (PdfService.text r)
  | FromImage r => Some (OcrService.text r)
  end.

Definition extractionStats (e : Extraction) : option Stats.t :=
  match e with
  | Unprocessed => None
  | FromPdf r => Some (PdfService.stats r)
  | FromImage r => Some (OcrService.stats r)
  end.

(** The body of the successful response. *)
Record Body := {
  extraction : Extraction;
  type : option jsstring;
  engagement : option AnalysisResult;
  originalFilename : jsstring;
  fileSize : Z;
  processedAt : jsstring
}.

Inductive Response :=
| Rejected (status : Z) (error message : jsstring)
| Processed (body : Body)
| Failed (status : Z) (error message failedType : jsstring).

Section Route.

Variable toLowerCase : jsstring -> jsstring.

(** The route [POST /api/extract].  [parsed] and [recognized] are what the
    PDF parser and the OCR engine give for the stored file; the two time
    stamps are those of the extraction and of the response.  Removing the
    stored file is not modelled. *)
Definition extractRoute (upload : UploadOutcome)
  (parsed : jsstring + PdfData) (recognized : jsstring + OcrData)
  (extractedAt processedAt : jsstring) : Response :=
  match upload with
  | MulterError code message =>
      if str_eqb code (lit "LIMIT_FILE_SIZE")
      then Rejected 400 (lit "File too large") (lit "File size exceeds 10MB limit")
      else Rejected 400 (lit "Upload error") message
  | OtherError message => Rejected 400 (lit "File validation error") message
  | NoFile => Rejected 400 (lit "No file uploaded") (lit "Please select a file to upload")
  | Uploaded file =>
      let attempt : jsstring + (Extraction * option jsstring) :=
        if str_eqb (mimetype file) (lit "application/pdf") then
          match extractTextFromPDF parsed extractedAt with
          | inr r => inr (FromPdf r, Some (lit "pdf"))
          | inl message => inl message
          end
        else if startsWith (lit "image/") (mimetype file) then
          match extractTextFromImage recognized extractedAt with
          | inr r => inr (FromImage r, Some (lit "image"))
          | inl message => inl message
          end
        else inr (Unprocessed, None) in
      match attempt with
      | inr (extractionResult, resultType) =>
          (* Add engagement analysis if extraction was successful *)
          let engagement :=
            match extractionText extractionResult with
            | Some text =>
                if (extractionSuccess extractionResult && negb (falsy text))%bool
                then Some (analyzeEngagement toLowerCase text
                             (match resultType with Some t => t | None => [] end))
                else None
            | None => None
            end in
          Processed {| extraction := extractionResult;
                       type := resultType;
                       engagement := engagement;
                       originalFilename := originalname file;
                       fileSize := size file;
                       processedAt := processedAt |}
      | inl message =>
          Failed 500 (lit "Text extraction failed") message
            (if startsWith (lit "image/") (mimetype file) then lit "image" else lit "pdf")
      end
  end.

End Route.

End Server.

Section Handler.

Import Server.

Variable toLowerCase : jsstring -> jsstring.

(** The handler of [POST /api/extract] together with the removal of the
    stored file.  [removed] is what [fs.unlinkSync] does once the file is
    processed ([None]: the file is removed; [Some message]: it throws an
    error with that message), [stillThere] is what [fs.existsSync] answers
    in the [catch] block and [removedAgain] what [fs.unlinkSync] does there.
    The result is [None] when the [catch] block throws itself, so that no
    response is sent. *)
Definition extractHandler (upload : UploadOutcome)
  (parsed : jsstring + PdfService.PdfData) (recognized : jsstring + OcrService.OcrData)
  (extractedAt processedAt : jsstring)
  (removed : option jsstring) (stillThere : bool) (removedAgain : option jsstring)
  : option Response :=
  match upload with
  | MulterError code message =>
      if str_eqb code (lit "LIMIT_FILE_SIZE")
      then Some (Rejected 400 (lit "File too large") (lit "File size exceeds 10MB limit"))
      else Some (Rejected 400 (lit "Upload error") message)
  | OtherError message => Some (Rejected 400 (lit "File validation error") message)
  | NoFile =>
      Some (Rejected 400 (lit "No file uploaded") (lit "Please select a file to upload"))
  | Uploaded file =>
      let extracted : jsstring + (Extraction * option jsstring) :=
        if str_eqb (mimetype file) (lit "application/pdf") then
          match PdfService.extractTextFromPDF parsed extractedAt with
          | inr r => inr (FromPdf r, Some (lit "pdf"))
          | inl message => inl message
          end
        else if startsWith (lit "image/") (mimetype file) then
          match OcrService.extractTextFromImage recognized extractedAt with
          | inr r => inr (FromImage r, Some (lit "image"))
          | inl message => inl message
          end
        else inr (Unprocessed, None) in
      let attempt : jsstring + Body :=
        match extracted with
        | inr (extractionResult, resultType) =>
            let engagement :=
              match extractionText extractionResult with
              | Some text =>
                  if (extractionSuccess extractionResult && negb (falsy text))%bool
                  then Some (analyzeEngagement toLowerCase text
                               (match resultType with Some t => t | None => [] end))
                  else None
              | None => None
              end in
            (* Clean up uploaded file after processing *)
            match removed with
            | None =>
                inr {| extraction := extractionResult;
                       type := resultType;
                       engagement := engagement;
                       originalFilename := originalname file;
                       fileSize := size file;
                       processedAt := processedAt |}
            | Some message => inl message
            end
        | inl message => inl message
        end in
      match attempt with
      | inr body => Some (Processed body)
      | inl message =>
          (* Clean up file on error *)
          match (if stillThere then removedAgain else None) with
          | Some _ => None
          | None =>
              Some (Failed 500 (lit "Text extraction failed") message
                      (if startsWith (lit "image/") (mimetype file)
                       then lit "image" else lit "pdf"))
          end
      end
  end.

End Handler.

(** No two neighbours of [s] are a [bad] pair. *)
Fixpoint noPair (bad : N -> N -> bool) (s : jsstring) : bool :=
  match s with
  | a :: r =>
      (match r with
       | b :: _ => negb (bad a b)
       | [] => true
       end && noPair bad r)%bool
  | [] => true
  end.

(** A space that follows a space or a line break. *)
Definition untidySpace (a b : N) : bool :=
  ((N.eqb a 32 || N.eqb a 10) && N.eqb b 32)%bool.

Definition doubleSpace (a b : N) : bool := (N.eqb a 32 && N.eqb b 32)%bool.

Definition headIsNot (x : N) (s : jsstring) : Prop :=
  match s with
  | c :: _ => c <> x
  | [] => True
  end.

(** [/\n /] through the backtracking matcher. *)
Definition m_breakSpace : matcher := m_regex (Cat (Chr isNewline) (Chr isSpace)).

(** Sample uploads. *)
Definition sampleImage : Server.UploadedFile :=
  {| Server.mimetype := lit "image/png";
     Server.path := lit "uploads/file-1.png";
     Server.originalname := lit "post.png";
     Server.size := 2048 |}.

Definition sampleOcrData : OcrService.OcrData :=
  {| OcrService.data_text :=
       Some (lit "  Join us today" ++ [newline; newline; newline]
             ++ lit "new   offers " ++ [9728%N] ++ lit " @shop  ");
     OcrService.data_words :=
       Some [Some {| OcrService.word_confidence := Some 90%Q |};
             Some {| OcrService.word_confidence := Some 60%Q |};
             None;
             Some {| OcrService.word_confidence := Some 30%Q |}];
     OcrService.data_confidence := Some (171 # 2) |}.

(** An upload that multer refuses for its size. *)
Definition oversizedUpload : Server.UploadOutcome :=
  Server.MulterError (lit "LIMIT_FILE_SIZE") (lit "File too large").

Definition samplePdfData : PdfService.PdfData :=
  {| PdfService.data_text :=
       lit "  Title" ++ [9%N; 9%N] ++ lit "page" ++ [newline] ++ lit "   body  text  ";
     PdfService.numpages := 1;
     PdfService.data_info := None;
     PdfService.data_version := None |}.

(* ================================================================== *)
(** ** Proof automation *)

Ltac leb_only :=
  repeat match goal with
  | |- context [ ?x >=? ?y ] => rewrite (Z.geb_leb x y)
  | |- context [ ?x >? ?y ] => rewrite (Z.gtb_ltb x y)
  end.

Ltac bool_arith H :=
  unfold isWhiteSpace, isWordChar, isEmoji, isHighSurrogate, isLowSurrogate, inRange in H;
  rewrite ?orb_true_iff, ?andb_true_iff, ?N.leb_le, ?N.eqb_eq in H.


(* ================================================================== *)
(** ** Basic facts about the string primitives *)

Lemma dropWhile_nil_iff (p : N -> bool) (s : jsstring) :
  dropWhile p s = [] <-> forallb p s = true.
Proof.
  induction s as [|c r IH]; simpl.
  - tauto.
  - destruct (p c); simpl.
    + exact IH.
    + split; discriminate.
Qed.

Lemma dropWhile_fixed (p : N -> bool) (s : jsstring) :
  forallb p (dropWhile p s) = true -> dropWhile p s = [].
Proof.
  induction s as [|c r IH]; simpl; auto.
  destruct (p c) eqn:E; auto.
  simpl. rewrite E. discriminate.
Qed.

Lemma forallb_rev (p : N -> bool) (s : jsstring) :
  forallb p (rev s) = forallb p s.
Proof.
  induction s as [|c r IH]; simpl; auto.
  rewrite forallb_app, IH. simpl.
  destruct (p c), (forallb p r); reflexivity.
Qed.

Lemma rev_nil_inv (s : jsstring) : rev s = [] -> s = [].
Proof.
  intros H. rewrite <- (rev_involutive s), H. reflexivity.
Qed.

Lemma trim_nil_iff (s : jsstring) : trim s = [] <-> isBlank s = true.
Proof.
  unfold trim, trimEnd, trimStart, isBlank. split.
  - intros H. apply rev_nil_inv in H.
    apply dropWhile_nil_iff in H. rewrite forallb_rev in H.
    apply dropWhile_fixed in H. now apply dropWhile_nil_iff.
  - intros H. apply dropWhile_nil_iff in H. rewrite H. reflexivity.
Qed.

Lemma len_zero_iff (s : jsstring) : (len s =? 0) = true <-> s = [].
Proof.
  unfold len. destruct s; simpl; split; intros H; try reflexivity; try discriminate.
Qed.

(** The guard of the facade is the blank test. *)
Lemma guard_isBlank (text : jsstring) :
  (falsy text || (len (trim text) =? 0))%bool = isBlank text.
Proof.
  destruct (isBlank text) eqn:B.
  - apply trim_nil_iff in B. rewrite B. simpl. apply orb_true_r.
  - destruct text as [|c r]; [discriminate B|]. simpl falsy. simpl orb.
    destruct (len (trim (c :: r)) =? 0) eqn:E; auto.
    apply len_zero_iff, trim_nil_iff in E. congruence.
Qed.

Lemma Math_round_Z (z : Z) : Math_round (inject_Z z) = z.
Proof.
  unfold Math_round, Qfloor, Qplus, inject_Z. simpl.
  replace (z * 2 + 1) with (1 + z * 2) by lia.
  rewrite Z.div_add by lia. reflexivity.
Qed.

Lemma Math_max_spec (a b : Z) : Math_max a b = Z.max a b.
Proof. unfold Math_max. destruct (Z.ltb_spec a b); lia. Qed.

Lemma Math_min_spec (a b : Z) : Math_min a b = Z.min a b.
Proof. unfold Math_min. destruct (Z.ltb_spec b a); lia. Qed.

Lemma score_is_documented (a : Analysis.t) :
  calculateEngagementScore a = documentedScore a.
Proof.
  unfold calculateEngagementScore, documentedScore, clamp.
  rewrite Math_max_spec, Math_min_spec, !Math_round_Z.
  rewrite (Z.min_comm 100). f_equal. f_equal.
  unfold hashtagTerm, mentionTerm, emojiTerm, ctaTerm, lengthTerm, sentimentTerm.
  set (r := Math_round _). leb_only.
  destruct (CallToAction.strength (Analysis.callToAction a));
  destruct (Length.status (Analysis.length a));
  destruct (Sentiment.engagement (Analysis.sentiment a));
  cbn [strength_eqb status_eqb engagement_eqb];
  repeat match goal with
  | |- context [ ?x <=? ?y ] => destruct (x <=? y)
  | |- context [ ?x <? ?y ] => destruct (x <? y)
  end; cbn [andb]; lia.
Qed.

Lemma score_range (a : Analysis.t) : 0 <= calculateEngagementScore a <= 100.
Proof.
  rewrite score_is_documented. unfold documentedScore, clamp.
  generalize (Math_round (inject_Z
    (50
     + hashtagTerm (Hashtags.found (Analysis.hashtags a))
     + ctaTerm (CallToAction.strength (Analysis.callToAction a))
     + lengthTerm (Length.status (Analysis.length a))
     + Math_round (inject_Z (Readability.score (Analysis.readability a)) * (2 # 10))
     + sentimentTerm (Sentiment.engagement (Analysis.sentiment a))
     + mentionTerm (Mentions.found (Analysis.mentions a))
     + emojiTerm (Emojis.found (Analysis.emojis a))))).
  intros z. split.
  - apply Z.le_max_l.
  - apply Z.max_lub; [lia | apply Z.le_min_r].
Qed.

Lemma grade_is_documented (s : Z) : gradeByThresholds s (getEngagementGrade s).
Proof.
  unfold gradeByThresholds, getEngagementGrade. leb_only.
  destruct (Z.leb_spec 90 s); [left; split; [lia | reflexivity]|].
  destruct (Z.leb_spec 80 s); [right; left; split; [lia | reflexivity]|].
  destruct (Z.leb_spec 70 s); [right; right; left; split; [lia | reflexivity]|].
  destruct (Z.leb_spec 60 s); [right; right; right; left; split; [lia | reflexivity]|].
  destruct (Z.leb_spec 50 s); [right; right; right; right; left; split; [lia | reflexivity]|].
  right; right; right; right; right; split; [lia | reflexivity].
Qed.

(* ================================================================== *)
(** ** Scanning: matches and pieces *)

Lemma count_cons {A : Type} (x : A) (l : list A) : count (x :: l) = 1 + count l.
Proof. unfold count. simpl List.length. lia. Qed.

Lemma count_nil_inv {A : Type} (l : list A) : count l = 0 -> l = [].
Proof. destruct l; [reflexivity | rewrite count_cons; unfold count; lia]. Qed.

Lemma count_nonneg {A : Type} (l : list A) : 0 <= count l.
Proof. unfold count. lia. Qed.

Lemma takeWhile_all (p : N -> bool) (s : jsstring) : forallb p (takeWhile p s) = true.
Proof.
  induction s as [|c r IH]; simpl; auto.
  destruct (p c) eqn:E; simpl; auto. now rewrite E.
Qed.

Lemma firstn_takeWhile (p : N -> bool) (s : jsstring) :
  firstn (List.length (takeWhile p s)) s = takeWhile p s.
Proof.
  induction s as [|c r IH]; simpl; auto.
  destruct (p c); simpl; [now rewrite IH | reflexivity].
Qed.

(** Counting the matches of [/tag[\w]+/g] agrees with [countTagged], provided
    the scan is inside the word that follows the last tag. *)
Lemma matchAll_from_tag (tag : N) (Htag : isWordChar tag = false) (s : jsstring) :
  forall skip : nat,
    (skip <= List.length (takeWhile isWordChar s))%nat ->
    count (matchAll_from false (m_tag tag isWordChar) skip s) = countTagged tag s.
Proof.
  induction s as [|c r IH]; intros skip Hskip.
  - reflexivity.
  - cbn [matchAll_from countTagged]. destruct skip as [|k].
    + unfold m_tag at 1. destruct (N.eqb_spec c tag) as [->|Hne].
      * destruct r as [|d r'].
        { simpl. reflexivity. }
        cbn [takeWhile]. destruct (isWordChar d) eqn:Hd.
        -- cbn [List.length Nat.pred andb]. rewrite count_cons.
           rewrite IH; [reflexivity|]. cbn [takeWhile]. rewrite Hd. simpl. lia.
        -- cbn [List.length advance Nat.pred andb]. rewrite IH by lia. reflexivity.
      * cbn [advance Nat.pred andb]. rewrite IH by lia.
        destruct r; reflexivity.
    + cbn [takeWhile] in Hskip. destruct (isWordChar c) eqn:Hc.
      * assert (N.eqb c tag = false) as ->.
        { destruct (N.eqb_spec c tag); [congruence | reflexivity]. }
        rewrite IH by (simpl in Hskip; lia). destruct r; reflexivity.
      * simpl in Hskip. lia.
Qed.

Lemma matchAll_tag_count (tag : N) (Htag : isWordChar tag = false) (s : jsstring) :
  count (matchAll false (m_tag tag isWordChar) s) = countTagged tag s.
Proof. unfold matchAll. apply matchAll_from_tag; [assumption | lia]. Qed.

(** No pattern of the service matches at a whitespace character. *)
Lemma matchAll_from_blank (unicode : bool) (m : matcher) (s : jsstring) :
  (forall c r, isWhiteSpace c = true -> m (c :: r) = None) ->
  isBlank s = true ->
  forall skip, matchAll_from unicode m skip s = [].
Proof.
  intros Hm. unfold isBlank.
  induction s as [|c r IH]; intros Hs skip; [reflexivity|].
  simpl in Hs. apply andb_true_iff in Hs as [Hc Hr].
  cbn [matchAll_from]. destruct skip; [|now apply IH].
  rewrite (Hm c r Hc). now apply IH.
Qed.

Lemma whitespace_not_tag (tag c : N) :
  isWhiteSpace tag = false -> isWhiteSpace c = true -> N.eqb c tag = false.
Proof.
  intros Ht Hc. destruct (N.eqb_spec c tag); [congruence | reflexivity].
Qed.

Lemma whitespace_not_surrogate (c : N) :
  isWhiteSpace c = true -> isHighSurrogate c = false.
Proof.
  intros H. destruct (isHighSurrogate c) eqn:E; [|reflexivity].
  exfalso. bool_arith H. bool_arith E. lia.
Qed.

Lemma whitespace_not_emoji (c : N) : isWhiteSpace c = true -> isEmoji c = false.
Proof.
  intros H. destruct (isEmoji c) eqn:E; [|reflexivity].
  exfalso. bool_arith H. bool_arith E. lia.
Qed.

Lemma m_tag_blank (tag : N) (cls : N -> bool) :
  isWhiteSpace tag = false ->
  forall c r, isWhiteSpace c = true -> m_tag tag cls (c :: r) = None.
Proof.
  intros Ht c r Hc. unfold m_tag. now rewrite (@whitespace_not_tag tag c Ht Hc).
Qed.

Lemma m_emoji_blank (c : N) (r : jsstring) :
  isWhiteSpace c = true -> m_class_u isEmoji (c :: r) = None.
Proof.
  intros Hc. unfold m_class_u, codePointAt.
  rewrite (@whitespace_not_surrogate c Hc). simpl.
  destruct r; now rewrite (@whitespace_not_emoji c Hc).
Qed.

Lemma split_from_nonempty (m : matcher) (s : jsstring) :
  forall skip piece, 1 <= count (split_from m skip piece s).
Proof.
  induction s as [|c r IH]; intros skip piece; cbn [split_from].
  - unfold count. simpl. lia.
  - destruct skip; [|apply IH].
    destruct (m (c :: r)) as [[|n]|]; try apply IH.
    rewrite count_cons. specialize (IH n []). lia.
Qed.

(** [text.split(/\s+/)] always has at least one piece. *)
Lemma split_nonempty (m : matcher) (s : jsstring) : 1 <= count (split m s).
Proof.
  unfold split. destruct s; [unfold count; simpl; lia | apply split_from_nonempty].
Qed.

Lemma nonEmpty_false (s : jsstring) : nonEmpty s = false -> s = [].
Proof.
  unfold nonEmpty, len. destruct s; [reflexivity|].
  simpl List.length. intros H. rewrite Z.gtb_ltb in H. apply Z.ltb_ge in H. lia.
Qed.

Lemma filter_nil_cons {A : Type} (f : A -> bool) (x : A) (l : list A) :
  filter f (x :: l) = [] -> f x = false /\ filter f l = [].
Proof. simpl. destruct (f x); [discriminate | auto]. Qed.

(** If splitting on whitespace leaves no non-empty piece, the text is blank. *)
Lemma split_from_no_words (s : jsstring) :
  forall skip piece,
    forallb isWhiteSpace (firstn skip s) = true ->
    filter nonEmpty (split_from whitespaceRun skip piece s) = [] ->
    piece = [] /\ isBlank s = true.
Proof.
  unfold isBlank.
  induction s as [|c r IH]; intros skip piece Hskip Hall; cbn [split_from] in Hall.
  - apply filter_nil_cons in Hall as [Hp _]. apply nonEmpty_false, rev_nil_inv in Hp.
    auto.
  - destruct skip as [|k].
    + unfold whitespaceRun, m_plus in Hall. cbn [takeWhile] in Hall.
      destruct (isWhiteSpace c) eqn:Hc; cbn [List.length] in Hall.
      * apply filter_nil_cons in Hall as [Hp Hall].
        apply nonEmpty_false, rev_nil_inv in Hp.
        apply IH in Hall as [_ Hr].
        -- simpl. now rewrite Hc, Hr.
        -- rewrite firstn_takeWhile. apply takeWhile_all.
      * apply IH in Hall as [Hp _]; [discriminate | reflexivity].
    + simpl in Hskip. apply andb_true_iff in Hskip as [Hc Hk].
      apply IH in Hall as [Hp Hr]; [|assumption].
      simpl. now rewrite Hc, Hr.
Qed.

Lemma wordCount_zero_blank (text : jsstring) : wordCount text = 0 -> isBlank text = true.
Proof.
  unfold wordCount, split. intros H. apply count_nil_inv in H.
  destruct text as [|c r]; [reflexivity|].
  now apply (@split_from_no_words (c :: r) 0%nat []) in H as [_ H].
Qed.

Lemma blank_no_hashtags (text : jsstring) :
  isBlank text = true -> matchAll false (m_tag 35 isWordChar) text = [].
Proof.
  intros H. apply matchAll_from_blank; [|assumption].
  now apply m_tag_blank.
Qed.

Lemma blank_no_mentions (text : jsstring) :
  isBlank text = true -> matchAll false (m_tag 64 isWordChar) text = [].
Proof.
  intros H. apply matchAll_from_blank; [|assumption].
  now apply m_tag_blank.
Qed.

Lemma blank_no_emojis (text : jsstring) :
  isBlank text = true -> matchAll true (m_class_u isEmoji) text = [].
Proof.
  intros H. apply matchAll_from_blank; [|assumption].
  exact m_emoji_blank.
Qed.




(* ================================================================== *)
(** ** Facts about the extractors *)

Lemma analyze_blank (toLowerCase : jsstring -> jsstring) (text contentType : jsstring) :
  isBlank text = true ->
  analyzeEngagement toLowerCase text contentType =
  {| score := 0;
     grade := GradeF;
     suggestions := [Message (lit "No text content found to analyze")];
     analysis := Default cannedAnalysis;
     optimizedContent := None |}.
Proof.
  intros H. unfold analyzeEngagement. now rewrite guard_isBlank, H.
Qed.

Lemma analyze_not_blank (toLowerCase : jsstring -> jsstring) (text contentType : jsstring) :
  isBlank text = false ->
  analyzeEngagement toLowerCase text contentType =
  {| score := calculateEngagementScore (features toLowerCase text);
     grade := getEngagementGrade (calculateEngagementScore (features toLowerCase text));
     suggestions := map Advice (generateSuggestions (features toLowerCase text) text);
     analysis := Extracted (features toLowerCase text);
     optimizedContent := Some (generateOptimizedVersion text (features toLowerCase text)) |}.
Proof.
  intros H. unfold analyzeEngagement. now rewrite guard_isBlank, H.
Qed.

Lemma callToAction_found_strength (toLowerCase : jsstring -> jsstring) (text : jsstring) :
  CallToAction.found (analyzeCallToAction toLowerCase text)
  = negb (strength_eqb (CallToAction.strength (analyzeCallToAction toLowerCase text)) CtaNone).
Proof.
  unfold analyzeCallToAction. cbn [CallToAction.found CallToAction.strength].
  set (n := count _). leb_only.
  destruct (Z.leb_spec 3 n); [cbn; apply Z.ltb_lt; lia|].
  destruct (Z.leb_spec 2 n); [cbn; apply Z.ltb_lt; lia|].
  destruct (Z.leb_spec 1 n); [cbn; apply Z.ltb_lt; lia|].
  cbn. apply Z.ltb_ge. lia.
Qed.

Lemma readability_level_documented (text : jsstring) :
  Readability.level (analyzeReadability text) <> Poor.
Proof.
  unfold analyzeReadability.
  repeat match goal with
  | |- context [ if ?b then _ else _ ] => destruct b
  end; cbn; discriminate.
Qed.

Lemma readability_score_range (text : jsstring) :
  0 <= Readability.score (analyzeReadability text) <= 100.
Proof.
  unfold analyzeReadability.
  repeat match goal with
  | |- context [ if ?b then _ else _ ] => destruct b
  end; cbn [Readability.score];
  rewrite Math_round_Z, Math_max_spec, Math_min_spec; lia.
Qed.

Lemma length_platform (text : jsstring) :
  Length.characters (analyzeLength text) = len text
  /\ Length.platform (analyzeLength text)
     = if len text <=? 280 then Twitter else Linkedin.
Proof.
  unfold analyzeLength. rewrite Z.gtb_ltb.
  destruct (Z.ltb_spec 280 (len text)); destruct (Z.leb_spec (len text) 280);
    try lia; cbn; auto.
Qed.

Lemma features_shape (toLowerCase : jsstring -> jsstring) (text : jsstring) :
  documentedShape (features toLowerCase text).
Proof.
  unfold documentedShape, features.
  cbn [Analysis.readability Analysis.hashtags Analysis.mentions Analysis.emojis
       Analysis.callToAction].
  split; [apply readability_level_documented|].
  split; [apply readability_score_range|].
  unfold analyzeHashtags, analyzeMentions, analyzeEmojis.
  cbn [Hashtags.found Hashtags.recommended Mentions.found Mentions.recommended Emojis.found].
  repeat split; try apply count_nonneg.
  - destruct (_ <? 3); [lia | apply count_nonneg].
  - destruct (_ <? 2); [lia | apply count_nonneg].
  - apply callToAction_found_strength.
Qed.

Lemma density_finite (n : Z) (text : jsstring) :
  isFinite (js_mul (js_div n (count (split whitespaceRun text))) 100).
Proof.
  unfold js_div. pose proof (split_nonempty whitespaceRun text) as H.
  destruct (Z.eqb_spec (count (split whitespaceRun text)) 0); [lia|].
  exact I.
Qed.

Lemma density_zero (text : jsstring) :
  isZero (js_mul (js_div 0 (count (split whitespaceRun text))) 100).
Proof.
  unfold js_div. pose proof (split_nonempty whitespaceRun text) as H.
  destruct (Z.eqb_spec (count (split whitespaceRun text)) 0); [lia|].
  cbn [js_mul isZero]. unfold Qdiv. rewrite Qmult_0_l. reflexivity.
Qed.

Lemma suggestions_are_documented (a : Analysis.t) (text : jsstring) :
  (strength_eqb (CallToAction.strength (Analysis.callToAction a)) CtaWeak = true ->
   CallToAction.found (Analysis.callToAction a) = true) ->
  generateSuggestions a text = documentedSuggestions a.
Proof.
  intros Hcta.
  unfold generateSuggestions, documentedSuggestions, rules, push.
  cbn [flat_map trigger advice].
  rewrite (Z.gtb_ltb _ 5).
  destruct (Z.eqb_spec (Hashtags.found (Analysis.hashtags a)) 0) as [E|E];
    [ rewrite E; cbn [Z.ltb Z.compare] | destruct (5 <? _) ];
  (destruct (CallToAction.found (Analysis.callToAction a));
   [ | destruct (strength_eqb _ CtaWeak); [ discriminate (Hcta eq_refl) | ] ];
   cbn [negb]);
  try destruct (strength_eqb _ CtaWeak);
  destruct (Length.status (Analysis.length a)); cbn [status_eqb];
  destruct (Mentions.found (Analysis.mentions a) =? 0);
  destruct (Emojis.found (Analysis.emojis a) =? 0);
  destruct (level_eqb _ Difficult);
  destruct (engagement_eqb _ EngLow); reflexivity.
Qed.

Lemma optimized_is_documented (text : jsstring) (a : Analysis.t) :
  generateOptimizedVersion text a
  = trim text
    ++ (if Hashtags.found (Analysis.hashtags a) =? 0 then hashtagSuffix else [])
    ++ (if CallToAction.found (Analysis.callToAction a) then [] else callToActionSuffix).
Proof.
  unfold generateOptimizedVersion, hashtagSuffix, callToActionSuffix.
  destruct (_ =? 0); destruct (CallToAction.found _); cbn [negb];
    rewrite <- ?app_assoc, ?app_nil_r; reflexivity.
Qed.

(* ================================================================== *)
(** ** Properties of the service *)

Section Properties.

Variable toLowerCase : jsstring -> jsstring.

(** Claim C1.  For every input string the score returned by
    [analyzeEngagement] is an integer between 0 and 100, and the grade is the
    letter that the documented thresholds give for that score: A+ from 90,
    A from 80, B from 70, C from 60, D from 50, F below. *)
Theorem score_bounded_and_graded (text contentType : jsstring) :
  0 <= score (analyzeEngagement toLowerCase text contentType) <= 100
  /\ gradeByThresholds (score (analyzeEngagement toLowerCase text contentType))
                       (grade (analyzeEngagement toLowerCase text contentType)).
Proof.
  destruct (isBlank text) eqn:B.
  - rewrite (analyze_blank toLowerCase text contentType B). cbn [score grade].
    split; [lia|]. unfold gradeByThresholds.
    right; right; right; right; right. split; [lia | reflexivity].
  - rewrite (analyze_not_blank toLowerCase text contentType B). cbn [score grade].
    split; [apply score_range | apply grade_is_documented].
Qed.

(** Claim C2.  For an input that is empty or made of whitespace only,
    [analyzeEngagement] runs no extractor: it returns score 0, grade F, the
    single suggestion "No text content found to analyze", the canned analysis
    object, and no [optimizedContent] field. *)
Theorem blank_input_canned_result (text contentType : jsstring) :
  isBlank text = true ->
  score (analyzeEngagement toLowerCase text contentType) = 0
  /\ grade (analyzeEngagement toLowerCase text contentType) = GradeF
  /\ suggestions (analyzeEngagement toLowerCase text contentType)
     = [Message (lit "No text content found to analyze")]
  /\ analysis (analyzeEngagement toLowerCase text contentType) = Default cannedAnalysis
  /\ optimizedContent (analyzeEngagement toLowerCase text contentType) = None.
Proof.
  intros B. rewrite (analyze_blank toLowerCase text contentType B).
  repeat split.
Qed.

(** Claim C3.  For an input that is neither empty nor whitespace only, the
    score is [clamp(round(50 + h + c + l + round(readability.score * 0.2)
    + s + m + e), 0, 100)], the terms being the documented ones of the
    hashtag, call-to-action, length, sentiment, mention and emoji records of
    the returned analysis. *)
Theorem score_is_weighted_sum (text contentType : jsstring) :
  isBlank text = false ->
  exists a : Analysis.t,
    analysis (analyzeEngagement toLowerCase text contentType) = Extracted a
    /\ a = features toLowerCase text
    /\ score (analyzeEngagement toLowerCase text contentType) = documentedScore a.
Proof.
  intros B. exists (features toLowerCase text).
  rewrite (analyze_not_blank toLowerCase text contentType B). cbn [analysis score].
  repeat split. apply score_is_documented.
Qed.

(** Claim C4.  For an input that is neither empty nor whitespace only, the
    suggestions are those of the rule table read in its fixed order
    (hashtags, call-to-action, length, mentions, emojis, readability,
    sentiment): each rule contributes its one suggestion exactly when its
    trigger holds, with its documented priority; the two hashtag triggers
    exclude each other, and so do the two length triggers. *)
Theorem suggestions_follow_rule_table (text contentType : jsstring) :
  isBlank text = false ->
  exists a : Analysis.t,
    analysis (analyzeEngagement toLowerCase text contentType) = Extracted a
    /\ suggestions (analyzeEngagement toLowerCase text contentType)
       = map Advice (documentedSuggestions a)
    /\ map (fun r => type (advice r)) rules = ruleOrder
    /\ Forall (fun r => priority (advice r) = documentedPriority r) rules
    /\ ((Hashtags.found (Analysis.hashtags a) =? 0)
        && (5 <? Hashtags.found (Analysis.hashtags a)))%bool = false
    /\ (status_eqb (Length.status (Analysis.length a)) TooLong
        && status_eqb (Length.status (Analysis.length a)) TooShort)%bool = false.
Proof.
  intros B. exists (features toLowerCase text).
  rewrite (analyze_not_blank toLowerCase text contentType B). cbn [analysis suggestions].
  split; [reflexivity|]. split.
  - f_equal. apply suggestions_are_documented.
    destruct (features_shape toLowerCase text) as (_ & _ & _ & _ & _ & _ & _ & H).
    rewrite H. destruct (CallToAction.strength _); cbn; congruence.
  - split; [reflexivity|]. split.
    + repeat constructor.
    + split.
      * destruct (Z.eqb_spec (Hashtags.found (Analysis.hashtags (features toLowerCase text))) 0)
          as [E|E]; [rewrite E; reflexivity | reflexivity].
      * destruct (Length.status _); reflexivity.
Qed.

(** Claim C5.  When the hashtag record has [found > 0] and the call-to-action
    record has [found == true], [optimizedContent] is the trimmed text,
    unchanged.  Otherwise the optimizer appends to the trimmed text, when
    [hashtags.found == 0], two line breaks and the three generic hashtags,
    and then, when [callToAction.found == false], two line breaks and the
    fixed call-to-action sentence. *)
Theorem optimizer_appends_missing_parts (text contentType : jsstring) :
  (hashtagsFound (analysis (analyzeEngagement toLowerCase text contentType)) > 0 ->
   callToActionFound (analysis (analyzeEngagement toLowerCase text contentType)) = true ->
   optimizedContent (analyzeEngagement toLowerCase text contentType) = Some (trim text))
  /\ (isBlank text = false ->
      optimizedContent (analyzeEngagement toLowerCase text contentType)
      = Some (generateOptimizedVersion text (features toLowerCase text)))
  /\ (forall a : Analysis.t,
        generateOptimizedVersion text a
        = trim text
          ++ (if Hashtags.found (Analysis.hashtags a) =? 0 then hashtagSuffix else [])
          ++ (if CallToAction.found (Analysis.callToAction a) then []
              else callToActionSuffix)).
Proof.
  split; [|split].
  - destruct (isBlank text) eqn:B.
    + rewrite (analyze_blank toLowerCase text contentType B). cbn. lia.
    + rewrite (analyze_not_blank toLowerCase text contentType B).
      cbn [analysis optimizedContent hashtagsFound callToActionFound].
      intros Hh Hc. rewrite optimized_is_documented, Hc.
      destruct (Z.eqb_spec (Hashtags.found (Analysis.hashtags (features toLowerCase text))) 0);
        [lia|]. now rewrite !app_nil_r.
  - intros B. now rewrite (analyze_not_blank toLowerCase text contentType B).
  - apply optimized_is_documented.
Qed.


(** Claim C8.  For every input, [analysis.hashtags.found] is the number of
    occurrences of [#] followed by one or more word characters and
    [recommended] is [max(found, 3)]; [analysis.mentions.found] is the number
    of occurrences of [@] followed by one or more word characters and
    [recommended] is [max(found, 2)]. *)
Theorem found_counts_tagged_tokens (text contentType : jsstring) :
  hashtagsFound (analysis (analyzeEngagement toLowerCase text contentType)) = countTagged 35 text
  /\ hashtagsRecommended (analysis (analyzeEngagement toLowerCase text contentType))
     = Z.max (hashtagsFound (analysis (analyzeEngagement toLowerCase text contentType))) 3
  /\ mentionsFound (analysis (analyzeEngagement toLowerCase text contentType)) = countTagged 64 text
  /\ mentionsRecommended (analysis (analyzeEngagement toLowerCase text contentType))
     = Z.max (mentionsFound (analysis (analyzeEngagement toLowerCase text contentType))) 2.
Proof.
  destruct (isBlank text) eqn:B.
  - rewrite (analyze_blank toLowerCase text contentType B). cbn.
    rewrite <- (matchAll_tag_count 35 eq_refl), <- (matchAll_tag_count 64 eq_refl).
    rewrite (blank_no_hashtags text B), (blank_no_mentions text B).
    repeat split.
  - rewrite (analyze_not_blank toLowerCase text contentType B).
    cbn [analysis hashtagsFound hashtagsRecommended mentionsFound mentionsRecommended
         features Analysis.hashtags Analysis.mentions].
    unfold analyzeHashtags, analyzeMentions.
    cbn [Hashtags.found Hashtags.recommended Mentions.found Mentions.recommended].
    rewrite <- (matchAll_tag_count 35 eq_refl), <- (matchAll_tag_count 64 eq_refl).
    repeat split.
    + destruct (Z.ltb_spec (count (matchAll false (m_tag 35 isWordChar) text)) 3); lia.
    + destruct (Z.ltb_spec (count (matchAll false (m_tag 64 isWordChar) text)) 2); lia.
Qed.

(** Claim C9, amended.  For an input that is neither empty nor whitespace
    only, the returned analysis holds the seven feature records, each with
    its documented fields and enum values.  For an empty or whitespace-only
    input it is the canned object of six two-field records. *)
Theorem analysis_records_by_branch (text contentType : jsstring) :
  (isBlank text = false ->
   analysis (analyzeEngagement toLowerCase text contentType) = Extracted (features toLowerCase text)
   /\ documentedShape (features toLowerCase text)
   /\ emojisRecord (analysis (analyzeEngagement toLowerCase text contentType))
      = Some (analyzeEmojis text))
  /\ (isBlank text = true ->
      analysis (analyzeEngagement toLowerCase text contentType) = Default cannedAnalysis).
Proof.
  split; intros B.
  - rewrite (analyze_not_blank toLowerCase text contentType B). cbn [analysis emojisRecord].
    repeat split; try apply features_shape.
  - now rewrite (analyze_blank toLowerCase text contentType B).
Qed.

(** Claim C10.  For every string, the platform of the length record is
    ['twitter'] when the text has at most 280 characters and ['linkedin']
    when it has more; ['general'] is never produced. *)
Theorem platform_twitter_or_linkedin (text contentType : jsstring) :
  (Length.characters (analyzeLength text) <= 280 ->
   Length.platform (analyzeLength text) = Twitter)
  /\ (Length.characters (analyzeLength text) > 280 ->
      Length.platform (analyzeLength text) = Linkedin)
  /\ Length.platform (analyzeLength text) <> General
  /\ lengthPlatform (analysis (analyzeEngagement toLowerCase text contentType)) <> Some General.
Proof.
  destruct (length_platform text) as [Hc Hp]. rewrite Hc, Hp.
  assert (Hg : (if len text <=? 280 then Twitter else Linkedin) <> General)
    by (destruct (len text <=? 280); discriminate).
  repeat split.
  - intros H. destruct (Z.leb_spec (len text) 280); [reflexivity | lia].
  - intros H. destruct (Z.leb_spec (len text) 280); [lia | reflexivity].
  - exact Hg.
  - destruct (isBlank text) eqn:B.
    + rewrite (analyze_blank toLowerCase text contentType B). discriminate.
    + rewrite (analyze_not_blank toLowerCase text contentType B).
      cbn [analysis lengthPlatform features Analysis.length]. rewrite Hp.
      intros [= E]. now apply Hg.
Qed.

End Properties.

(** Claim C6.  With all other feature records fixed, replacing a
    call-to-action record of strength ['none'] by one of strength ['strong']
    never lowers the engagement score. *)
Theorem strong_cta_never_lowers_score (a : Analysis.t) (without strong : CallToAction.t) :
  CallToAction.strength without = CtaNone ->
  CallToAction.strength strong = CtaStrong ->
  calculateEngagementScore (withCallToAction a without)
  <= calculateEngagementScore (withCallToAction a strong).
Proof.
  intros Hn Hs. rewrite !score_is_documented.
  unfold documentedScore, clamp, withCallToAction.
  cbn [Analysis.hashtags Analysis.mentions Analysis.callToAction Analysis.length
       Analysis.readability Analysis.sentiment Analysis.emojis].
  rewrite Hn, Hs, !Math_round_Z. cbn [ctaTerm].
  set (r := Math_round _). lia.
Qed.

(* ================================================================== *)
(** ** The service on concrete inputs *)

Example samplePost_result :
  score (analyzeEngagement asciiLower samplePost (lit "pdf")) = 100
  /\ grade (analyzeEngagement asciiLower samplePost (lit "pdf")) = GradeAplus
  /\ hashtagsFound (analysis (analyzeEngagement asciiLower samplePost (lit "pdf"))) = 2
  /\ mentionsFound (analysis (analyzeEngagement asciiLower samplePost (lit "pdf"))) = 1
  /\ callToActionFound (analysis (analyzeEngagement asciiLower samplePost (lit "pdf"))) = true.
Proof. vm_compute. repeat split. Qed.

Lemma blank_input_witness :
  isBlank whitespaceOnly = true
  /\ score (analyzeEngagement asciiLower whitespaceOnly (lit "pdf")) = 0
  /\ grade (analyzeEngagement asciiLower whitespaceOnly (lit "pdf")) = GradeF
  /\ suggestions (analyzeEngagement asciiLower whitespaceOnly (lit "pdf"))
     = [Message (lit "No text content found to analyze")]
  /\ analysis (analyzeEngagement asciiLower whitespaceOnly (lit "pdf")) = Default cannedAnalysis
  /\ optimizedContent (analyzeEngagement asciiLower whitespaceOnly (lit "pdf")) = None.
Proof.
  split; [reflexivity|].
  apply (blank_input_canned_result asciiLower whitespaceOnly (lit "pdf")).
  reflexivity.
Defined.

Lemma weighted_sum_witness :
  isBlank samplePost = false
  /\ exists a : Analysis.t,
       analysis (analyzeEngagement asciiLower samplePost (lit "pdf")) = Extracted a
       /\ a = features asciiLower samplePost
       /\ score (analyzeEngagement asciiLower samplePost (lit "pdf")) = documentedScore a.
Proof.
  split; [reflexivity|].
  apply (score_is_weighted_sum asciiLower samplePost (lit "pdf")).
  reflexivity.
Defined.

Lemma rule_table_witness :
  isBlank samplePost = false
  /\ exists a : Analysis.t,
       analysis (analyzeEngagement asciiLower samplePost (lit "pdf")) = Extracted a
       /\ suggestions (analyzeEngagement asciiLower samplePost (lit "pdf"))
          = map Advice (documentedSuggestions a)
       /\ map (fun r => type (advice r)) rules = ruleOrder
       /\ Forall (fun r => priority (advice r) = documentedPriority r) rules
       /\ ((Hashtags.found (Analysis.hashtags a) =? 0)
           && (5 <? Hashtags.found (Analysis.hashtags a)))%bool = false
       /\ (status_eqb (Length.status (Analysis.length a)) TooLong
           && status_eqb (Length.status (Analysis.length a)) TooShort)%bool = false.
Proof.
  split; [reflexivity|].
  apply (suggestions_follow_rule_table asciiLower samplePost (lit "pdf")).
  reflexivity.
Defined.

Lemma optimizer_witness :
  hashtagsFound (analysis (analyzeEngagement asciiLower samplePost (lit "pdf"))) > 0
  /\ callToActionFound (analysis (analyzeEngagement asciiLower samplePost (lit "pdf"))) = true
  /\ optimizedContent (analyzeEngagement asciiLower samplePost (lit "pdf"))
     = Some (trim samplePost)
  /\ isBlank (lit "  hello  ") = false
  /\ optimizedContent (analyzeEngagement asciiLower (lit "  hello  ") (lit "pdf"))
     = Some (generateOptimizedVersion (lit "  hello  ") (features asciiLower (lit "  hello  "))).
Proof.
  split; [reflexivity|]. split; [reflexivity|]. split.
  - apply (proj1 (optimizer_appends_missing_parts asciiLower samplePost (lit "pdf")));
      reflexivity.
  - split; [reflexivity|].
    apply (proj1 (proj2 (optimizer_appends_missing_parts asciiLower (lit "  hello  ")
                           (lit "pdf")))).
    reflexivity.
Defined.

Lemma strong_cta_witness :
  CallToAction.strength noCallToAction = CtaNone
  /\ CallToAction.strength strongCallToAction = CtaStrong
  /\ calculateEngagementScore
       (withCallToAction (features asciiLower samplePost) noCallToAction)
     <= calculateEngagementScore
          (withCallToAction (features asciiLower samplePost) strongCallToAction).
Proof.
  split; [reflexivity|]. split; [reflexivity|].
  apply (strong_cta_never_lowers_score (features asciiLower samplePost)
           noCallToAction strongCallToAction); reflexivity.
Defined.



(** Claim C9, as stated, fails on the empty string: the analysis returned
    there is not the seven-record object; it has no emoji record and its
    readability level is ['poor']. *)
Lemma empty_input_lacks_records :
  ~ (exists a : Analysis.t,
       analysis (analyzeEngagement asciiLower [] (lit "pdf")) = Extracted a
       /\ documentedShape a)
  /\ emojisRecord (analysis (analyzeEngagement asciiLower [] (lit "pdf"))) = None
  /\ readabilityLevel (analysis (analyzeEngagement asciiLower [] (lit "pdf"))) = Poor.
Proof.
  split; [|split; reflexivity].
  intros (a & Ha & _). discriminate Ha.
Qed.

Lemma analysis_records_witness :
  isBlank samplePost = false
  /\ analysis (analyzeEngagement asciiLower samplePost (lit "pdf"))
     = Extracted (features asciiLower samplePost)
  /\ documentedShape (features asciiLower samplePost)
  /\ isBlank whitespaceOnly = true
  /\ analysis (analyzeEngagement asciiLower whitespaceOnly (lit "pdf")) = Default cannedAnalysis.
Proof.
  split; [reflexivity|].
  destruct (proj1 (analysis_records_by_branch asciiLower samplePost (lit "pdf")) eq_refl)
    as (Ha & Hs & _).
  split; [exact Ha|]. split; [exact Hs|]. split; [reflexivity|].
  apply (proj2 (analysis_records_by_branch asciiLower whitespaceOnly (lit "pdf"))).
  reflexivity.
Defined.

Lemma platform_witness :
  Length.characters (analyzeLength samplePost) <= 280
  /\ Length.platform (analyzeLength samplePost) = Twitter
  /\ Length.characters (analyzeLength (repeat 97%N 281)) > 280
  /\ Length.platform (analyzeLength (repeat 97%N 281)) = Linkedin.
Proof.
  split; [vm_compute; discriminate|]. split.
  - apply (proj1 (platform_twitter_or_linkedin asciiLower samplePost (lit "pdf"))).
    vm_compute; discriminate.
  - split; [vm_compute; reflexivity|].
    apply (proj1 (proj2 (platform_twitter_or_linkedin asciiLower (repeat 97%N 281)
                           (lit "pdf")))).
    vm_compute; reflexivity.
Defined.

(* ================================================================== *)
(** ** Substrings *)

Lemma startsWith_spec (sub s : jsstring) :
  startsWith sub s = true <-> exists post, s = sub ++ post.
Proof.
  revert s. induction sub as [|x sub IH]; intros s.
  - simpl. split; [intros _; now exists s | reflexivity].
  - destruct s as [|y s]; simpl.
    + split; [discriminate | intros [post H]; discriminate H].
    + rewrite andb_true_iff, N.eqb_eq, IH. split.
      * intros [-> [post ->]]. now exists post.
      * intros [post [= -> ->]]. split; [reflexivity | now exists post].
Qed.

Lemma includes_spec (s sub : jsstring) :
  includes s sub = true <-> exists pre post, s = pre ++ sub ++ post.
Proof.
  induction s as [|c s IH].
  - simpl. rewrite orb_false_r, startsWith_spec. split.
    + intros [post H]. now exists [], post.
    + intros (pre & post & H). destruct pre; [now exists post | discriminate H].
  - cbn [includes]. rewrite orb_true_iff, startsWith_spec, IH. split.
    + intros [[post H] | (pre & post & H)].
      * now exists [], post.
      * exists (c :: pre), post. now rewrite H.
    + intros (pre & post & H). destruct pre as [|d pre].
      * left. now exists post.
      * right. injection H as _ H. now exists pre, post.
Qed.

Lemma str_eqb_eq (a b : jsstring) : str_eqb a b = true <-> a = b.
Proof.
  revert b. induction a as [|x a IH]; intros [|y b]; simpl;
    try (split; [reflexivity || discriminate | reflexivity || discriminate]).
  rewrite andb_true_iff, N.eqb_eq, IH. split.
  - now intros [-> ->].
  - now intros [= -> ->].
Qed.

(* ================================================================== *)
(** ** The matched tokens *)

Lemma takeWhile_dropWhile (p : N -> bool) (s : jsstring) :
  s = takeWhile p s ++ dropWhile p s.
Proof.
  induction s as [|c r IH]; simpl; auto.
  destruct (p c); simpl; [now rewrite <- IH | reflexivity].
Qed.

Lemma dropWhile_head (p : N -> bool) (s : jsstring) :
  match dropWhile p s with
  | [] => True
  | c :: _ => p c = false
  end.
Proof.
  induction s as [|c r IH]; simpl; auto.
  destruct (p c) eqn:E; simpl; auto.
Qed.

Lemma occursMaximal_cons (x s : jsstring) (c : N) :
  occursMaximal x s -> occursMaximal x (c :: s).
Proof.
  intros (pre & post & -> & H). now exists (c :: pre), post.
Qed.

(** Every match of [/tag[\w]+/g] is the tag with the whole word after it. *)
Lemma matchAll_from_tag_shape (tag : N) (s : jsstring) :
  forall (skip : nat) (x : jsstring),
    In x (matchAll_from false (m_tag tag isWordChar) skip s) ->
    isTaggedToken tag x /\ occursMaximal x s.
Proof.
  induction s as [|c r IH]; intros skip x Hin; [destruct Hin|].
  cbn [matchAll_from] in Hin. destruct skip as [|k].
  - destruct (m_tag tag isWordChar (c :: r)) as [n|] eqn:Hm.
    + destruct Hin as [<- | Hin].
      * unfold m_tag in Hm. destruct (N.eqb_spec c tag) as [->|]; [|discriminate Hm].
        destruct (takeWhile isWordChar r) as [|d w] eqn:Hw; [discriminate Hm|].
        injection Hm as <-.
        pose proof (firstn_takeWhile isWordChar r) as F. rewrite Hw in F.
        cbn [List.length] in F |- *.
        change (firstn (S (S (List.length w))) (tag :: r))
          with (tag :: firstn (S (List.length w)) r).
        rewrite F. split.
        -- exists (d :: w). repeat split; [discriminate|].
           rewrite <- Hw. apply takeWhile_all.
        -- exists [], (dropWhile isWordChar r). split.
           ++ cbn [app]. f_equal.
              rewrite (takeWhile_dropWhile isWordChar r) at 1. now rewrite Hw.
           ++ apply dropWhile_head.
      * destruct (IH _ _ Hin). split; [assumption | now apply occursMaximal_cons].
    + destruct (IH _ _ Hin). split; [assumption | now apply occursMaximal_cons].
  - destruct (IH _ _ Hin). split; [assumption | now apply occursMaximal_cons].
Qed.

Lemma existsb_str_eqb (x : jsstring) (seen : list jsstring) :
  existsb (str_eqb x) seen = true <-> In x seen.
Proof.
  rewrite existsb_exists. split.
  - intros (y & Hy & E). apply str_eqb_eq in E. now subst.
  - intros H. exists x. split; [assumption | now apply str_eqb_eq].
Qed.

Lemma dedupe_from_spec (xs : list jsstring) :
  forall seen : list jsstring,
    NoDup (dedupe_from seen xs)
    /\ (forall e, In e (dedupe_from seen xs) <-> In e xs /\ ~ In e seen)
    /\ (List.length (dedupe_from seen xs) <= List.length xs)%nat.
Proof.
  induction xs as [|x r IH]; intros seen; cbn [dedupe_from].
  - split; [constructor|]. split; [|simpl; lia]. intros e. simpl. tauto.
  - destruct (existsb (str_eqb x) seen) eqn:E.
    + apply existsb_str_eqb in E. destruct (IH seen) as (Hn & Hi & Hl).
      split; [exact Hn|]. split; [|simpl; lia].
      intros e. rewrite Hi. simpl. split; [tauto|].
      intros [[<- | H] Hs]; [contradiction | tauto].
    + assert (Hx : ~ In x seen).
      { intros H. apply existsb_str_eqb in H. congruence. }
      destruct (IH (x :: seen)) as (Hn & Hi & Hl).
      split; [|split; [|simpl; lia]].
      * constructor; [|assumption]. rewrite Hi. simpl. tauto.
      * intros e. simpl. rewrite Hi. simpl. split.
        -- intros [<- | [H1 H2]]; tauto.
        -- intros [[<- | H] Hs]; [now left|].
           destruct (list_eq_dec N.eq_dec x e) as [<- | Hne]; [now left|].
           right. tauto.
Qed.

Lemma matchAll_from_emoji_shape (s : jsstring) :
  forall (skip : nat) (e : jsstring),
    In e (matchAll_from true (m_class_u isEmoji) skip s) -> isEmojiToken e.
Proof.
  induction s as [|c r IH]; intros skip e Hin; [destruct Hin|].
  cbn [matchAll_from] in Hin. destruct skip as [|k]; [|now apply IH in Hin].
  destruct (m_class_u isEmoji (c :: r)) as [n|] eqn:Hm; [|now apply IH in Hin].
  destruct Hin as [<- | Hin]; [|now apply IH in Hin].
  unfold m_class_u in Hm.
  destruct (codePointAt (c :: r)) as [[cp w]|] eqn:Hc; [|discriminate Hm].
  destruct (isEmoji cp) eqn:He; [|discriminate Hm]. injection Hm as <-.
  exists cp, w. unfold codePointAt in Hc.
  destruct r as [|l r'].
  - injection Hc as <- <-. now repeat split.
  - destruct (isHighSurrogate c && isLowSurrogate l)%bool eqn:Hs;
      injection Hc as <- <-; cbn [firstn codePointAt].
    + rewrite Hs. now repeat split.
    + now repeat split.
Qed.

(* ================================================================== *)
(** ** More about the extractors *)

(** Property X1.  Every entry of [hashtags.list] is [#] followed by a whole word of the
    text (one or more word characters, up to the first character that is
    not one); likewise every entry of [mentions.list] with [@]. *)
Theorem tagged_tokens_are_whole_words (text : jsstring) :
  (forall x, In x (Hashtags.list (analyzeHashtags text)) ->
             isTaggedToken 35 x /\ occursMaximal x text)
  /\ (forall x, In x (Mentions.list (analyzeMentions text)) ->
                isTaggedToken 64 x /\ occursMaximal x text).
Proof.
  split; intros x H; exact (matchAll_from_tag_shape _ _ _ _ H).
Qed.

(** Property X2.  [emojis.list] holds every matched emoji once: it has no duplicates, its
    entries are single code points of the emoji ranges, it is never longer
    than [found], and it is empty only when nothing was found. *)
Theorem emoji_list_is_deduplicated (text : jsstring) :
  NoDup (Emojis.list (analyzeEmojis text))
  /\ (forall e, In e (Emojis.list (analyzeEmojis text)) -> isEmojiToken e)
  /\ count (Emojis.list (analyzeEmojis text)) <= Emojis.found (analyzeEmojis text)
  /\ (Emojis.list (analyzeEmojis text) = [] -> Emojis.found (analyzeEmojis text) = 0).
Proof.
  unfold analyzeEmojis. cbn [Emojis.list Emojis.found]. unfold dedupe.
  set (ms := matchAll true (m_class_u isEmoji) text).
  destruct (dedupe_from_spec ms []) as (Hn & Hi & Hl).
  split; [exact Hn|]. split; [|split].
  - intros e He. apply Hi in He as [He _].
    exact (matchAll_from_emoji_shape _ _ _ He).
  - unfold count. lia.
  - intros E. destruct ms as [|m ms']; [reflexivity|].
    assert (In m (dedupe_from [] (m :: ms'))) as H by (apply Hi; simpl; tauto).
    rewrite E in H. destruct H.
Qed.

Lemma count_filter_le {A : Type} (f : A -> bool) (l : list A) :
  0 <= count (filter f l) <= count l.
Proof.
  unfold count. pose proof (filter_length_le f l). lia.
Qed.

Lemma count_filter_zero {A : Type} (f : A -> bool) (l : list A) :
  count (filter f l) = 0 <-> forall x, In x l -> f x = false.
Proof.
  split.
  - intros H x Hx. apply count_nil_inv in H.
    destruct (f x) eqn:E; [|reflexivity].
    assert (In x (filter f l)) as Hin by (apply filter_In; tauto).
    rewrite H in Hin. destruct Hin.
  - intros H. induction l as [|a l IH]; [reflexivity|].
    simpl. rewrite (H a (or_introl eq_refl)). apply IH.
    intros x Hx. apply H. now right.
Qed.

Lemma counts_filter {A : Type} (P : A -> Prop) (f : A -> bool) (l : list A) :
  (forall x, f x = true <-> P x) -> Counts P l (count (filter f l)).
Proof.
  intros Hf. induction l as [|x l IH]; [constructor|].
  cbn [filter]. destruct (f x) eqn:E.
  - rewrite count_cons, Z.add_comm. constructor; [now apply Hf | exact IH].
  - constructor; [|exact IH]. intros Hx. apply Hf in Hx. congruence.
Qed.

Lemma Counts_functional {A : Type} (P : A -> Prop) (l : list A) (n m : Z) :
  Counts P l n -> Counts P l m -> n = m.
Proof.
  intros Hn. revert m. induction Hn as [|x l n Hx Hn IH|x l n Hx Hn IH]; intros m Hm.
  - now inversion Hm.
  - inversion Hm; subst; [now rewrite (IH _ H3) | contradiction].
  - inversion Hm; subst; [contradiction | now apply IH].
Qed.

Section Lexicons.

Variable toLowerCase : jsstring -> jsstring.

(** Property X3.  The call-to-action words are the lexicon entries that occur anywhere in
    the lower-cased text, inside longer words too; [count] is their number,
    at most 20, and it alone fixes [strength]: none for 0, weak for 1,
    medium for 2, strong from 3. *)
Theorem callToAction_by_substring (text : jsstring) :
  (forall w, In w (CallToAction.words (analyzeCallToAction toLowerCase text))
             <-> In w ctaWords
                 /\ exists pre post, toLowerCase text = pre ++ w ++ post)
  /\ CallToAction.count (analyzeCallToAction toLowerCase text)
     = count (CallToAction.words (analyzeCallToAction toLowerCase text))
  /\ 0 <= CallToAction.count (analyzeCallToAction toLowerCase text) <= 20
  /\ (CallToAction.strength (analyzeCallToAction toLowerCase text) = CtaNone
      <-> CallToAction.count (analyzeCallToAction toLowerCase text) = 0)
  /\ (CallToAction.strength (analyzeCallToAction toLowerCase text) = CtaWeak
      <-> CallToAction.count (analyzeCallToAction toLowerCase text) = 1)
  /\ (CallToAction.strength (analyzeCallToAction toLowerCase text) = CtaMedium
      <-> CallToAction.count (analyzeCallToAction toLowerCase text) = 2)
  /\ (CallToAction.strength (analyzeCallToAction toLowerCase text) = CtaStrong
      <-> 3 <= CallToAction.count (analyzeCallToAction toLowerCase text)).
Proof.
  unfold analyzeCallToAction.
  cbn [CallToAction.words CallToAction.count CallToAction.strength].
  split.
  { intros w. rewrite filter_In, includes_spec. reflexivity. }
  split; [reflexivity|].
  pose proof (count_filter_le (fun cta => includes (toLowerCase text) cta) ctaWords) as Hb.
  change (count ctaWords) with 20 in Hb.
  set (n := count _) in *. split; [exact Hb|]. leb_only.
  destruct (Z.leb_spec 3 n); [repeat split; intros; try discriminate; lia|].
  destruct (Z.leb_spec 2 n); [repeat split; intros; try discriminate; lia|].
  destruct (Z.leb_spec 1 n); repeat split; intros; try discriminate; lia.
Qed.

(** Property X4.  Each of the three sentiment counts is the number of
    entries of its lexicon (positive, negative, engagement) that occur
    somewhere in the lower-cased text.  Engagement is low exactly when no
    word of the engagement lexicon occurs in the lower-cased text, medium
    for one or two such words, and high from three; the tone is neutral
    exactly when as many positive as negative lexicon words occur, positive
    when more positive ones do and negative when more negative ones do.  The
    three counts are bounded by the lexicon sizes 12, 10 and 10. *)
Theorem sentiment_by_lexicon_counts (text : jsstring) :
  (Sentiment.engagement (analyzeSentiment toLowerCase text) = EngLow
   <-> forall w, In w engagementWords ->
                 ~ exists pre post, toLowerCase text = pre ++ w ++ post)
  /\ (Sentiment.engagement (analyzeSentiment toLowerCase text) = EngHigh
      <-> 3 <= Sentiment.engagementWords (analyzeSentiment toLowerCase text))
  /\ (Sentiment.tone (analyzeSentiment toLowerCase text) = Neutral
      <-> Sentiment.positiveWords (analyzeSentiment toLowerCase text)
          = Sentiment.negativeWords (analyzeSentiment toLowerCase text))
  /\ (Sentiment.tone (analyzeSentiment toLowerCase text) = Positive
      <-> Sentiment.negativeWords (analyzeSentiment toLowerCase text)
          < Sentiment.positiveWords (analyzeSentiment toLowerCase text))
  /\ 0 <= Sentiment.positiveWords (analyzeSentiment toLowerCase text) <= 12
  /\ 0 <= Sentiment.negativeWords (analyzeSentiment toLowerCase text) <= 10
  /\ 0 <= Sentiment.engagementWords (analyzeSentiment toLowerCase text) <= 10
  /\ Counts (occursIn (toLowerCase text)) positiveWords
       (Sentiment.positiveWords (analyzeSentiment toLowerCase text))
  /\ Counts (occursIn (toLowerCase text)) negativeWords
       (Sentiment.negativeWords (analyzeSentiment toLowerCase text))
  /\ Counts (occursIn (toLowerCase text)) engagementWords
       (Sentiment.engagementWords (analyzeSentiment toLowerCase text))
  /\ (Sentiment.engagement (analyzeSentiment toLowerCase text) = EngMedium
      <-> 1 <= Sentiment.engagementWords (analyzeSentiment toLowerCase text) <= 2)
  /\ (Sentiment.tone (analyzeSentiment toLowerCase text) = Negative
      <-> Sentiment.positiveWords (analyzeSentiment toLowerCase text)
          < Sentiment.negativeWords (analyzeSentiment toLowerCase text)).
Proof.
  unfold analyzeSentiment.
  cbn [Sentiment.engagement Sentiment.tone Sentiment.positiveWords
       Sentiment.negativeWords Sentiment.engagementWords].
  pose proof (count_filter_le (fun word => includes (toLowerCase text) word) positiveWords) as Hp.
  pose proof (count_filter_le (fun word => includes (toLowerCase text) word) negativeWords) as Hn.
  pose proof (count_filter_le (fun word => includes (toLowerCase text) word) engagementWords) as He.
  pose proof (count_filter_zero (fun word => includes (toLowerCase text) word) engagementWords) as Hz.
  assert (Hocc : forall w, includes (toLowerCase text) w = true <-> occursIn (toLowerCase text) w)
    by (intros w; apply includes_spec).
  pose proof (counts_filter (occursIn (toLowerCase text)) _ positiveWords Hocc) as Cp.
  pose proof (counts_filter (occursIn (toLowerCase text)) _ negativeWords Hocc) as Cn.
  pose proof (counts_filter (occursIn (toLowerCase text)) _ engagementWords Hocc) as Ce.
  change (count positiveWords) with 12 in Hp.
  change (count negativeWords) with 10 in Hn.
  change (count engagementWords) with 10 in He.
  set (p := count (filter _ positiveWords)) in *.
  set (n := count (filter _ negativeWords)) in *.
  set (e := count (filter _ engagementWords)) in *.
  assert (Hlow : e = 0 <-> forall w, In w engagementWords ->
                   ~ exists pre post, toLowerCase text = pre ++ w ++ post).
  { rewrite Hz. split; intros H w Hw.
    - rewrite <- includes_spec. rewrite (H w Hw). discriminate.
    - specialize (H w Hw). rewrite <- includes_spec in H.
      now destruct (includes (toLowerCase text) w). }
  leb_only.
  split; [rewrite <- Hlow|split; [|split; [|split; [|split; [|split; [|split;
    [|split; [|split; [|split; [|split]]]]]]]]]]; try assumption.
  - destruct (Z.leb_spec 3 e); [split; intros; try discriminate; lia|].
    destruct (Z.leb_spec 1 e); split; intros; try discriminate; try reflexivity; lia.
  - destruct (Z.leb_spec 3 e); [split; intros; try reflexivity; lia|].
    destruct (Z.leb_spec 1 e); split; intros; try discriminate; lia.
  - destruct (Z.ltb_spec n p); [split; intros; try discriminate; lia|].
    destruct (Z.ltb_spec p n); split; intros; try discriminate; try reflexivity; lia.
  - destruct (Z.ltb_spec n p); [split; intros; try reflexivity; lia|].
    destruct (Z.ltb_spec p n); split; intros; try discriminate; lia.
  - destruct (Z.leb_spec 3 e); [split; intros; try discriminate; lia|].
    destruct (Z.leb_spec 1 e); split; intros; try discriminate; try reflexivity; lia.
  - destruct (Z.ltb_spec n p); [split; intros; try discriminate; lia|].
    destruct (Z.ltb_spec p n); split; intros; try discriminate; try reflexivity; lia.
Qed.

End Lexicons.

Lemma Qgtb_quotient (w s k : Z) :
  0 < s ->
  (Qgtb (inject_Z w / inject_Z s) (inject_Z k) = true <-> k * s < w).
Proof.
  intros Hs. destruct s as [|p|p]; try lia.
  unfold Qgtb, Qle_bool, Qdiv, Qmult, Qinv, inject_Z. cbn [Qnum Qden].
  rewrite negb_true_iff, Z.leb_gt. cbn [Z.mul Pos.mul]. lia.
Qed.

Lemma Qgtb_zero (k : Z) : 0 <= k -> Qgtb 0 (inject_Z k) = false.
Proof.
  intros Hk. unfold Qgtb, Qle_bool, inject_Z. cbn [Qnum Qden].
  rewrite negb_false_iff, Z.leb_le. lia.
Qed.

Lemma readability_cases (text : jsstring) :
  (Readability.level (analyzeReadability text) = LevelTooShort
   <-> wordCount text < 10)
  /\ (Readability.level (analyzeReadability text) = Difficult
      <-> 0 < Readability.sentences (analyzeReadability text)
          /\ 20 * Readability.sentences (analyzeReadability text) < wordCount text)
  /\ (Readability.level (analyzeReadability text) = Moderate
      <-> 0 < Readability.sentences (analyzeReadability text)
          /\ 15 * Readability.sentences (analyzeReadability text) < wordCount text
             <= 20 * Readability.sentences (analyzeReadability text))
  /\ Readability.score (analyzeReadability text)
     = match Readability.level (analyzeReadability text) with
       | Difficult => 70
       | LevelTooShort => 80
       | Moderate => 85
       | _ => 100
       end
  /\ (Readability.complexity (analyzeReadability text) = CxHigh
      <-> Readability.level (analyzeReadability text) = Difficult
          \/ Readability.level (analyzeReadability text) = Moderate).
Proof.
  unfold analyzeReadability, wordCount.
  set (s := count (filter (fun s => len (trim s) >? 0) _)).
  set (w := count (filter nonEmpty _)).
  assert (Hs0 : 0 <= s) by apply count_nonneg.
  rewrite (Z.gtb_ltb s 0).
  destruct (Z.ltb_spec 0 s) as [Hs|Hs].
  - cbv beta iota zeta.
    pose proof (Qgtb_quotient w s 20 Hs) as H20.
    pose proof (Qgtb_quotient w s 15 Hs) as H15.
    pose proof (Qgtb_quotient w s 10 Hs) as H10.
    change (inject_Z 20) with 20%Q in H20. change (inject_Z 15) with 15%Q in H15.
    change (inject_Z 10) with 10%Q in H10.
    assert (D20 : Qgtb (inject_Z w / inject_Z s) 20 = true /\ 20 * s < w
                  \/ Qgtb (inject_Z w / inject_Z s) 20 = false /\ w <= 20 * s).
    { destruct (Qgtb (inject_Z w / inject_Z s) 20);
        [left; split; [reflexivity | now apply H20]
        | right; split; [reflexivity|];
          destruct (Z.le_gt_cases w (20 * s)) as [|G]; [assumption|];
          apply H20 in G; discriminate G]. }
    assert (D15 : Qgtb (inject_Z w / inject_Z s) 15 = true /\ 15 * s < w
                  \/ Qgtb (inject_Z w / inject_Z s) 15 = false /\ w <= 15 * s).
    { destruct (Qgtb (inject_Z w / inject_Z s) 15);
        [left; split; [reflexivity | now apply H15]
        | right; split; [reflexivity|];
          destruct (Z.le_gt_cases w (15 * s)) as [|G]; [assumption|];
          apply H15 in G; discriminate G]. }
    assert (D10 : Qgtb (inject_Z w / inject_Z s) 10 = true /\ 10 * s < w
                  \/ Qgtb (inject_Z w / inject_Z s) 10 = false /\ w <= 10 * s).
    { destruct (Qgtb (inject_Z w / inject_Z s) 10);
        [left; split; [reflexivity | now apply H10]
        | right; split; [reflexivity|];
          destruct (Z.le_gt_cases w (10 * s)) as [|G]; [assumption|];
          apply H10 in G; discriminate G]. }
    clear H20 H15 H10.
    destruct D20 as [[E20 A20] | [E20 A20]]; destruct D15 as [[E15 A15] | [E15 A15]];
      destruct D10 as [[E10 A10] | [E10 A10]];
      rewrite ?E20, ?E15, ?E10;
      destruct (Z.ltb_spec w 10) as [Hw|Hw];
      cbv beta iota zeta;
      cbn [Readability.level Readability.score Readability.sentences Readability.complexity];
      rewrite ?Math_round_Z; try lia;
      (split; [|split; [|split; [|split]]]);
      solve [ reflexivity
            | split; intros; solve [reflexivity | discriminate | lia
                                   | intuition (discriminate || lia) ] ].
  - cbv beta iota zeta. assert (s = 0) as -> by lia.
    pose proof (Qgtb_zero 20) as H20. pose proof (Qgtb_zero 15) as H15.
    pose proof (Qgtb_zero 10) as H10.
    change (inject_Z 20) with 20%Q in H20. change (inject_Z 15) with 15%Q in H15.
    change (inject_Z 10) with 10%Q in H10.
    rewrite H20, H15, H10 by lia.
    destruct (Z.ltb_spec w 10) as [Hw|Hw];
      cbv beta iota zeta;
      cbn [Readability.level Readability.score Readability.sentences Readability.complexity];
      rewrite ?Math_round_Z;
      (split; [|split; [|split; [|split]]]);
      solve [ reflexivity
            | split; intros; solve [reflexivity | discriminate | lia
                                   | intuition (discriminate || lia) ] ].
Qed.

(** Property X5.  The sentence count and the word count fix the readability record.  The
    two penalties never meet: a long-sentence penalty needs more than 15
    words, the short-content one fewer than 10.  So the score is one of 70,
    80, 85 and 100 (never 50 or 65), and a text of at most 20 words is
    never rated difficult. *)
Theorem readability_penalties_exclusive (text : jsstring) :
  (Readability.level (analyzeReadability text) = LevelTooShort
   <-> wordCount text < 10)
  /\ (Readability.level (analyzeReadability text) = Difficult
      <-> 0 < Readability.sentences (analyzeReadability text)
          /\ 20 * Readability.sentences (analyzeReadability text) < wordCount text)
  /\ (Readability.level (analyzeReadability text) = Moderate
      <-> 0 < Readability.sentences (analyzeReadability text)
          /\ 15 * Readability.sentences (analyzeReadability text) < wordCount text
             <= 20 * Readability.sentences (analyzeReadability text))
  /\ (wordCount text <= 20 -> Readability.level (analyzeReadability text) <> Difficult)
  /\ In (Readability.score (analyzeReadability text)) [70; 80; 85; 100]
  /\ (Readability.score (analyzeReadability text) = 70
      <-> Readability.level (analyzeReadability text) = Difficult)
  /\ (Readability.score (analyzeReadability text) = 80
      <-> Readability.level (analyzeReadability text) = LevelTooShort).
Proof.
  destruct (readability_cases text) as (Hs & Hd & Hm & Hsc & _).
  split; [exact Hs|]. split; [exact Hd|]. split; [exact Hm|]. split.
  - intros Hw Hl. apply Hd in Hl. lia.
  - rewrite Hsc. destruct (Readability.level (analyzeReadability text)); simpl;
      repeat split; intros; try discriminate; try reflexivity; try tauto; lia.
Qed.

Lemma readability_term (text : jsstring) :
  14 <= Math_round (inject_Z (Readability.score (analyzeReadability text)) * (2 # 10)) <= 20
  /\ (Readability.level (analyzeReadability text) <> Difficult ->
      16 <= Math_round (inject_Z (Readability.score (analyzeReadability text)) * (2 # 10))).
Proof.
  destruct (readability_cases text) as (_ & _ & _ & Hsc & _). rewrite Hsc.
  destruct (Readability.level (analyzeReadability text)); vm_compute;
    repeat split; intros; congruence.
Qed.

Lemma split_from_words_le (m : matcher) (s : jsstring) :
  forall skip piece,
    count (filter nonEmpty (split_from m skip piece s)) <= len piece + len s.
Proof.
  induction s as [|c r IH]; intros skip piece; cbn [split_from].
  - cbn [filter]. unfold nonEmpty at 1. unfold len at 1. rewrite length_rev.
    destruct piece; cbn; unfold len; cbn [List.length]; lia.
  - assert (Hc : forall p, len (c :: p) = 1 + len p)
      by (intros p; unfold len; cbn [List.length]; lia).
    destruct skip as [|k].
    + destruct (m (c :: r)) as [[|n]|].
      * specialize (IH 0%nat (c :: piece)). rewrite !Hc in *. lia.
      * cbn [filter]. specialize (IH n []). rewrite Hc.
        change (len []) with 0 in IH.
        assert (0 <= len piece) by (unfold len; lia).
        destruct (nonEmpty (rev piece)) eqn:E; [rewrite count_cons|].
        -- assert (1 <= len piece).
           { unfold nonEmpty, len in E. rewrite length_rev in E.
             rewrite Z.gtb_ltb in E. apply Z.ltb_lt in E. unfold len. lia. }
           lia.
        -- lia.
      * specialize (IH 0%nat (c :: piece)). rewrite !Hc in *. lia.
    + specialize (IH k piece). rewrite Hc. lia.
Qed.

Lemma wordCount_le_len (text : jsstring) : wordCount text <= len text.
Proof.
  unfold wordCount, split. destruct text as [|c r]; [vm_compute; discriminate|].
  pose proof (split_from_words_le whitespaceRun (c :: r) 0 []) as H.
  change (len []) with 0 in H. lia.
Qed.

(** Property X6.  The length status follows the character count alone: too short below
    100, too long above 500, good in between, whatever the platform.  The
    word count never exceeds the character count and is at least 1 for a
    text that is not blank. *)
Theorem length_status_thresholds (text : jsstring) :
  (Length.status (analyzeLength text) = TooShort <-> len text < 100)
  /\ (Length.status (analyzeLength text) = TooLong <-> 500 < len text)
  /\ (Length.status (analyzeLength text) = Good <-> 100 <= len text <= 500)
  /\ Length.optimal (analyzeLength text)
     = (if len text <=? 280 then lit "140-280" else lit "100-300")
  /\ Length.words (analyzeLength text) <= Length.characters (analyzeLength text)
  /\ (isBlank text = false -> 1 <= Length.words (analyzeLength text)).
Proof.
  pose proof (wordCount_le_len text) as Hw.
  assert (Hb : isBlank text = false -> 1 <= wordCount text).
  { intros B. pose proof (wordCount_zero_blank text) as Hz.
    assert (0 <= wordCount text) by apply count_nonneg.
    destruct (Z.eq_dec (wordCount text) 0) as [E|E]; [|lia].
    rewrite (Hz E) in B. discriminate B. }
  unfold analyzeLength. fold (wordCount text). leb_only.
  destruct (Z.ltb_spec 280 (len text)) as [H1|H1].
  - destruct (Z.ltb_spec 500 (len text)) as [H2|H2];
      destruct (Z.leb_spec (len text) 280); try lia;
      cbn [Length.status Length.optimal Length.words Length.characters];
      repeat split; intros; try discriminate; try reflexivity; try lia; auto.
  - destruct (Z.leb_spec (len text) 280); try lia.
    destruct (Z.ltb_spec (len text) 100) as [H2|H2];
      cbn [Length.status Length.optimal Length.words Length.characters];
      repeat split; intros; try discriminate; try reflexivity; try lia; auto.
Qed.

(** A higher score never earns a lower grade. *)
Lemma grade_monotone (s1 s2 : Z) :
  s1 <= s2 -> gradeRank (getEngagementGrade s1) <= gradeRank (getEngagementGrade s2).
Proof.
  intros H. unfold getEngagementGrade. leb_only.
  destruct (Z.leb_spec 90 s1); destruct (Z.leb_spec 90 s2); try lia; cbn [gradeRank]; try lia;
  destruct (Z.leb_spec 80 s1); destruct (Z.leb_spec 80 s2); try lia; cbn [gradeRank]; try lia;
  destruct (Z.leb_spec 70 s1); destruct (Z.leb_spec 70 s2); try lia; cbn [gradeRank]; try lia;
  destruct (Z.leb_spec 60 s1); destruct (Z.leb_spec 60 s2); try lia; cbn [gradeRank]; try lia;
  destruct (Z.leb_spec 50 s1); destruct (Z.leb_spec 50 s2); try lia; cbn [gradeRank]; lia.
Qed.

Lemma documentedScore_lower (a : Analysis.t) :
  14 <= Math_round (inject_Z (Readability.score (Analysis.readability a)) * (2 # 10)) ->
  19 <= documentedScore a.
Proof.
  intros Hr. unfold documentedScore, clamp. rewrite Math_round_Z.
  set (r := Math_round _) in *.
  assert (-10 <= hashtagTerm (Hashtags.found (Analysis.hashtags a))).
  { unfold hashtagTerm. destruct (_ && _)%bool; [lia|]. destruct (_ <=? _); lia. }
  assert (-15 <= ctaTerm (CallToAction.strength (Analysis.callToAction a)))
    by (destruct (CallToAction.strength _); simpl; lia).
  assert (-10 <= lengthTerm (Length.status (Analysis.length a)))
    by (destruct (Length.status _); simpl; lia).
  assert (-5 <= sentimentTerm (Sentiment.engagement (Analysis.sentiment a)))
    by (destruct (Sentiment.engagement _); simpl; lia).
  assert (-5 <= mentionTerm (Mentions.found (Analysis.mentions a))).
  { unfold mentionTerm. destruct (_ && _)%bool; [lia|]. destruct (_ <? _); lia. }
  assert (0 <= emojiTerm (Emojis.found (Analysis.emojis a))).
  { unfold emojiTerm. destruct (_ && _)%bool; lia. }
  lia.
Qed.

Section ScoreFacts.

Variable toLowerCase : jsstring -> jsstring.

(** Property X7.  A text that is not blank scores at least 19: the clamp at 0 is never
    what decides its score.  So the score is 0 exactly for blank input. *)
Theorem score_zero_only_for_blank (text contentType : jsstring) :
  (isBlank text = false -> 19 <= score (analyzeEngagement toLowerCase text contentType) <= 100)
  /\ (score (analyzeEngagement toLowerCase text contentType) = 0 <-> isBlank text = true).
Proof.
  assert (H : isBlank text = false ->
              19 <= score (analyzeEngagement toLowerCase text contentType) <= 100).
  { intros B. rewrite (analyze_not_blank toLowerCase text contentType B). cbn [score].
    split; [|apply score_range]. rewrite score_is_documented.
    apply documentedScore_lower. cbn [features Analysis.readability].
    apply readability_term. }
  split; [exact H|]. split.
  - intros Hz. destruct (isBlank text); [reflexivity|]. specialize (H eq_refl). lia.
  - intros B. now rewrite (analyze_blank toLowerCase text contentType B).
Qed.

(** Property X8.  Of two analysed texts, the one with the higher score never has the
    lower grade. *)
Theorem higher_score_never_lower_grade (text1 text2 type1 type2 : jsstring) :
  score (analyzeEngagement toLowerCase text1 type1)
  <= score (analyzeEngagement toLowerCase text2 type2) ->
  gradeRank (grade (analyzeEngagement toLowerCase text1 type1))
  <= gradeRank (grade (analyzeEngagement toLowerCase text2 type2)).
Proof.
  assert (G : forall t ty, grade (analyzeEngagement toLowerCase t ty)
                           = getEngagementGrade (score (analyzeEngagement toLowerCase t ty))).
  { intros t ty. destruct (isBlank t) eqn:B.
    - now rewrite (analyze_blank toLowerCase t ty B).
    - now rewrite (analyze_not_blank toLowerCase t ty B). }
  rewrite !G. apply grade_monotone.
Qed.

End ScoreFacts.

(* ================================================================== *)
(** ** The suggestion list as a whole *)

Lemma subseqb_sound (l1 l2 : list jsstring) : subseqb l1 l2 = true -> Subseq l1 l2.
Proof.
  revert l1. induction l2 as [|y l2 IH]; intros l1 H.
  - destruct l1; [constructor | discriminate H].
  - destruct l1 as [|x l1]; cbn [subseqb] in H.
    + apply Subseq_skip. apply IH. destruct l2; reflexivity.
    + destruct (str_eqb x y) eqn:E.
      * apply str_eqb_eq in E. subst. apply Subseq_take. now apply IH.
      * apply Subseq_skip. now apply IH.
Qed.

Ltac split_suggestion_cases a :=
  unfold generateSuggestions, push;
  destruct (Hashtags.found (Analysis.hashtags a) =? 0) eqn:Eh0;
    [ | destruct (Hashtags.found (Analysis.hashtags a) >? 5) eqn:Eh5 ];
  (destruct (CallToAction.found (Analysis.callToAction a)) eqn:Ecf;
     [ destruct (strength_eqb (CallToAction.strength (Analysis.callToAction a)) CtaWeak)
         eqn:Ecw | ]);
  cbn [negb];
  destruct (status_eqb (Length.status (Analysis.length a)) TooLong) eqn:Etl;
    try destruct (status_eqb (Length.status (Analysis.length a)) TooShort) eqn:Ets;
  destruct (Mentions.found (Analysis.mentions a) =? 0) eqn:Em0;
  destruct (Emojis.found (Analysis.emojis a) =? 0) eqn:Ee0;
  destruct (level_eqb (Readability.level (Analysis.readability a)) Difficult) eqn:Erd;
  destruct (engagement_eqb (Sentiment.engagement (Analysis.sentiment a)) EngLow) eqn:Eel;
  cbn [app].

(** Property X9.  Whatever the analysis object, the generator gives at most one suggestion
    per category and lists the categories in its fixed order; so there are
    never more than seven suggestions. *)
Theorem suggestions_one_per_category (a : Analysis.t) (text : jsstring) :
  Subseq (map type (generateSuggestions a text)) categoryOrder
  /\ (List.length (generateSuggestions a text) <= 7)%nat.
Proof.
  split_suggestion_cases a;
    (split; [apply subseqb_sound; vm_compute; reflexivity | cbn [List.length]; lia]).
Qed.

Lemma no_suggestion_conditions (a : Analysis.t) (text : jsstring) :
  generateSuggestions a text = [] ->
  (Hashtags.found (Analysis.hashtags a) =? 0) = false
  /\ (Hashtags.found (Analysis.hashtags a) >? 5) = false
  /\ CallToAction.found (Analysis.callToAction a) = true
  /\ strength_eqb (CallToAction.strength (Analysis.callToAction a)) CtaWeak = false
  /\ Length.status (Analysis.length a) = Good
  /\ (Mentions.found (Analysis.mentions a) =? 0) = false
  /\ (Emojis.found (Analysis.emojis a) =? 0) = false
  /\ level_eqb (Readability.level (Analysis.readability a)) Difficult = false
  /\ engagement_eqb (Sentiment.engagement (Analysis.sentiment a)) EngLow = false.
Proof.
  split_suggestion_cases a; intros H; try discriminate H.
  repeat split. destruct (Length.status (Analysis.length a)); cbn in *; congruence.
Qed.

Lemma full_score_conditions (a : Analysis.t) :
  (Hashtags.found (Analysis.hashtags a) =? 0) = false ->
  (Hashtags.found (Analysis.hashtags a) >? 5) = false ->
  CallToAction.found (Analysis.callToAction a) = true ->
  strength_eqb (CallToAction.strength (Analysis.callToAction a)) CtaWeak = false ->
  Length.status (Analysis.length a) = Good ->
  engagement_eqb (Sentiment.engagement (Analysis.sentiment a)) EngLow = false ->
  documentedShape a ->
  16 <= Math_round (inject_Z (Readability.score (Analysis.readability a)) * (2 # 10)) ->
  documentedScore a = 100.
Proof.
  intros Hh0 Hh5 Hcf Hcw Hst Hel (_ & _ & Hhn & _ & Hmn & _ & Hen & Hc) Hr.
  unfold documentedScore, clamp. rewrite Math_round_Z.
  set (r := Math_round _) in *. clearbody r.
  rewrite Z.gtb_ltb in Hh5. apply Z.ltb_ge in Hh5. apply Z.eqb_neq in Hh0.
  rewrite Hst. cbn [lengthTerm].
  unfold hashtagTerm, mentionTerm, emojiTerm.
  set (hf := Hashtags.found _) in *. set (mf := Mentions.found _) in *.
  set (ef := Emojis.found _) in *. clearbody hf mf ef.
  rewrite Hcf in Hc.
  destruct (CallToAction.strength (Analysis.callToAction a));
    cbn [strength_eqb negb ctaTerm] in Hc, Hcw |- *; try discriminate;
  destruct (Sentiment.engagement (Analysis.sentiment a));
    cbn [engagement_eqb sentimentTerm] in Hel |- *; try discriminate;
  destruct (Z.leb_spec 2 hf); destruct (Z.leb_spec hf 5); destruct (Z.leb_spec 1 hf);
  destruct (Z.leb_spec 1 mf); destruct (Z.leb_spec mf 3); destruct (Z.ltb_spec 3 mf);
  destruct (Z.leb_spec 1 ef); destruct (Z.leb_spec ef 3); cbn [andb]; lia.
Qed.

Section WholeResult.

Variable toLowerCase : jsstring -> jsstring.

(** Property X10.  A text that draws no suggestion scores 100 and is graded A+. *)
Theorem no_suggestion_means_full_score (text contentType : jsstring) :
  isBlank text = false ->
  suggestions (analyzeEngagement toLowerCase text contentType) = [] ->
  score (analyzeEngagement toLowerCase text contentType) = 100
  /\ grade (analyzeEngagement toLowerCase text contentType) = GradeAplus.
Proof.
  intros B. rewrite (analyze_not_blank toLowerCase text contentType B).
  cbn [suggestions score grade]. intros H.
  assert (Hs : calculateEngagementScore (features toLowerCase text) = 100);
    [|rewrite Hs; split; reflexivity].
  apply map_eq_nil in H. apply no_suggestion_conditions in H.
  destruct H as (Hh0 & Hh5 & Hcf & Hcw & Hst & _ & _ & Hrd & Hel).
  rewrite score_is_documented.
  apply full_score_conditions; try assumption.
  - apply features_shape.
  - apply (proj2 (readability_term text)).
    intros E. change (analyzeReadability text)
      with (Analysis.readability (features toLowerCase text)) in E.
    rewrite E in Hrd. discriminate Hrd.
Qed.

End WholeResult.

(* ================================================================== *)
(** ** Analysing the optimized text again *)

Lemma whitespace_not_word (c : N) : isWhiteSpace c = true -> isWordChar c = false.
Proof.
  intros H. destruct (isWordChar c) eqn:E; [|reflexivity].
  exfalso. bool_arith H. bool_arith E. lia.
Qed.

Lemma countTagged_app (tag c : N) (x y : jsstring) :
  isWordChar c = false ->
  countTagged tag (x ++ c :: y) = countTagged tag x + countTagged tag (c :: y).
Proof.
  intros Hc. induction x as [|a x IH]; [reflexivity|].
  cbn [app countTagged]. rewrite IH.
  destruct x as [|d x]; cbn [app countTagged].
  - rewrite Hc, andb_false_r. lia.
  - lia.
Qed.

Lemma countTagged_blank (tag : N) (s : jsstring) :
  isWhiteSpace tag = false -> isBlank s = true -> countTagged tag s = 0.
Proof.
  intros Ht. unfold isBlank. induction s as [|c r IH]; intros H; [reflexivity|].
  simpl in H. apply andb_true_iff in H as [Hc Hr].
  cbn [countTagged]. rewrite (IH Hr), (@whitespace_not_tag tag c Ht Hc).
  destruct r; reflexivity.
Qed.

Lemma countTagged_app_blank (tag : N) (x suf : jsstring) :
  isWhiteSpace tag = false -> isBlank suf = true ->
  countTagged tag (x ++ suf) = countTagged tag x.
Proof.
  intros Ht Hs. destruct suf as [|c suf]; [now rewrite app_nil_r|].
  assert (Hc : isWhiteSpace c = true).
  { unfold isBlank in Hs. simpl in Hs. now apply andb_true_iff in Hs as [Hc _]. }
  rewrite (countTagged_app tag c x suf (whitespace_not_word c Hc)).
  rewrite (countTagged_blank tag (c :: suf) Ht Hs). lia.
Qed.

Lemma countTagged_dropWhile (tag : N) (s : jsstring) :
  isWhiteSpace tag = false ->
  countTagged tag (dropWhile isWhiteSpace s) = countTagged tag s.
Proof.
  intros Ht. induction s as [|c r IH]; [reflexivity|].
  cbn [dropWhile]. destruct (isWhiteSpace c) eqn:Hc; [|reflexivity].
  rewrite IH. cbn [countTagged]. rewrite (@whitespace_not_tag tag c Ht Hc).
  destruct r; reflexivity.
Qed.

Lemma trimEnd_split (s : jsstring) :
  exists suf, s = trimEnd s ++ suf /\ isBlank suf = true.
Proof.
  exists (rev (takeWhile isWhiteSpace (rev s))). split.
  - unfold trimEnd. rewrite <- rev_app_distr, <- takeWhile_dropWhile.
    now rewrite rev_involutive.
  - unfold isBlank. rewrite forallb_rev. apply takeWhile_all.
Qed.

(** Leading and trailing whitespace does not change the tagged tokens. *)
Lemma countTagged_trim (tag : N) (s : jsstring) :
  isWhiteSpace tag = false -> countTagged tag (trim s) = countTagged tag s.
Proof.
  intros Ht. unfold trim.
  destruct (trimEnd_split (trimStart s)) as (suf & E & Hs).
  rewrite <- (countTagged_dropWhile tag s Ht). fold (trimStart s).
  rewrite E at 2. now rewrite countTagged_app_blank.
Qed.

Lemma trim_not_blank (s : jsstring) : isBlank s = false -> isBlank (trim s) = false.
Proof.
  intros B. destruct (trim s) as [|c t] eqn:E.
  - apply trim_nil_iff in E. congruence.
  - rewrite <- E. unfold trim, trimEnd in *.
    pose proof (dropWhile_head isWhiteSpace (rev (trimStart s))) as H.
    destruct (dropWhile isWhiteSpace (rev (trimStart s))) as [|d l]; [discriminate E|].
    unfold isBlank. rewrite forallb_rev. simpl. now rewrite H.
Qed.

Lemma isBlank_app_left (x y : jsstring) : isBlank x = false -> isBlank (x ++ y) = false.
Proof.
  unfold isBlank. intros H. now rewrite forallb_app, H.
Qed.

Lemma optimized_tag_count (tag : N) (text : jsstring) (a : Analysis.t) :
  isWhiteSpace tag = false ->
  countTagged tag (callToActionSuffix) = 0 ->
  countTagged tag (generateOptimizedVersion text a)
  = countTagged tag text
    + (if Hashtags.found (Analysis.hashtags a) =? 0
       then countTagged tag (hashtagSuffix) else 0).
Proof.
  intros Ht Hc. rewrite optimized_is_documented.
  assert (Hsuf : forall x, countTagged tag (x ++ callToActionSuffix) = countTagged tag x).
  { intros x. change callToActionSuffix with (newline :: tl callToActionSuffix).
    rewrite countTagged_app by reflexivity.
    change (newline :: tl callToActionSuffix) with callToActionSuffix. lia. }
  destruct (Hashtags.found (Analysis.hashtags a) =? 0);
    destruct (CallToAction.found (Analysis.callToAction a));
    rewrite ?app_nil_r; cbn [app].
  - change hashtagSuffix with (newline :: tl hashtagSuffix).
    rewrite countTagged_app by reflexivity. now rewrite countTagged_trim.
  - rewrite app_assoc, Hsuf.
    change hashtagSuffix with (newline :: tl hashtagSuffix).
    rewrite countTagged_app by reflexivity. now rewrite countTagged_trim.
  - rewrite countTagged_trim by assumption. lia.
  - rewrite Hsuf, countTagged_trim by assumption. lia.
Qed.

Lemma addHashtags_needs_none (a : Analysis.t) (text : jsstring) :
  In addHashtags (generateSuggestions a text) ->
  Hashtags.found (Analysis.hashtags a) = 0.
Proof.
  destruct (Z.eqb_spec (Hashtags.found (Analysis.hashtags a)) 0) as [E|E]; [auto|].
  intros H. exfalso. revert H.
  unfold generateSuggestions, push. apply Z.eqb_neq in E. rewrite E.
  repeat match goal with
  | |- context [ if ?b then _ else _ ] => destruct b
  end; cbn [app In]; intros H;
  repeat match type of H with
  | _ \/ _ => destruct H as [H | H]
  | False => destruct H
  | _ = addHashtags => apply (f_equal title) in H; vm_compute in H; discriminate H
  end.
Qed.

Section Reanalysis.

Variable toLowerCase : jsstring -> jsstring.

(** Property X11.  The optimized text of a non-blank input is not blank and starts with the
    trimmed input.  Analysed again it has the input's mentions, and the
    input's hashtags or, when the input had none, exactly the three appended
    ones; so it never draws the suggestion to add hashtags. *)
Theorem optimized_text_has_hashtags (text contentType : jsstring) :
  isBlank text = false ->
  isBlank (generateOptimizedVersion text (features toLowerCase text)) = false
  /\ startsWith (trim text) (generateOptimizedVersion text (features toLowerCase text)) = true
  /\ Hashtags.found (analyzeHashtags (generateOptimizedVersion text (features toLowerCase text)))
     = (if Hashtags.found (analyzeHashtags text) =? 0 then 3
        else Hashtags.found (analyzeHashtags text))
  /\ Mentions.found (analyzeMentions (generateOptimizedVersion text (features toLowerCase text)))
     = Mentions.found (analyzeMentions text)
  /\ ~ In (Advice addHashtags)
          (suggestions (analyzeEngagement toLowerCase
                          (generateOptimizedVersion text (features toLowerCase text))
                          contentType)).
Proof.
  intros B.
  set (o := generateOptimizedVersion text (features toLowerCase text)).
  assert (Ho : isBlank o = false).
  { unfold o. rewrite optimized_is_documented.
    apply isBlank_app_left. now apply trim_not_blank. }
  assert (Hh : Hashtags.found (analyzeHashtags o)
               = if Hashtags.found (analyzeHashtags text) =? 0 then 3
                 else Hashtags.found (analyzeHashtags text)).
  { unfold analyzeHashtags at 1. cbn [Hashtags.found].
    rewrite (matchAll_tag_count 35 eq_refl). unfold o.
    rewrite (optimized_tag_count 35 text (features toLowerCase text) eq_refl eq_refl).
    cbn [features Analysis.hashtags].
    replace (countTagged 35 text) with (Hashtags.found (analyzeHashtags text))
      by (unfold analyzeHashtags; cbn [Hashtags.found]; apply (matchAll_tag_count 35 eq_refl)).
    destruct (Z.eqb_spec (Hashtags.found (analyzeHashtags text)) 0) as [E|E].
    - rewrite E. reflexivity.
    - lia. }
  split; [exact Ho|]. split.
  { unfold o. rewrite optimized_is_documented. apply startsWith_spec. eauto. }
  split; [exact Hh|]. split.
  - unfold analyzeMentions. cbn [Mentions.found].
    rewrite !(matchAll_tag_count 64 eq_refl). unfold o.
    rewrite (optimized_tag_count 64 text (features toLowerCase text) eq_refl eq_refl).
    change (countTagged 64 hashtagSuffix) with 0.
    destruct (_ =? 0); lia.
  - rewrite (analyze_not_blank toLowerCase o contentType Ho). cbn [suggestions].
    intros Hin. apply in_map_iff in Hin as (s & Hs & Hin).
    injection Hs as ->. apply addHashtags_needs_none in Hin.
    cbn [features Analysis.hashtags] in Hin. rewrite Hh in Hin.
    destruct (Z.eqb_spec (Hashtags.found (analyzeHashtags text)) 0); lia.
Qed.

End Reanalysis.

(* ================================================================== *)
(** ** The backtracking matcher on the patterns of the service *)

Lemma repeatGreedy_class (p : N -> bool) (fuel : nat) :
  forall s : jsstring,
    (List.length s <= fuel)%nat ->
    repeatGreedy (rmatch (Chr p)) fuel s (fun rest => Some rest) = Some (dropWhile p s).
Proof.
  induction fuel as [|f IH]; intros s Hs.
  - destruct s; [reflexivity | simpl in Hs; lia].
  - cbn [repeatGreedy rmatch]. destruct s as [|c r]; [reflexivity|].
    cbn [dropWhile]. destruct (p c); [|reflexivity].
    assert (H : (List.length r <? List.length (c :: r))%nat = true)
      by (apply Nat.ltb_lt; simpl; lia).
    rewrite H, IH by (simpl in Hs; lia). reflexivity.
Qed.

Lemma length_dropWhile (p : N -> bool) (s : jsstring) :
  (List.length s - List.length (dropWhile p s))%nat = List.length (takeWhile p s).
Proof.
  rewrite (takeWhile_dropWhile p s) at 1. rewrite length_app. lia.
Qed.

Lemma rmatch_plus_class (p : N -> bool) (s : jsstring) :
  rmatch (Plus (Chr p)) s (fun rest => Some rest)
  = match s with
    | c :: r => if p c then Some (dropWhile p r) else None
    | [] => None
    end.
Proof.
  change (rmatch (Plus (Chr p)) s (fun rest => Some rest))
    with (rmatch (Chr p) s
            (fun s' => repeatGreedy (rmatch (Chr p)) (List.length s') s'
                         (fun rest => Some rest))).
  destruct s as [|c r]; [reflexivity|]. cbn [rmatch].
  destruct (p c); [|reflexivity]. now apply repeatGreedy_class.
Qed.

(** [cls+] through the backtracking matcher is the longest run of [cls]. *)
Lemma m_regex_plus (p : N -> bool) (s : jsstring) :
  m_regex (Plus (Chr p)) s = m_plus p s.
Proof.
  unfold m_regex, m_plus. rewrite rmatch_plus_class.
  destruct s as [|c r]; [reflexivity|].
  cbn [takeWhile]. destruct (p c); [|reflexivity].
  cbn [List.length]. rewrite <- (length_dropWhile p r).
  assert (List.length (dropWhile p r) <= List.length r)%nat.
  { rewrite (takeWhile_dropWhile p r) at 2. rewrite length_app. lia. }
  replace (S (List.length r) - List.length (dropWhile p r))%nat
    with (S (List.length r - List.length (dropWhile p r))) by lia.
  reflexivity.
Qed.

(** [tag cls+] through the backtracking matcher is [m_tag]. *)
Lemma m_regex_tag (tag : N) (p : N -> bool) (s : jsstring) :
  m_regex (Cat (Chr (fun c => N.eqb c tag)) (Plus (Chr p))) s = m_tag tag p s.
Proof.
  unfold m_regex, m_tag.
  change (rmatch (Cat (Chr (fun c => N.eqb c tag)) (Plus (Chr p))) s (fun rest => Some rest))
    with (rmatch (Chr (fun c => N.eqb c tag)) s
            (fun s' => rmatch (Plus (Chr p)) s' (fun rest => Some rest))).
  destruct s as [|c r]; [reflexivity|].
  change (rmatch (Chr (fun c => N.eqb c tag)) (c :: r)
            (fun s' => rmatch (Plus (Chr p)) s' (fun rest => Some rest)))
    with (if N.eqb c tag then rmatch (Plus (Chr p)) r (fun rest => Some rest) else None).
  destruct (N.eqb c tag); [|reflexivity].
  rewrite rmatch_plus_class.
  destruct r as [|d r']; [reflexivity|].
  cbn [takeWhile]. destruct (p d); [|reflexivity].
  cbn [List.length]. rewrite <- (length_dropWhile p r').
  assert (List.length (dropWhile p r') <= List.length r')%nat.
  { rewrite (takeWhile_dropWhile p r') at 2. rewrite length_app. lia. }
  f_equal. lia.
Qed.

Lemma m_regex_class (p : N -> bool) (c : N) (r : jsstring) :
  m_regex (Chr p) (c :: r) = if p c then Some 1%nat else None.
Proof.
  unfold m_regex. cbn [rmatch]. destruct (p c); [|reflexivity].
  f_equal. cbn [List.length]. lia.
Qed.

Lemma split_from_ext (m1 m2 : matcher) (s : jsstring) :
  (forall t, m1 t = m2 t) ->
  forall skip piece, split_from m1 skip piece s = split_from m2 skip piece s.
Proof.
  intros E. induction s as [|c r IH]; intros skip piece; cbn [split_from]; [reflexivity|].
  destruct skip; [|apply IH]. rewrite E.
  destruct (m2 (c :: r)) as [[|n]|]; rewrite ?IH; reflexivity.
Qed.

Lemma split_ext (m1 m2 : matcher) (s : jsstring) :
  (forall t, m1 t = m2 t) -> split m1 s = split m2 s.
Proof.
  intros E. unfold split. destruct s; [reflexivity | now apply split_from_ext].
Qed.

Lemma replaceAll_from_ext (m1 m2 : matcher) (f : jsstring -> jsstring) (s : jsstring) :
  (forall t, m1 t = m2 t) ->
  forall skip, replaceAll_from m1 f skip s = replaceAll_from m2 f skip s.
Proof.
  intros E. induction s as [|c r IH]; intros skip; cbn [replaceAll_from]; [reflexivity|].
  destruct skip; [|apply IH]. rewrite E.
  destruct (m2 (c :: r)) as [[|n]|]; rewrite ?IH; reflexivity.
Qed.

(** Deleting the characters of a class is filtering them out. *)
Lemma replaceAll_delete_class (p : N -> bool) (s : jsstring) :
  replaceAll (m_regex (Chr p)) (fun _ => []) s = filter (fun c => negb (p c)) s.
Proof.
  unfold replaceAll. induction s as [|c r IH]; [reflexivity|].
  cbn [replaceAll_from filter]. rewrite m_regex_class.
  destruct (p c); cbn [negb app]; now rewrite IH.
Qed.

(** After [replace(/cls+/g, x)] every character is [x] or outside [cls]. *)
Lemma replaceAll_collapse_class (p : N -> bool) (x : N) (s : jsstring) :
  forall skip,
    Forall (fun c => c = x \/ p c = false)
           (replaceAll_from (m_plus p) (fun _ => [x]) skip s).
Proof.
  induction s as [|c r IH]; intros skip; cbn [replaceAll_from]; [constructor|].
  destruct skip; [|apply IH].
  unfold m_plus at 1. cbn [takeWhile]. destruct (p c) eqn:E; cbn [List.length].
  - cbn [app]. constructor; [now left | apply IH].
  - constructor; [now right | apply IH].
Qed.

Lemma Forall_dropWhile (P : N -> Prop) (p : N -> bool) (s : jsstring) :
  Forall P s -> Forall P (dropWhile p s).
Proof.
  induction 1 as [|c r Hc Hr IH]; simpl; [constructor|].
  destruct (p c); [assumption | now constructor].
Qed.

Lemma Forall_trim (P : N -> Prop) (s : jsstring) : Forall P s -> Forall P (trim s).
Proof.
  intros H. unfold trim, trimEnd, trimStart.
  apply Forall_rev, Forall_dropWhile, Forall_rev, Forall_dropWhile, H.
Qed.

Lemma dropWhile_trivial (p : N -> bool) (s : jsstring) :
  match s with
  | [] => True
  | c :: _ => p c = false
  end -> dropWhile p s = s.
Proof.
  destruct s as [|c r]; [reflexivity|]. simpl. now intros ->.
Qed.

(** Trimming twice is trimming once. *)
Lemma trim_idempotent (s : jsstring) : trim (trim s) = trim s.
Proof.
  unfold trim, trimEnd, trimStart.
  set (a := dropWhile isWhiteSpace s).
  set (b := dropWhile isWhiteSpace (rev a)).
  assert (Hb : dropWhile isWhiteSpace b = b).
  { apply dropWhile_trivial. apply dropWhile_head. }
  destruct b as [|c b'] eqn:Eb; [reflexivity|].
  assert (Ha : dropWhile isWhiteSpace (rev (c :: b')) = rev (c :: b')).
  { apply dropWhile_trivial.
    destruct (rev (c :: b')) as [|d l] eqn:Er; [exact I|].
    (* the first character of [rev b] is the first of [a] up to trailing blanks *)
    assert (Hin : exists l', a = d :: l').
    { pose proof (takeWhile_dropWhile isWhiteSpace (rev a)) as H.
      fold b in H. rewrite Eb in H.
      apply (f_equal (@rev N)) in H. rewrite rev_involutive, rev_app_distr, Er in H.
      cbn [app] in H. eauto. }
    destruct Hin as [l' Hl'].
    pose proof (dropWhile_head isWhiteSpace s) as Hh. fold a in Hh.
    now rewrite Hl' in Hh. }
  rewrite Ha, rev_involutive, Hb. reflexivity.
Qed.

Lemma matchAll_from_none (p : N -> bool) (unicode : bool) (m : matcher) (s : jsstring) :
  (forall c r, p c = true -> m (c :: r) = None) ->
  forallb p s = true ->
  forall skip, matchAll_from unicode m skip s = [].
Proof.
  intros Hm. induction s as [|c r IH]; intros Hs skip; [reflexivity|].
  simpl in Hs. apply andb_true_iff in Hs as [Hc Hr].
  cbn [matchAll_from]. destruct skip; [|now apply IH].
  rewrite (Hm c r Hc). now apply IH.
Qed.

Lemma split_from_no_separator (p : N -> bool) (m : matcher) (s : jsstring) :
  (forall c r, p c = true -> m (c :: r) = None) ->
  forallb p s = true ->
  forall piece, split_from m 0 piece s = [rev piece ++ s].
Proof.
  intros Hm. induction s as [|c r IH]; intros Hs piece; cbn [split_from].
  - now rewrite app_nil_r.
  - simpl in Hs. apply andb_true_iff in Hs as [Hc Hr].
    rewrite (Hm c r Hc), (IH Hr). cbn [rev]. now rewrite <- app_assoc.
Qed.

(* ================================================================== *)
(** ** The text the services hand to the analysis *)

Lemma trimmed_not_blank (s : jsstring) : trim s <> [] -> isBlank (trim s) = false.
Proof.
  intros H. apply trim_not_blank. destruct (isBlank s) eqn:B; [|reflexivity].
  apply trim_nil_iff in B. contradiction.
Qed.

Lemma printable_range (c : N) :
  isNonPrintable c = false -> c = 32%N \/ isWhiteSpace c = false ->
  inRange 32 126 c = true.
Proof.
  unfold isNonPrintable. rewrite negb_false_iff. intros Hp Hw.
  destruct (inRange 32 126 c) eqn:E; [reflexivity|]. exfalso.
  destruct Hw as [-> | Hw]; [discriminate E|].
  cbn [orb] in Hp.
  assert (c = 10 \/ c = 13 \/ c = 9)%N as Hc.
  { rewrite !orb_true_iff, !N.eqb_eq in Hp. tauto. }
  destruct Hc as [-> | [-> | ->]]; discriminate Hw.
Qed.

Lemma ocr_text_printable (dataText : option jsstring) :
  Forall (fun c => inRange 32 126 c = true) (OcrService.processText dataText).
Proof.
  unfold OcrService.processText. apply Forall_trim.
  rewrite replaceAll_delete_class.
  match goal with
  | |- Forall _ (filter _ (replaceAll ?m ?f ?x)) =>
      pose proof (replaceAll_collapse_class isWhiteSpace 32 x 0) as H;
      replace (replaceAll m f x)
        with (replaceAll_from (m_plus isWhiteSpace) (fun _ => [32%N]) 0 x)
        by (symmetry; apply replaceAll_from_ext; intros t; apply m_regex_plus)
  end.
  rewrite Forall_forall in *. intros c Hc. apply filter_In in Hc as [Hin Hp].
  apply printable_range; [now apply negb_true_iff | now apply H].
Qed.

Lemma printable_no_emoji (c : N) (r : jsstring) :
  inRange 32 126 c = true -> m_class_u isEmoji (c :: r) = None.
Proof.
  intros H. unfold m_class_u, codePointAt.
  assert (Hs : isHighSurrogate c = false).
  { destruct (isHighSurrogate c) eqn:E; [|reflexivity]. exfalso.
    unfold inRange in H. bool_arith H. bool_arith E. lia. }
  assert (He : isEmoji c = false).
  { destruct (isEmoji c) eqn:E; [|reflexivity]. exfalso.
    unfold inRange in H. bool_arith H. bool_arith E. lia. }
  rewrite Hs. cbn [andb]. destruct r; now rewrite He.
Qed.

Lemma printable_not_newline (c : N) (r : jsstring) :
  inRange 32 126 c = true -> m_literal [newline] (c :: r) = None.
Proof.
  intros H. unfold m_literal, startsWith, newline.
  destruct (N.eqb_spec 10 c) as [<-|]; [discriminate H | reflexivity].
Qed.

Lemma Forall_forallb (p : N -> bool) (s : jsstring) :
  Forall (fun c => p c = true) s -> forallb p s = true.
Proof.
  induction 1 as [|c r Hc Hr IH]; [reflexivity|]. simpl. now rewrite Hc, IH.
Qed.

Lemma addEmojis_when_none (a : Analysis.t) (text : jsstring) :
  (strength_eqb (CallToAction.strength (Analysis.callToAction a)) CtaWeak = true ->
   CallToAction.found (Analysis.callToAction a) = true) ->
  Emojis.found (Analysis.emojis a) = 0 ->
  In addEmojis (generateSuggestions a text).
Proof.
  intros Hc He. rewrite (suggestions_are_documented a text Hc).
  unfold documentedSuggestions. apply in_flat_map.
  exists {| trigger := fun a => Emojis.found (Analysis.emojis a) =? 0;
            documentedPriority := Low; advice := addEmojis |}.
  split; [unfold rules; simpl; tauto|].
  cbn [trigger advice]. rewrite He. now left.
Qed.

Lemma features_cta_consistent (toLowerCase : jsstring -> jsstring) (text : jsstring) :
  strength_eqb (CallToAction.strength (Analysis.callToAction (features toLowerCase text)))
    CtaWeak = true ->
  CallToAction.found (Analysis.callToAction (features toLowerCase text)) = true.
Proof.
  destruct (features_shape toLowerCase text) as (_ & _ & _ & _ & _ & _ & _ & H).
  rewrite H. destruct (CallToAction.strength _); cbn; congruence.
Qed.

Lemma split_from_words_le_nonspace (s : jsstring) :
  forall skip piece,
    forallb isWhiteSpace (firstn skip s) = true ->
    count (filter nonEmpty (split_from whitespaceRun skip piece s))
    <= len piece + len (filter (fun c => negb (isWhiteSpace c)) s).
Proof.
  induction s as [|c r IH]; intros skip piece Hskip; cbn [split_from].
  - cbn [filter]. unfold nonEmpty at 1. unfold len at 1. rewrite length_rev.
    destruct piece; cbn; unfold len; cbn [List.length]; lia.
  - destruct skip as [|k].
    + assert (Hm : whitespaceRun (c :: r)
                   = if isWhiteSpace c
                     then Some (S (List.length (takeWhile isWhiteSpace r))) else None).
      { unfold whitespaceRun, m_plus. cbn [takeWhile].
        destruct (isWhiteSpace c); reflexivity. }
      rewrite Hm. cbn [filter].
      destruct (isWhiteSpace c) eqn:Hc; cbn [negb].
      * cbn [filter]. specialize (IH (List.length (takeWhile isWhiteSpace r)) []).
        rewrite firstn_takeWhile, takeWhile_all in IH. specialize (IH eq_refl).
        change (len []) with 0 in IH.
        assert (0 <= len piece) by (unfold len; lia).
        destruct (nonEmpty (rev piece)) eqn:E; [rewrite count_cons|lia].
        assert (1 <= len piece); [|lia].
        unfold nonEmpty, len in E. rewrite length_rev in E.
        rewrite Z.gtb_ltb in E. apply Z.ltb_lt in E. unfold len. lia.
      * specialize (IH 0%nat (c :: piece) eq_refl).
        unfold len in *. cbn [List.length] in *. lia.
    + simpl in Hskip. apply andb_true_iff in Hskip as [Hc Hk].
      cbn [filter]. rewrite Hc. cbn [negb]. now apply IH.
Qed.

(** Property X12.  The [stats] of a text agree with the analysis of the same text: the same
    character and word counts as its length record.  Characters without
    whitespace are at most the characters and at least the words; there is
    always at least one line. *)
Theorem stats_agree_with_analysis (text : jsstring) :
  Stats.characters (calculateStatistics text) = Length.characters (analyzeLength text)
  /\ Stats.words (calculateStatistics text) = Length.words (analyzeLength text)
  /\ Stats.words (calculateStatistics text)
     <= Stats.charactersNoSpaces (calculateStatistics text)
     <= Stats.characters (calculateStatistics text)
  /\ 1 <= Stats.lines (calculateStatistics text)
  /\ 0 <= Stats.paragraphs (calculateStatistics text).
Proof.
  assert (Hw : Stats.words (calculateStatistics text) = wordCount text).
  { unfold calculateStatistics, wordCount. cbn [Stats.words].
    rewrite (split_ext (m_regex (Plus (Chr isWhiteSpace))) whitespaceRun);
      [reflexivity | intros t; apply m_regex_plus]. }
  assert (Hl : Length.words (analyzeLength text) = wordCount text).
  { unfold analyzeLength. destruct (_ >? 280); [reflexivity|].
    destruct (_ <=? 280); reflexivity. }
  assert (Hc : Length.characters (analyzeLength text) = len text)
    by apply length_platform.
  rewrite Hw, Hl, Hc.
  unfold calculateStatistics.
  cbn [Stats.characters Stats.charactersNoSpaces Stats.lines Stats.paragraphs].
  rewrite replaceAll_delete_class.
  split; [reflexivity|]. split; [reflexivity|]. split; [split|split].
  - unfold wordCount, split. destruct text as [|c r]; [vm_compute; discriminate|].
    pose proof (split_from_words_le_nonspace (c :: r) 0 [] eq_refl) as H.
    change (len []) with 0 in H. lia.
  - unfold len. pose proof (filter_length_le (fun c => negb (isWhiteSpace c)) text). lia.
  - apply split_nonempty.
  - apply count_nonneg.
Qed.

Lemma printable_no_break (c : N) (r : jsstring) :
  inRange 32 126 c = true -> m_regex paragraphBreak (c :: r) = None.
Proof.
  intros H. unfold m_regex, paragraphBreak.
  change (rmatch (Cat (Chr isNewline) (Cat (Star (Chr isWhiteSpace)) (Chr isNewline)))
            (c :: r) (fun rest => Some rest))
    with (if isNewline c
          then rmatch (Cat (Star (Chr isWhiteSpace)) (Chr isNewline)) r
                 (fun rest => Some rest)
          else None).
  unfold isNewline. destruct (N.eqb_spec c 10) as [->|]; [discriminate H | reflexivity].
Qed.

(** Property X13.  The text taken from an image is flat printable ASCII: every character
    lies in U+0020..U+007E and the text is trimmed.  So it is a single line
    and at most one paragraph, and no emoji is ever found in it. *)
Theorem ocr_text_is_flat_ascii (dataText : option jsstring) :
  Forall (fun c => inRange 32 126 c = true) (OcrService.processText dataText)
  /\ trim (OcrService.processText dataText) = OcrService.processText dataText
  /\ Stats.lines (calculateStatistics (OcrService.processText dataText)) = 1
  /\ Stats.paragraphs (calculateStatistics (OcrService.processText dataText)) <= 1
  /\ Emojis.found (analyzeEmojis (OcrService.processText dataText)) = 0.
Proof.
  pose proof (ocr_text_printable dataText) as Hp.
  assert (Hb := Forall_forallb _ _ Hp).
  split; [exact Hp|]. split.
  { unfold OcrService.processText. apply trim_idempotent. }
  set (t := OcrService.processText dataText) in *.
  unfold calculateStatistics, analyzeEmojis.
  cbn [Stats.lines Stats.paragraphs Emojis.found].
  split; [|split].
  - unfold split. destruct t as [|c r] eqn:E; [reflexivity|].
    now rewrite (split_from_no_separator _ _ (c :: r) printable_not_newline Hb).
  - unfold split. destruct t as [|c r] eqn:E; [vm_compute; discriminate|].
    rewrite (split_from_no_separator _ _ (c :: r) printable_no_break Hb).
    cbn [filter]. destruct (_ >? 0); vm_compute; discriminate.
  - unfold matchAll. now rewrite (matchAll_from_none _ _ _ t printable_no_emoji Hb).
Qed.









Lemma ocr_text_is_flat_ascii_facts (dataText : option jsstring) :
  Stats.lines (calculateStatistics (OcrService.processText dataText)) = 1
  /\ Emojis.found (analyzeEmojis (OcrService.processText dataText)) = 0.
Proof.
  pose proof (ocr_text_printable dataText) as Hp.
  assert (Hb := Forall_forallb _ _ Hp).
  set (t := OcrService.processText dataText) in *.
  unfold calculateStatistics, analyzeEmojis. cbn [Stats.lines Emojis.found]. split.
  - unfold split. destruct t as [|c r] eqn:E; [reflexivity|].
    now rewrite (split_from_no_separator _ _ (c :: r) printable_not_newline Hb).
  - unfold matchAll. now rewrite (matchAll_from_none _ _ _ t printable_no_emoji Hb).
Qed.

Section ServerFacts.

Variable toLowerCase : jsstring -> jsstring.

Lemma pdf_text_trimmed (dataText : jsstring) :
  trim (PdfService.processText dataText) = PdfService.processText dataText.
Proof. unfold PdfService.processText. apply trim_idempotent. Qed.

Lemma extraction_text_trimmed (parsed : jsstring + PdfService.PdfData)
  (recognized : jsstring + OcrService.OcrData) (now : jsstring) :
  (forall r, PdfService.extractTextFromPDF parsed now = inr r ->
             PdfService.success r = true /\ trim (PdfService.text r) = PdfService.text r)
  /\ (forall r, OcrService.extractTextFromImage recognized now = inr r ->
                OcrService.success r = true
                /\ trim (OcrService.text r) = OcrService.text r
                /\ exists d, OcrService.text r = OcrService.processText d).
Proof.
  split; intros r H.
  - unfold PdfService.extractTextFromPDF in H. destruct parsed as [msg|data].
    + repeat match type of H with
      | (if ?b then _ else _) = _ => destruct b
      end; discriminate H.
    + injection H as <-. cbn. split; [reflexivity | apply pdf_text_trimmed].
  - unfold OcrService.extractTextFromImage in H. destruct recognized as [msg|data].
    + repeat match type of H with
      | (if ?b then _ else _) = _ => destruct b
      end; discriminate H.
    + injection H as <-. cbn [OcrService.success OcrService.text].
      split; [reflexivity|]. split.
      * unfold OcrService.processText. apply trim_idempotent.
      * eauto.
Qed.

Lemma score_bounded_range (text contentType : jsstring) :
  score (analyzeEngagement toLowerCase text contentType) <= 100.
Proof.
  destruct (isBlank text) eqn:B.
  - rewrite (analyze_blank toLowerCase text contentType B). cbn. lia.
  - rewrite (analyze_not_blank toLowerCase text contentType B). apply score_range.
Qed.

Lemma analyze_trimmed_text (text contentType : jsstring) :
  trim text = text -> falsy text = false ->
  analysis (analyzeEngagement toLowerCase text contentType)
  = Extracted (features toLowerCase text)
  /\ optimizedContent (analyzeEngagement toLowerCase text contentType)
     = Some (generateOptimizedVersion text (features toLowerCase text))
  /\ suggestions (analyzeEngagement toLowerCase text contentType)
     = map Advice (generateSuggestions (features toLowerCase text) text)
  /\ 19 <= score (analyzeEngagement toLowerCase text contentType).
Proof.
  intros Ht Hf.
  assert (B : isBlank text = false).
  { rewrite <- Ht. apply trimmed_not_blank. rewrite Ht. destruct text; [discriminate Hf|].
    discriminate. }
  rewrite (analyze_not_blank toLowerCase text contentType B).
  cbn [analysis optimizedContent suggestions score].
  repeat split. rewrite score_is_documented.
  apply documentedScore_lower. cbn [features Analysis.readability].
  apply readability_term.
Qed.

(** When the stored file is removed without an error, the handler answers
    as [Server.extractRoute] does. *)
Lemma handler_with_removal (upload : Server.UploadOutcome)
  (parsed : jsstring + PdfService.PdfData) (recognized : jsstring + OcrService.OcrData)
  (extractedAt processedAt : jsstring) (stillThere : bool) :
  extractHandler toLowerCase upload parsed recognized extractedAt processedAt
    None stillThere None
  = Some (Server.extractRoute toLowerCase upload parsed recognized extractedAt processedAt).
Proof.
  unfold extractHandler, Server.extractRoute.
  destruct upload as [code message|message| |file]; try reflexivity.
  - now destruct (str_eqb code (lit "LIMIT_FILE_SIZE")).
  - destruct (str_eqb (Server.mimetype file) (lit "application/pdf")).
    + destruct (PdfService.extractTextFromPDF parsed extractedAt);
        cbv beta iota zeta; now destruct stillThere.
    + destruct (startsWith (lit "image/") (Server.mimetype file)).
      * destruct (OcrService.extractTextFromImage recognized extractedAt);
          cbv beta iota zeta; now destruct stillThere.
      * reflexivity.
Qed.

Lemma accepted_mimetype (file : Server.UploadedFile) :
  Server.fileFilter (Server.mimetype file) = inr true ->
  (str_eqb (Server.mimetype file) (lit "application/pdf") = true
   /\ Server.mimetype file = lit "application/pdf"
   /\ startsWith (lit "image/") (Server.mimetype file) = false)
  \/ (str_eqb (Server.mimetype file) (lit "application/pdf") = false
      /\ Server.mimetype file <> lit "application/pdf"
      /\ startsWith (lit "image/") (Server.mimetype file) = true).
Proof.
  unfold Server.fileFilter. intros H.
  destruct (existsb (str_eqb (Server.mimetype file)) Server.allowedMimes) eqn:E;
    [clear H | discriminate H].
  apply existsb_str_eqb in E. unfold Server.allowedMimes in E. cbn [map In] in E.
  destruct E as [E | [E | [E | [E | []]]]]; rewrite <- E;
    [left | right | right | right]; (split; [reflexivity|]); (split; [|reflexivity]);
    [reflexivity | discriminate | discriminate | discriminate].
Qed.

Lemma handler_not_rejected (file : Server.UploadedFile)
  (parsed : jsstring + PdfService.PdfData) (recognized : jsstring + OcrService.OcrData)
  (extractedAt processedAt : jsstring)
  (removed : option jsstring) (stillThere : bool) (removedAgain : option jsstring)
  (status : Z) (error message : jsstring) :
  extractHandler toLowerCase (Server.Uploaded file) parsed recognized extractedAt
    processedAt removed stillThere removedAgain
  = Some (Server.Rejected status error message) -> False.
Proof.
  unfold extractHandler.
  destruct (str_eqb (Server.mimetype file) (lit "application/pdf"));
    [destruct (PdfService.extractTextFromPDF parsed extractedAt)
    |destruct (startsWith (lit "image/") (Server.mimetype file));
     [destruct (OcrService.extractTextFromImage recognized extractedAt)|]];
    cbv beta iota zeta; destruct removed, stillThere, removedAgain; discriminate.
Qed.

(** Property X16.  When multer hands the route a stored file whose MIME type
    the upload filter accepts, the file goes to one of the two services: to
    the PDF service exactly when its type is application/pdf, to the OCR
    service otherwise.  The answer is then never a 400 and never an empty
    extraction: it is the result of that service when the stored file could
    be removed, and otherwise a 500 that carries the message of the failed
    service or of the failed removal, with the type of the service that was
    tried; no answer is sent only when the removal in the error path throws.
    The route answers 400 exactly when multer hands it no stored file: an
    error of multer (a file over the 10MB limit is answered 'File too
    large'), an error of the filter, or no file at all. *)
Theorem accepted_upload_is_routed (upload : Server.UploadOutcome)
  (parsed : jsstring + PdfService.PdfData) (recognized : jsstring + OcrService.OcrData)
  (extractedAt processedAt : jsstring)
  (removed : option jsstring) (stillThere : bool) (removedAgain : option jsstring) :
  (forall file : Server.UploadedFile,
     upload = Server.Uploaded file ->
     Server.fileFilter (Server.mimetype file) = inr true ->
     match extractHandler toLowerCase upload parsed recognized extractedAt processedAt
             removed stillThere removedAgain with
     | None => stillThere = true /\ removedAgain <> None
     | Some (Server.Rejected _ _ _) => False
     | Some (Server.Processed body) =>
         removed = None
         /\ ((Server.mimetype file = lit "application/pdf"
              /\ Server.type body = Some (lit "pdf")
              /\ exists r, Server.extraction body = Server.FromPdf r
                           /\ PdfService.extractTextFromPDF parsed extractedAt = inr r)
             \/ (Server.mimetype file <> lit "application/pdf"
                 /\ Server.type body = Some (lit "image")
                 /\ exists r, Server.extraction body = Server.FromImage r
                              /\ OcrService.extractTextFromImage recognized extractedAt
                                 = inr r))
     | Some (Server.Failed status _ message failedType) =>
         status = 500
         /\ failedType = (if str_eqb (Server.mimetype file) (lit "application/pdf")
                          then lit "pdf" else lit "image")
         /\ ((if str_eqb (Server.mimetype file) (lit "application/pdf")
              then PdfService.extractTextFromPDF parsed extractedAt = inl message
              else OcrService.extractTextFromImage recognized extractedAt = inl message)
             \/ removed = Some message)
     end)
  /\ ((exists error message,
         extractHandler toLowerCase upload parsed recognized extractedAt processedAt
           removed stillThere removedAgain
         = Some (Server.Rejected 400 error message))
      <-> forall file, upload <> Server.Uploaded file)
  /\ (forall status error message,
        extractHandler toLowerCase upload parsed recognized extractedAt processedAt
          removed stillThere removedAgain
        = Some (Server.Rejected status error message) -> status = 400)
  /\ (forall message,
        upload = Server.MulterError (lit "LIMIT_FILE_SIZE") message ->
        extractHandler toLowerCase upload parsed recognized extractedAt processedAt
          removed stillThere removedAgain
        = Some (Server.Rejected 400 (lit "File too large")
                  (lit "File size exceeds 10MB limit"))).
Proof.
  split; [|split; [|split]].
  - intros file -> H. unfold extractHandler.
    destruct (accepted_mimetype file H) as [(E1 & E2 & E3) | (E1 & E2 & E3)];
      rewrite E1, ?E3; cbv iota.
    + destruct (PdfService.extractTextFromPDF parsed extractedAt) as [msg|r] eqn:Hr;
        cbv beta iota zeta.
      * destruct stillThere; [destruct removedAgain|]; cbv iota;
          try (split; [reflexivity | discriminate]);
          (split; [reflexivity|]); (split; [reflexivity|]); now left.
      * destruct removed as [m|]; cbv beta iota zeta.
        -- destruct stillThere; [destruct removedAgain|]; cbv iota;
             try (split; [reflexivity | discriminate]);
             (split; [reflexivity|]); (split; [reflexivity|]); now right.
        -- split; [reflexivity|]. left. cbn [Server.type Server.extraction].
           split; [exact E2|]. split; [reflexivity|]. now exists r.
    + destruct (OcrService.extractTextFromImage recognized extractedAt) as [msg|r] eqn:Hr;
        cbv beta iota zeta.
      * destruct stillThere; [destruct removedAgain|]; cbv iota;
          try (split; [reflexivity | discriminate]);
          (split; [reflexivity|]); (split; [reflexivity|]); now left.
      * destruct removed as [m|]; cbv beta iota zeta.
        -- destruct stillThere; [destruct removedAgain|]; cbv iota;
             try (split; [reflexivity | discriminate]);
             (split; [reflexivity|]); (split; [reflexivity|]); now right.
        -- split; [reflexivity|]. right. cbn [Server.type Server.extraction].
           split; [exact E2|]. split; [reflexivity|]. now exists r.
  - split.
    + intros (error & message & H) file ->. revert H. apply handler_not_rejected.
    + intros H. destruct upload as [code message|message| |file];
        [| | |now destruct (H file)]; unfold extractHandler.
      * destruct (str_eqb code (lit "LIMIT_FILE_SIZE")); eauto.
      * eauto.
      * eauto.
  - intros status error message H.
    destruct upload as [code m|m| |file]; unfold extractHandler in H.
    + destruct (str_eqb code (lit "LIMIT_FILE_SIZE")); now injection H.
    + now injection H.
    + now injection H.
    + exfalso. revert H. apply handler_not_rejected.
  - intros message ->. reflexivity.
Qed.


Lemma route_processed (upload : Server.UploadOutcome)
  (parsed : jsstring + PdfService.PdfData) (recognized : jsstring + OcrService.OcrData)
  (extractedAt processedAt : jsstring) (body : Server.Body) :
  Server.extractRoute toLowerCase upload parsed recognized extractedAt processedAt
  = Server.Processed body ->
  (exists r, Server.extraction body = Server.FromPdf r
             /\ PdfService.extractTextFromPDF parsed extractedAt = inr r
             /\ Server.engagement body
                = if negb (falsy (PdfService.text r))
                  then Some (analyzeEngagement toLowerCase (PdfService.text r) (lit "pdf"))
                  else None)
  \/ (exists r, Server.extraction body = Server.FromImage r
                /\ OcrService.extractTextFromImage recognized extractedAt = inr r
                /\ Server.engagement body
                   = if negb (falsy (OcrService.text r))
                     then Some (analyzeEngagement toLowerCase (OcrService.text r)
                                  (lit "image"))
                     else None)
  \/ (Server.extraction body = Server.Unprocessed /\ Server.engagement body = None).
Proof.
  unfold Server.extractRoute. destruct upload as [code msg | msg | | file].
  - destruct (str_eqb code _); discriminate.
  - discriminate.
  - discriminate.
  - destruct (str_eqb (Server.mimetype file) (lit "application/pdf")).
    + destruct (PdfService.extractTextFromPDF parsed extractedAt) as [msg|r] eqn:Hr;
        [discriminate|].
      intros [= <-]. left. exists r.
      destruct (proj1 (extraction_text_trimmed parsed recognized extractedAt) r Hr) as [Hs _].
      cbn [Server.extraction Server.engagement Server.extractionText
           Server.extractionSuccess]. rewrite Hs. cbn [andb]. repeat split.
    + destruct (startsWith (lit "image/") (Server.mimetype file)).
      * destruct (OcrService.extractTextFromImage recognized extractedAt) as [msg|r] eqn:Hr;
          [discriminate|].
        intros [= <-]. right. left. exists r.
        destruct (proj2 (extraction_text_trimmed parsed recognized extractedAt) r Hr)
          as [Hs _].
        cbn [Server.extraction Server.engagement Server.extractionText
             Server.extractionSuccess]. rewrite Hs. cbn [andb]. repeat split.
      * intros [= <-]. right. right. split; reflexivity.
Qed.

(** Property X17.  Through the route the analysis never takes its empty-input branch: both
    services trim their text and the route analyses it only when it is not
    empty.  So an engagement in a response is always built from the seven
    extractors, carries an optimized text and scores at least 19; the
    response has no engagement exactly when no text was extracted. *)
Theorem route_engagement_is_full_analysis (upload : Server.UploadOutcome)
  (parsed : jsstring + PdfService.PdfData) (recognized : jsstring + OcrService.OcrData)
  (extractedAt processedAt : jsstring) (body : Server.Body) :
  Server.extractRoute toLowerCase upload parsed recognized extractedAt processedAt
  = Server.Processed body ->
  match Server.engagement body with
  | Some e =>
      exists text,
        Server.extractionText (Server.extraction body) = Some text
        /\ text <> []
        /\ analysis e = Extracted (features toLowerCase text)
        /\ optimizedContent e
           = Some (generateOptimizedVersion text (features toLowerCase text))
        /\ 19 <= score e <= 100
  | None =>
      Server.extractionText (Server.extraction body) = None
      \/ Server.extractionText (Server.extraction body) = Some []
  end.
Proof.
  intros H. apply route_processed in H.
  destruct H as [(r & He & Hr & Hg) | [(r & He & Hr & Hg) | [He Hg]]];
    rewrite Hg, He; cbn [Server.extractionText].
  - destruct (proj1 (extraction_text_trimmed parsed recognized extractedAt) r Hr) as [_ Ht].
    destruct (falsy (PdfService.text r)) eqn:Hf; cbn [negb].
    + right. destruct (PdfService.text r); [reflexivity | discriminate Hf].
    + exists (PdfService.text r).
      destruct (analyze_trimmed_text (PdfService.text r) (lit "pdf") Ht Hf)
        as (Ha & Ho & _ & Hs).
      split; [reflexivity|]. split; [intros E; rewrite E in Hf; discriminate Hf|].
      split; [exact Ha|]. split; [exact Ho|]. split; [exact Hs|].
      apply score_bounded_range.
  - destruct (proj2 (extraction_text_trimmed parsed recognized extractedAt) r Hr)
      as (_ & Ht & _).
    destruct (falsy (OcrService.text r)) eqn:Hf; cbn [negb].
    + right. destruct (OcrService.text r); [reflexivity | discriminate Hf].
    + exists (OcrService.text r).
      destruct (analyze_trimmed_text (OcrService.text r) (lit "image") Ht Hf)
        as (Ha & Ho & _ & Hs).
      split; [reflexivity|]. split; [intros E; rewrite E in Hf; discriminate Hf|].
      split; [exact Ha|]. split; [exact Ho|]. split; [exact Hs|].
      apply score_bounded_range.
  - now left.
Qed.

(** Property X18.  An image never yields an emoji, so the engagement of an image upload
    counts no emoji and always carries the suggestion to add some. *)
Theorem image_upload_always_suggests_emojis (upload : Server.UploadOutcome)
  (parsed : jsstring + PdfService.PdfData) (recognized : jsstring + OcrService.OcrData)
  (extractedAt processedAt : jsstring) (body : Server.Body) (r : OcrService.Result)
  (e : AnalysisResult) :
  Server.extractRoute toLowerCase upload parsed recognized extractedAt processedAt
  = Server.Processed body ->
  Server.extraction body = Server.FromImage r ->
  Server.engagement body = Some e ->
  In (Advice addEmojis) (suggestions e)
  /\ (exists a, analysis e = Extracted a /\ Emojis.found (Analysis.emojis a) = 0)
  /\ Stats.lines (OcrService.stats r) = 1.
Proof.
  intros H He Hg. apply route_processed in H.
  destruct H as [(r' & He' & _) | [(r' & He' & Hr & Hg') | [He' _]]];
    rewrite He in He'; try discriminate He'.
  injection He' as <-. rewrite Hg in Hg'.
  destruct (proj2 (extraction_text_trimmed parsed recognized extractedAt) r Hr)
    as (_ & Ht & d & Hd).
  destruct (falsy (OcrService.text r)) eqn:Hf; cbn [negb] in Hg'; [discriminate Hg'|].
  injection Hg' as ->.
  destruct (analyze_trimmed_text (OcrService.text r) (lit "image") Ht Hf)
    as (Ha & _ & Hs & _).
  destruct (ocr_text_is_flat_ascii_facts d) as (Hl & Hem).
  assert (Hz : Emojis.found (Analysis.emojis (features toLowerCase (OcrService.text r))) = 0).
  { cbn [features Analysis.emojis]. rewrite Hd. exact Hem. }
  split; [|split].
  - change (In (Advice addEmojis)
              (suggestions (analyzeEngagement toLowerCase (OcrService.text r) (lit "image")))).
    rewrite Hs. apply in_map.
    apply addEmojis_when_none; [apply features_cta_consistent | exact Hz].
  - exists (features toLowerCase (OcrService.text r)). split; [exact Ha | exact Hz].
  - unfold OcrService.extractTextFromImage in Hr. destruct recognized as [msg|data].
    + repeat match type of Hr with
      | (if ?b then _ else _) = _ => destruct b
      end; discriminate Hr.
    + injection Hr as <-. cbn [OcrService.stats OcrService.text] in *.
      rewrite Hd. exact Hl.
Qed.

End ServerFacts.

(* ================================================================== *)
(** ** The text of a PDF *)

Lemma noPair_cons (bad : N -> N -> bool) (a : N) (r : jsstring) :
  noPair bad r = true ->
  match r with
  | b :: _ => bad a b = false
  | [] => True
  end ->
  noPair bad (a :: r) = true.
Proof.
  intros Hr Hh. cbn [noPair]. rewrite Hr, andb_true_r.
  destruct r; [reflexivity | now rewrite Hh].
Qed.

Lemma noPair_spec (bad : N -> N -> bool) (s : jsstring) :
  noPair bad s = true ->
  forall pre a b post, s = pre ++ a :: b :: post -> bad a b = false.
Proof.
  intros H pre. revert s H. induction pre as [|x pre IH]; intros s H a b post E.
  - subst s. cbn [app noPair] in H. apply andb_true_iff in H as [H _].
    now apply negb_true_iff.
  - subst s. cbn [app noPair] in H. apply andb_true_iff in H as [_ H].
    exact (IH _ H a b post eq_refl).
Qed.

Lemma noPair_app_inv (bad : N -> N -> bool) (x y : jsstring) :
  noPair bad (x ++ y) = true -> noPair bad x = true /\ noPair bad y = true.
Proof.
  induction x as [|a x IH]; intros H; [now split|].
  cbn [app noPair] in H. apply andb_true_iff in H as [Hh Ht].
  destruct (IH Ht) as [Hx Hy]. split; [|exact Hy].
  cbn [noPair]. rewrite Hx, andb_true_r.
  destruct x as [|b x]; [reflexivity | exact Hh].
Qed.

Lemma trim_middle (s : jsstring) : exists pre suf, s = pre ++ trim s ++ suf.
Proof.
  unfold trim. destruct (trimEnd_split (trimStart s)) as (suf & E & _).
  exists (takeWhile isWhiteSpace s), suf.
  rewrite <- E. apply takeWhile_dropWhile.
Qed.

Lemma noPair_trim (bad : N -> N -> bool) (s : jsstring) :
  noPair bad s = true -> noPair bad (trim s) = true.
Proof.
  intros H. destruct (trim_middle s) as (pre & suf & E). rewrite E in H.
  apply noPair_app_inv in H as [_ H]. now apply noPair_app_inv in H as [H _].
Qed.

(** After [replace(/[ \t]+/g, ' ')] no two spaces are neighbours; right
    after a collapsed run the next character is not a space. *)
Lemma collapse_spaces_pairs (s : jsstring) :
  forall skip,
    (skip = 0%nat \/ skip = List.length (takeWhile isSpaceOrTab s)) ->
    noPair doubleSpace (replaceAll_from (m_plus isSpaceOrTab) (fun _ => lit " ") skip s) = true
    /\ (skip = List.length (takeWhile isSpaceOrTab s) ->
        headIsNot 32 (replaceAll_from (m_plus isSpaceOrTab) (fun _ => lit " ") skip s)).
Proof.
  induction s as [|c r IH]; intros skip Hskip; cbn [replaceAll_from].
  - split; [reflexivity | intros _; exact I].
  - destruct skip as [|k].
    + assert (Hm : m_plus isSpaceOrTab (c :: r)
                   = if isSpaceOrTab c
                     then Some (S (List.length (takeWhile isSpaceOrTab r))) else None).
      { unfold m_plus. cbn [takeWhile]. destruct (isSpaceOrTab c); reflexivity. }
      rewrite Hm. cbn [takeWhile]. destruct (isSpaceOrTab c) eqn:Hc.
      * destruct (IH (List.length (takeWhile isSpaceOrTab r)) (or_intror eq_refl))
          as [Hn Hh]. specialize (Hh eq_refl). split.
        -- cbn [lit app]. apply noPair_cons; [exact Hn|].
           destruct (replaceAll_from _ _ _ r) as [|b out]; [exact I|].
           unfold doubleSpace. cbn in Hh. apply N.eqb_neq in Hh.
           now rewrite Hh, andb_false_r.
        -- cbn [List.length]. discriminate.
      * destruct (IH 0%nat (or_introl eq_refl)) as [Hn _]. split.
        -- apply noPair_cons; [exact Hn|].
           destruct (replaceAll_from _ _ _ r) as [|b out]; [exact I|].
           unfold doubleSpace.
           destruct (N.eqb_spec c 32) as [->|]; [discriminate Hc | reflexivity].
        -- intros _. cbn. intros ->. discriminate Hc.
    + destruct Hskip as [Hk | Hk]; [discriminate Hk|].
      cbn [takeWhile] in Hk. destruct (isSpaceOrTab c); [|discriminate Hk].
      injection Hk as Hk. destruct (IH k (or_intror Hk)) as [Hn Hh].
      split; [exact Hn | intros _; now apply Hh].
Qed.

Lemma m_breakSpace_spec (c : N) (r : jsstring) :
  m_breakSpace (c :: r)
  = match r with
    | d :: _ => if (N.eqb c 10 && N.eqb d 32)%bool then Some 2%nat else None
    | [] => None
    end.
Proof.
  unfold m_breakSpace, m_regex.
  change (rmatch (Cat (Chr isNewline) (Chr isSpace)) (c :: r) (fun rest => Some rest))
    with (if isNewline c then rmatch (Chr isSpace) r (fun rest => Some rest) else None).
  unfold isNewline. destruct (N.eqb c 10); [|now destruct r].
  destruct r as [|d r']; [reflexivity|]. cbn [rmatch andb]. unfold isSpace.
  destruct (N.eqb d 32); [|reflexivity]. f_equal. cbn [List.length]. lia.
Qed.

(** After [replace(/\n /g, '\n')] on a text without double spaces, no space
    follows a space or a line break. *)
Lemma drop_break_spaces_pairs (s : jsstring) :
  noPair doubleSpace s = true ->
  (noPair untidySpace (replaceAll_from m_breakSpace (fun _ => [newline]) 0 s) = true
   /\ (headIsNot 32 s -> headIsNot 32 (replaceAll_from m_breakSpace (fun _ => [newline]) 0 s)))
  /\ (forall r', s = 32%N :: r' ->
        noPair untidySpace (replaceAll_from m_breakSpace (fun _ => [newline]) 1 s) = true
        /\ headIsNot 32 (replaceAll_from m_breakSpace (fun _ => [newline]) 1 s)).
Proof.
  induction s as [|c r IH]; intros Hs.
  - split; [split; [reflexivity | intros _; exact I] | intros r' E; discriminate E].
  - cbn [noPair] in Hs. apply andb_true_iff in Hs as [Hh Hr].
    destruct (IH Hr) as [[Hn0 Hh0] H1]. split.
    + cbn [replaceAll_from]. rewrite m_breakSpace_spec.
      destruct r as [|d r'].
      * split; [reflexivity|]. intros H; exact H.
      * destruct (N.eqb_spec c 10) as [->|Hc10]; cbn [andb].
        -- destruct (N.eqb_spec d 32) as [->|Hd].
           ++ destruct (H1 r' eq_refl) as [Hn Hhd]. cbn [app]. split.
              ** apply noPair_cons; [exact Hn|].
                 destruct (replaceAll_from _ _ 1 _) as [|b out]; [exact I|].
                 unfold untidySpace. cbn in Hhd. apply N.eqb_neq in Hhd.
                 now rewrite Hhd, andb_false_r.
              ** intros _. cbn. discriminate.
           ++ split.
              ** apply noPair_cons; [exact Hn0|].
                 assert (Hd' : headIsNot 32 (d :: r')) by exact Hd.
                 specialize (Hh0 Hd').
                 destruct (replaceAll_from _ _ 0 _) as [|b out]; [exact I|].
                 unfold untidySpace. cbn in Hh0. apply N.eqb_neq in Hh0.
                 now rewrite Hh0, andb_false_r.
              ** intros _. cbn. discriminate.
        -- split.
           ++ apply noPair_cons; [exact Hn0|].
              destruct (replaceAll_from m_breakSpace (fun _ => [newline]) 0 (d :: r'))
                as [|b out] eqn:Eo; [exact I|].
              unfold untidySpace. apply N.eqb_neq in Hc10. rewrite Hc10, orb_false_r.
              destruct (N.eqb_spec c 32) as [->|]; [|reflexivity]. cbn [andb].
              unfold doubleSpace in Hh. cbn [N.eqb andb] in Hh.
              assert (Hd : headIsNot 32 (d :: r')).
              { cbn. intros ->. discriminate Hh. }
              specialize (Hh0 Hd). cbn in Hh0. now apply N.eqb_neq.
           ++ intros H; exact H.
    + intros r' [= -> ->]. cbn [replaceAll_from]. split; [exact Hn0|].
      apply Hh0. destruct r' as [|d r'']; [exact I|].
      cbn. intros ->. discriminate Hh.
Qed.

Lemma replaceAll_from_keeps (P : N -> Prop) (m : matcher) (f : jsstring -> jsstring)
  (s : jsstring) :
  (forall x, Forall P (f x)) -> Forall P s ->
  forall skip, Forall P (replaceAll_from m f skip s).
Proof.
  intros Hf. induction 1 as [|c r Hc Hr IH]; intros skip; cbn [replaceAll_from];
    [constructor|].
  destruct skip; [|apply IH].
  destruct (m (c :: r)) as [[|n]|].
  - constructor; [exact Hc | apply IH].
  - apply Forall_app. split; [apply Hf | apply IH].
  - constructor; [exact Hc | apply IH].
Qed.

(** Property X15.  The text of a PDF is tidy: trimmed, without tabs, and no space follows
    a space or a line break. *)
Theorem pdf_text_is_tidy (dataText : jsstring) :
  trim (PdfService.processText dataText) = PdfService.processText dataText
  /\ Forall (fun c => c <> 9%N) (PdfService.processText dataText)
  /\ (forall pre a b post,
        PdfService.processText dataText = pre ++ a :: b :: post ->
        b = 32%N -> a <> 32%N /\ a <> 10%N).
Proof.
  split; [unfold PdfService.processText; apply trim_idempotent|].
  unfold PdfService.processText.
  set (x := replaceAll (m_regex tripleBreak) _ dataText).
  assert (E : replaceAll (m_regex (Plus (Chr isSpaceOrTab))) (fun _ => lit " ") x
              = replaceAll_from (m_plus isSpaceOrTab) (fun _ => lit " ") 0 x)
    by (apply replaceAll_from_ext; intros t; apply m_regex_plus).
  rewrite E. set (y := replaceAll_from (m_plus isSpaceOrTab) _ 0 x).
  assert (Hy : noPair doubleSpace y = true)
    by (apply (collapse_spaces_pairs x 0); now left).
  assert (Ty : Forall (fun c => c <> 9%N) y).
  { pose proof (replaceAll_collapse_class isSpaceOrTab 32 x 0) as H.
    change (fun _ : jsstring => [32%N]) with (fun _ : jsstring => lit " ") in H.
    fold y in H. rewrite Forall_forall in *. intros c Hc.
    destruct (H c Hc) as [-> | Hn]; [discriminate|]. intros ->. discriminate Hn. }
  split.
  - apply Forall_trim. apply replaceAll_from_keeps; [|exact Ty].
    intros _. constructor; [discriminate | constructor].
  - intros pre a b post Ep ->.
    destruct (drop_break_spaces_pairs y Hy) as [[Hn _] _].
    apply noPair_trim in Hn.
    pose proof (noPair_spec _ _ Hn pre a 32%N post Ep) as Hb.
    unfold untidySpace in Hb. cbn [N.eqb] in Hb. rewrite andb_true_r in Hb.
    apply orb_false_iff in Hb as [H1 H2].
    split; now apply N.eqb_neq.
Qed.

(* ================================================================== *)
(** ** More of the service on concrete inputs *)

Lemma tagged_tokens_witness :
  In (lit "#launch") (Hashtags.list (analyzeHashtags samplePost))
  /\ isTaggedToken 35 (lit "#launch")
  /\ occursMaximal (lit "#launch") samplePost
  /\ In (lit "@company") (Mentions.list (analyzeMentions samplePost))
  /\ isTaggedToken 64 (lit "@company").
Proof.
  assert (Hh : In (lit "#launch") (Hashtags.list (analyzeHashtags samplePost)))
    by (vm_compute; tauto).
  assert (Hm : In (lit "@company") (Mentions.list (analyzeMentions samplePost)))
    by (vm_compute; tauto).
  destruct (proj1 (tagged_tokens_are_whole_words samplePost) _ Hh) as [H1 H2].
  destruct (proj2 (tagged_tokens_are_whole_words samplePost) _ Hm) as [H3 _].
  repeat split; assumption.
Defined.

Lemma emoji_list_witness :
  In [9728%N] (Emojis.list (analyzeEmojis polishedPost))
  /\ isEmojiToken [9728%N]
  /\ NoDup (Emojis.list (analyzeEmojis polishedPost)).
Proof.
  assert (H : In [9728%N] (Emojis.list (analyzeEmojis polishedPost)))
    by (vm_compute; tauto).
  destruct (emoji_list_is_deduplicated polishedPost) as (Hn & He & _).
  split; [exact H|]. split; [exact (He _ H) | exact Hn].
Defined.

Lemma callToAction_witness :
  In (lit "share") ctaWords
  /\ asciiLower polishedPost
     = lit "discover our new product today and join the launch party with @company! "
       ++ [9728%N] ++ lit " " ++ lit "share" ++ lit " your thoughts below #launch #tech"
  /\ In (lit "share") (CallToAction.words (analyzeCallToAction asciiLower polishedPost)).
Proof.
  split; [vm_compute; tauto|]. split; [reflexivity|].
  apply (proj1 (callToAction_by_substring asciiLower polishedPost)).
  split; [vm_compute; tauto|].
  exists (lit "discover our new product today and join the launch party with @company! "
          ++ [9728%N] ++ lit " "), (lit " your thoughts below #launch #tech").
  reflexivity.
Defined.

Lemma sentiment_witness :
  3 <= Sentiment.engagementWords
         (analyzeSentiment asciiLower (lit "A new, exciting and unique offer"))
  /\ Sentiment.engagement
       (analyzeSentiment asciiLower (lit "A new, exciting and unique offer")) = EngHigh
  /\ Counts (occursIn (asciiLower (lit "A new, exciting and unique offer"))) engagementWords 3.
Proof.
  split; [vm_compute; discriminate|]. split.
  - apply (proj1 (proj2 (sentiment_by_lexicon_counts asciiLower
                           (lit "A new, exciting and unique offer")))).
    vm_compute; discriminate.
  - exact (proj1 (proj2 (proj2 (proj2 (proj2 (proj2 (proj2 (proj2 (proj2
             (proj2 (sentiment_by_lexicon_counts asciiLower
                       (lit "A new, exciting and unique offer")))))))))))).
Defined.

Lemma readability_witness :
  wordCount weakestPost <= 20 + 1
  /\ 0 < Readability.sentences (analyzeReadability weakestPost)
  /\ 20 * Readability.sentences (analyzeReadability weakestPost) < wordCount weakestPost
  /\ Readability.level (analyzeReadability weakestPost) = Difficult
  /\ wordCount samplePost <= 20
  /\ (Readability.level (analyzeReadability samplePost) = Difficult -> False).
Proof.
  split; [vm_compute; discriminate|].
  split; [reflexivity|]. split; [reflexivity|]. split.
  - apply (proj1 (proj2 (readability_penalties_exclusive weakestPost))).
    split; reflexivity.
  - split; [vm_compute; discriminate|].
    apply (proj1 (proj2 (proj2 (proj2 (readability_penalties_exclusive samplePost))))).
    vm_compute; discriminate.
Defined.

Lemma length_status_witness :
  len weakestPost < 100
  /\ Length.status (analyzeLength weakestPost) = TooShort
  /\ isBlank weakestPost = false
  /\ 1 <= Length.words (analyzeLength weakestPost).
Proof.
  split; [reflexivity|]. split.
  - apply (proj1 (length_status_thresholds weakestPost)). reflexivity.
  - split; [reflexivity|].
    apply (proj2 (proj2 (proj2 (proj2 (proj2 (length_status_thresholds weakestPost)))))).
    reflexivity.
Defined.

Lemma lowest_score_witness :
  isBlank weakestPost = false
  /\ 19 <= score (analyzeEngagement asciiLower weakestPost (lit "pdf")) <= 100
  /\ score (analyzeEngagement asciiLower weakestPost (lit "pdf")) = 19.
Proof.
  split; [reflexivity|]. split; [|reflexivity].
  apply (proj1 (score_zero_only_for_blank asciiLower weakestPost (lit "pdf"))).
  reflexivity.
Defined.

Lemma grade_order_witness :
  score (analyzeEngagement asciiLower weakestPost (lit "pdf"))
  <= score (analyzeEngagement asciiLower samplePost (lit "image"))
  /\ gradeRank (grade (analyzeEngagement asciiLower weakestPost (lit "pdf")))
     <= gradeRank (grade (analyzeEngagement asciiLower samplePost (lit "image"))).
Proof.
  split; [vm_compute; discriminate|].
  apply (higher_score_never_lower_grade asciiLower).
  vm_compute; discriminate.
Defined.

Lemma full_score_witness :
  isBlank polishedPost = false
  /\ suggestions (analyzeEngagement asciiLower polishedPost (lit "pdf")) = []
  /\ score (analyzeEngagement asciiLower polishedPost (lit "pdf")) = 100
  /\ grade (analyzeEngagement asciiLower polishedPost (lit "pdf")) = GradeAplus.
Proof.
  split; [reflexivity|]. split; [reflexivity|].
  apply (no_suggestion_means_full_score asciiLower polishedPost (lit "pdf")); reflexivity.
Defined.

Lemma optimized_text_witness :
  isBlank (lit "  hello  ") = false
  /\ Hashtags.found
       (analyzeHashtags
          (generateOptimizedVersion (lit "  hello  ") (features asciiLower (lit "  hello  "))))
     = 3.
Proof.
  split; [reflexivity|].
  destruct (optimized_text_has_hashtags asciiLower (lit "  hello  ") (lit "pdf") eq_refl)
    as (_ & _ & H & _).
  exact H.
Defined.

Lemma ocr_text_witness :
  OcrService.processText (OcrService.data_text sampleOcrData)
  = lit "Join us today new offers  @shop"
  /\ Stats.lines (calculateStatistics (OcrService.processText (OcrService.data_text sampleOcrData)))
     = 1.
Proof.
  split; [reflexivity|].
  exact (proj1 (proj2 (proj2 (ocr_text_is_flat_ascii (OcrService.data_text sampleOcrData))))).
Defined.


Lemma pdf_text_witness :
  PdfService.processText (PdfService.data_text samplePdfData)
  = lit "Title page" ++ [newline] ++ lit "body text"
  /\ Forall (fun c => c <> 9%N) (PdfService.processText (PdfService.data_text samplePdfData)).
Proof.
  split; [reflexivity|].
  exact (proj1 (proj2 (pdf_text_is_tidy (PdfService.data_text samplePdfData)))).
Defined.

Lemma accepted_upload_witness :
  Server.fileFilter (Server.mimetype sampleImage) = inr true
  /\ match extractHandler asciiLower (Server.Uploaded sampleImage)
             (inr samplePdfData) (inr sampleOcrData) (lit "t1") (lit "t2")
             None true None with
     | None => False
     | Some (Server.Rejected _ _ _) => False
     | Some (Server.Processed body) =>
         Server.type body = Some (lit "image")
         /\ exists r, Server.extraction body = Server.FromImage r
                      /\ OcrService.extractTextFromImage (inr sampleOcrData) (lit "t1")
                         = inr r
     | Some (Server.Failed _ _ _ _) => False
     end
  /\ extractHandler asciiLower oversizedUpload
       (inr samplePdfData) (inr sampleOcrData) (lit "t1") (lit "t2") None true None
     = Some (Server.Rejected 400 (lit "File too large")
               (lit "File size exceeds 10MB limit")).
Proof.
  split; [reflexivity|]. split.
  - pose proof (proj1 (accepted_upload_is_routed asciiLower (Server.Uploaded sampleImage)
                         (inr samplePdfData) (inr sampleOcrData) (lit "t1") (lit "t2")
                         None true None) sampleImage eq_refl eq_refl) as H.
    destruct (extractHandler asciiLower (Server.Uploaded sampleImage)
                (inr samplePdfData) (inr sampleOcrData) (lit "t1") (lit "t2")
                None true None) as [[status error message|body|status error message ft]|] eqn:E.
    + exact H.
    + destruct H as [_ [(Hpdf & _) | (_ & Ht & Hr)]]; [discriminate Hpdf|].
      split; [exact Ht | exact Hr].
    + discriminate E.
    + discriminate E.
  - exact (proj2 (proj2 (proj2 (accepted_upload_is_routed asciiLower oversizedUpload
                                  (inr samplePdfData) (inr sampleOcrData)
                                  (lit "t1") (lit "t2") None true None)))
             (lit "File too large") eq_refl).
Defined.

Lemma route_engagement_witness :
  match Server.extractRoute asciiLower (Server.Uploaded sampleImage)
          (inr samplePdfData) (inr sampleOcrData) (lit "t1") (lit "t2") with
  | Server.Processed body =>
      match Server.engagement body with
      | Some e =>
          exists text,
            Server.extractionText (Server.extraction body) = Some text
            /\ text <> []
            /\ analysis e = Extracted (features asciiLower text)
            /\ optimizedContent e
               = Some (generateOptimizedVersion text (features asciiLower text))
            /\ 19 <= score e <= 100
      | None =>
          Server.extractionText (Server.extraction body) = None
          \/ Server.extractionText (Server.extraction body) = Some []
      end
  | _ => False
  end.
Proof.
  pose proof (route_engagement_is_full_analysis asciiLower (Server.Uploaded sampleImage)
                (inr samplePdfData) (inr sampleOcrData) (lit "t1") (lit "t2")) as H.
  remember (Server.extractRoute asciiLower (Server.Uploaded sampleImage)
              (inr samplePdfData) (inr sampleOcrData) (lit "t1") (lit "t2")) as resp eqn:E.
  destruct resp as [st er msg | body | st er msg ty].
  - vm_compute in E. discriminate E.
  - exact (H body eq_refl).
  - vm_compute in E. discriminate E.
Defined.

Lemma image_upload_witness :
  match Server.extractRoute asciiLower (Server.Uploaded sampleImage)
          (inr samplePdfData) (inr sampleOcrData) (lit "t1") (lit "t2") with
  | Server.Processed body =>
      match Server.extraction body, Server.engagement body with
      | Server.FromImage r, Some e =>
          In (Advice addEmojis) (suggestions e)
          /\ (exists a, analysis e = Extracted a /\ Emojis.found (Analysis.emojis a) = 0)
          /\ Stats.lines (OcrService.stats r) = 1
      | _, _ => False
      end
  | _ => False
  end.
Proof.
  pose proof (image_upload_always_suggests_emojis asciiLower (Server.Uploaded sampleImage)
                (inr samplePdfData) (inr sampleOcrData) (lit "t1") (lit "t2")) as H.
  remember (Server.extractRoute asciiLower (Server.Uploaded sampleImage)
              (inr samplePdfData) (inr sampleOcrData) (lit "t1") (lit "t2")) as resp eqn:E.
  destruct resp as [st er msg | body | st er msg ty].
  - vm_compute in E. discriminate E.
  - destruct (Server.extraction body) as [|r|r] eqn:Ex.
    + vm_compute in E. injection E as E. rewrite E in Ex. discriminate Ex.
    + vm_compute in E. injection E as E. rewrite E in Ex. discriminate Ex.
    + destruct (Server.engagement body) as [e|] eqn:Eg.
      * exact (H body r e eq_refl Ex Eg).
      * vm_compute in E. injection E as E. rewrite E in Eg. discriminate Eg.
  - vm_compute in E. discriminate E.
Defined.
